(** * CAD prediction system: record store, access control and risk thresholds

    A shallow embedding of the persistence and authentication layer of the
    backend variants [app_mongodb.py], [app_sqlite_old.py] and [app_v2.py],
    together with the properties stated about them. *)

From Stdlib Require Import ZArith List String Ascii Bool Lia Floats.
From Stdlib Require Import DecimalString.
From Stdlib Require Import Permutation Sorted.
Import ListNotations.

Set Warnings "-inexact-float".

Local Open Scope string_scope.
Local Open Scope Z_scope.

(** ** Risk thresholds

    [get_risk_category] is the same function in [app_mongodb.py] and
    [app_v2.py].  Probabilities are Python floats, that is IEEE 754 binary64
    values, which are exactly the kernel's primitive floats; the literals
    [0.33] and [0.67] denote the same doubles in both languages. *)

Definition get_risk_category (probability : float) : string * string :=
  if (probability <? 0.33)%float then ("LOW", "#27ae60")
  else if (probability <? 0.67)%float then ("MEDIUM", "#f39c12")
  else ("HIGH", "#e74c3c").

(** Membership of the closed unit interval, with float comparisons (so that
    NaN is excluded). *)
Definition in_unit_interval (p : float) : bool :=
  ((0 <=? p) && (p <=? 1))%float.

(** ** Python values, exceptions and the platform

    The code is Python: a call either returns or raises, and every database
    function wraps its body in [try ... except].  [outcome] is the result of
    a call; [exn] keeps the one class the code distinguishes
    ([DuplicateKeyError]) apart from every other [Exception], with the text
    that [str(e)] gives. *)

Inductive exn :=
| DuplicateKeyError (msg : string)
| Exception (msg : string).

Definition str_exn (e : exn) : string :=
  match e with
  | DuplicateKeyError m => m
  | Exception m => m
  end.

Inductive outcome (A : Type) :=
| Ok (a : A)
| Raised (e : exn).

Arguments Ok {A} a.
Arguments Raised {A} e.

(** A value handed to [int(...)]: the route's integer default or the text of
    a query-string parameter. *)
Inductive pyval :=
| PyInt (z : Z)
| PyStr (s : string).

(** An identifier handed to the Mongo functions: an [ObjectId] or its text
    (the session cookie stores [str(user_id)]). *)
Inductive idarg :=
| IdObj (z : Z)
| IdStr (s : string).

(** Library calls whose results the code only passes along.  They are kept
    abstract: every property below holds whatever they compute. *)
Class Runtime := {
  (** [int(s)] on a string; [Raised] is the [ValueError]. *)
  int_of_str : string -> outcome Z;
  (** [float(s)] on a string. *)
  float_of_str : string -> outcome float;
  (** [round(x, 2)]. *)
  round2 : float -> float;
  (** werkzeug's [generate_password_hash] (the salt is the platform's). *)
  generate_password_hash : string -> string;
  (** The verdict of werkzeug's [check_password_hash hash password]. *)
  hash_accepts : string -> string -> bool;
  (** [ObjectId(s)] and [str(oid)]. *)
  ObjectId : string -> outcome Z;
  str_oid : Z -> string;
  (** The header of the data set, without the target column. *)
  FEATURE_NAMES : list string;
  (** [scaler.transform] followed by [model.predict_proba(...)[0][1]];
      [None] when the pickles were not found at start-up. *)
  classifier : option (list float -> outcome float)
}.

Definition py_int `{Runtime} (v : pyval) : outcome Z :=
  match v with
  | PyInt z => Ok z
  | PyStr s => int_of_str s
  end.

(** ** Strings *)

Definition is_upper (c : ascii) : bool :=
  ((65 <=? nat_of_ascii c) && (nat_of_ascii c <=? 90))%nat.

Definition lower_ascii (c : ascii) : ascii :=
  if is_upper c then ascii_of_nat (nat_of_ascii c + 32) else c.

(** [str.lower()], on the ASCII letters. *)
Fixpoint lower (s : string) : string :=
  match s with
  | EmptyString => EmptyString
  | String c s' => String (lower_ascii c) (lower s')
  end.

(** [needle in hay]. *)
Fixpoint contains (needle hay : string) : bool :=
  if String.prefix needle hay then true
  else match hay with
       | EmptyString => false
       | String _ hay' => contains needle hay'
       end.

Definition is_space (c : ascii) : bool :=
  let n := nat_of_ascii c in
  ((n =? 32) || ((9 <=? n) && (n <=? 13)) || ((28 <=? n) && (n <=? 31)))%nat.

Fixpoint lstrip (s : string) : string :=
  match s with
  | String c s' => if is_space c then lstrip s' else s
  | EmptyString => EmptyString
  end.

Fixpoint rstrip (s : string) : string :=
  match s with
  | EmptyString => EmptyString
  | String c s' =>
      match rstrip s' with
      | EmptyString => if is_space c then EmptyString else String c EmptyString
      | t => String c t
      end
  end.

(** [str.strip()]. *)
Definition strip (s : string) : string := rstrip (lstrip s).

(** [len(s) < n]. *)
Definition shorter_than (s : string) (n : nat) : bool :=
  (String.length s <? n)%nat.

(** Truthiness of an optional query-string parameter: [None] and the empty
    string are both false. *)
Definition truthy (o : option string) : bool :=
  match o with
  | Some s => negb (s =? "")%string
  | None => false
  end.

(** The text of an optional argument ([None] never reaches a use). *)
Definition text (o : option string) : string :=
  match o with
  | Some s => s
  | None => ""
  end.

(** SQLite's [LIKE]: [%] matches any run of characters, [_] any one
    character, and letters match without regard to ASCII case. *)
Fixpoint like (pattern : list ascii) (text : list ascii) : bool :=
  match pattern with
  | [] => match text with [] => true | _ => false end
  | p :: pattern' =>
      if Ascii.eqb p "%" then
        (fix any_run (t : list ascii) : bool :=
           like pattern' t ||
           match t with
           | [] => false
           | _ :: t' => any_run t'
           end) text
      else
        match text with
        | [] => false
        | c :: text' =>
            (Ascii.eqb p "_" || Ascii.eqb (lower_ascii p) (lower_ascii c))
            && like pattern' text'
        end
  end.

Definition sql_like (pattern text : string) : bool :=
  like (list_ascii_of_string pattern) (list_ascii_of_string text).

(** ** Stored records *)

Record User := mkUser {
  u_id : Z;
  u_username : string;
  u_email : string;
  u_password_hash : string;
  u_role : string;
  u_created_at : Z
}.

(** The twelve feature columns of an assessment, in the order in which
    [save_assessment] writes them. *)
Definition ASSESSMENT_COLUMNS : list string :=
  ["age"; "anaemia"; "creatinine_phosphokinase"; "diabetes";
   "ejection_fraction"; "high_blood_pressure"; "platelets";
   "serum_creatinine"; "serum_sodium"; "sex"; "smoking"; "time"].

Record Assessment := mkAssessment {
  a_id : Z;
  a_user_id : Z;
  (** One value per column of [ASSESSMENT_COLUMNS]; [None] is Python's
      [None] (SQL's NULL). *)
  a_features : list (option float);
  a_probability : float;
  a_risk_category : string;
  a_created_at : Z
}.

(** A Python dict with string keys, as the list of its assignments, newest
    first. *)
Definition dict (V : Type) := list (string * V).

Fixpoint dict_get {V} (d : dict V) (k : string) : option V :=
  match d with
  | [] => None
  | (k', v) :: d' => if (k' =? k)%string then Some v else dict_get d' k
  end.

Definition dict_set {V} (d : dict V) (k : string) (v : V) : dict V :=
  (k, v) :: d.

Definition usernames (us : list User) : list string := map u_username us.
Definition emails (us : list User) : list string := map u_email us.

(** A registration request. *)
Record Registration := mkRegistration {
  rq_username : string;
  rq_email : string;
  rq_password : string;
  rq_role : string
}.

(** ** The storage engine

    Both back ends are asked for [created_at] descending and nothing else
    ([.sort('created_at', -1)], [ORDER BY created_at DESC]).  What the engine
    guarantees is that the answer is a rearrangement of the matching rows in
    which no row precedes one with a later timestamp.  The same query is
    always answered in the same order, but no query names a second sort key,
    so a query that also carries a window ([.skip(s).limit(l)],
    [LIMIT l OFFSET s]) may meet rows with equal timestamps in an order of
    its own, which may depend on the window: [page_order s l] is the order
    in which such a query sorts the matching rows before it cuts its window
    out of them. *)

Definition newer_first (a b : Assessment) : Prop :=
  a_created_at b <= a_created_at a.

Class Engine := {
  order_by_created_desc : list Assessment -> list Assessment;
  order_permutation :
    forall l, Permutation l (order_by_created_desc l);
  order_sorted :
    forall l, StronglySorted newer_first (order_by_created_desc l);
  page_order : Z -> Z -> list Assessment -> list Assessment;
  page_permutation :
    forall s l rows, Permutation rows (page_order s l rows);
  page_sorted :
    forall s l rows, StronglySorted newer_first (page_order s l rows);
  (** The text of the [OverflowError] the driver raises when it is handed
      an integer that does not fit 64 bits. *)
  int_too_large : string
}.

(** The largest integer the drivers encode (a BSON int64, an SQLite
    INTEGER). *)
Definition INT64_MAX : Z := 2 ^ 63 - 1.

(** Dropping the first [n] rows and keeping the first [n] rows of a list,
    for [0 <= n <= INT64_MAX]. *)
Definition skip {A} (n : Z) (l : list A) : list A := skipn (Z.to_nat n) l.
Definition limit {A} (n : Z) (l : list A) : list A := firstn (Z.to_nat n) l.

(** The cursor [.sort('created_at', -1).skip(s).limit(l)] when it is
    iterated, and the statement [ORDER BY created_at DESC LIMIT l OFFSET s]
    when it is executed, over the matching [rows], for [s >= 0] and
    [l >= 1]: an [s] or [l] above [INT64_MAX] makes the driver raise. *)
Definition sliced `{Engine} (s l : Z) (rows : list Assessment)
  : outcome (list Assessment) :=
  if (INT64_MAX <? s) || (INT64_MAX <? l) then
    Raised (Exception int_too_large)
  else Ok (limit l (skip s (page_order s l rows))).

(** ** The application monad

    A request runs against a world: the storage back end, which is either
    reachable or fails every operation, the clock, and what an observer of
    the server sees besides the response, namely the lines printed to the
    server log and the password-hash verifications performed. *)

Inductive storage (D : Type) :=
| Online (d : D)
| Offline (reason : string).

Arguments Online {D} d.
Arguments Offline {D} reason.

Inductive event :=
| Printed (line : string)
| HashVerified.

Record World (D : Type) := mkWorld {
  store : storage D;
  clock : Z;
  events : list event
}.

Arguments mkWorld {D} store clock events.
Arguments store {D} w.
Arguments clock {D} w.
Arguments events {D} w.

Definition App (D A : Type) : Type := World D -> outcome A * World D.

Definition ret {D A} (a : A) : App D A := fun w => (Ok a, w).

Definition bind {D A B} (m : App D A) (k : A -> App D B) : App D B :=
  fun w =>
    match m w with
    | (Ok a, w') => k a w'
    | (Raised e, w') => (Raised e, w')
    end.

Definition raise {D A} (e : exn) : App D A := fun w => (Raised e, w).

Definition lift {D A} (o : outcome A) : App D A := fun w => (o, w).

(** [try: m  except Exception as e: h e]. *)
Definition try_except {D A} (m : App D A) (h : exn -> App D A) : App D A :=
  fun w =>
    match m w with
    | (Ok a, w') => (Ok a, w')
    | (Raised e, w') => h e w'
    end.

Definition emit {D} (ev : event) : App D unit :=
  fun w => (Ok tt, mkWorld (store w) (clock w) (events w ++ [ev])).

Definition print {D} (line : string) : App D unit := emit (Printed line).

(** [datetime.utcnow()] / [CURRENT_TIMESTAMP]. *)
Definition utcnow {D} : App D Z := fun w => (Ok (clock w), w).

(** Access to the back end: the handle when it is reachable, the error it
    raises otherwise. *)
Definition get_db {D} : App D D :=
  fun w =>
    match store w with
    | Online d => (Ok d, w)
    | Offline reason => (Raised (Exception reason), w)
    end.

Definition set_db {D} (d : D) : App D unit :=
  fun w => (Ok tt, mkWorld (Online d) (clock w) (events w)).

(** [check_password_hash]: the verdict, and the fact that the (slow) key
    derivation ran. *)
Definition check_password_hash `{Runtime} {D} (hash password : string)
  : App D bool :=
  fun w =>
    (Ok (hash_accepts hash password),
     mkWorld (store w) (clock w) (events w ++ [HashVerified])).

Declare Scope app_scope.
Delimit Scope app_scope with app.
Notation "x <- m ;; k" := (bind m (fun x => k))
  (at level 61, m at next level, right associativity) : app_scope.
Notation "m ;;; k" := (bind m (fun _ => k))
  (at level 61, right associativity) : app_scope.
Local Open Scope app_scope.

(** What a run returns, and the world it leaves. *)
Definition result {D A} (r : outcome A * World D) : outcome A := fst r.
Definition world_after {D A} (r : outcome A * World D) : World D := snd r.

(** The value a run returned, [dflt] standing for an uncaught exception. *)
Definition returned {D A} (dflt : A) (r : outcome A * World D) : A :=
  match result r with
  | Ok a => a
  | Raised _ => dflt
  end.

(** What an observer of one request learns: what was returned, and what
    the server was seen doing meanwhile. *)
Definition observation {D A} (r : outcome A * World D)
  : outcome A * list event :=
  (result r, events (world_after r)).

(** ** HTTP *)

Inductive method := GET | POST.

Record Session := mkSession {
  s_user_id : string;
  s_role : string;
  s_username : string
}.

Inductive response :=
| Render (template : string) (error : option string) (user : option string)
| RenderResult (probability_pct : float)
    (category color recommendation user : string)
| Redirect (endpoint : string).

(** [request.form.get(name, default)]. *)
Definition form_get (form : dict string) (name default : string) : string :=
  match dict_get form name with
  | Some v => v
  | None => default
  end.

Definition get_recommendation (risk : string) : string :=
  if (risk =? "LOW")%string then
    "Continue regular health check-ups. Maintain healthy lifestyle."
  else if (risk =? "MEDIUM")%string then
    "Schedule appointment with cardiologist for further evaluation."
  else if (risk =? "HIGH")%string then
    "URGENT: Consult cardiologist immediately. Consider additional testing."
  else "Unable to generate recommendation due to error.".

(** ** [app_mongodb.py] *)

Module Mongo.

Record Db := mkDb {
  users : list User;
  assessments : list Assessment;
  patient_profiles : list Z;
  doctor_profiles : list Z;
  (** The driver's side of [insert_one]: the [ObjectId] it gives the next
      document that comes without an [_id]. The code never reads it. *)
  next_oid : Z
}.

Definition M := App Db.

Record UserInfo := mkUserInfo {
  ui_user_id : Z;
  ui_role : string;
  ui_username : string
}.

(** The rows of the patient's own history. *)
Record Summary := mkSummary {
  sm_id : string;
  sm_probability : float;
  sm_risk_category : string;
  sm_created_at : Z;
  sm_age : option float;
  sm_ejection_fraction : option float
}.

(** The rows of the doctor's listing and of the CSV export. *)
Record Row := mkRow {
  r_id : string;
  r_user_id : string;
  r_username : string;
  r_features : list (option float);
  r_probability : float;
  r_risk_category : string;
  r_created_at : Z
}.

Record Page := mkPage {
  pg_assessments : list Row;
  pg_total : Z
}.

(** A filter document over the assessments collection. *)
Record Query := mkQuery {
  q_risk_category : option string;
  q_created_gte : option Z;
  q_created_lte : option Z
}.

Definition matches (q : Query) (a : Assessment) : bool :=
  match q_risk_category q with
  | Some r => (a_risk_category a =? r)%string
  | None => true
  end
  && match q_created_gte q with
     | Some d => d <=? a_created_at a
     | None => true
     end
  && match q_created_lte q with
     | Some d => a_created_at a <=? d
     | None => true
     end.

(** [find_one({'username': name})], [find_one({'email': e})] and
    [find_one({'_id': i})]. *)
Definition find_by_username (name : string) (us : list User) : option User :=
  find (fun u => (u_username u =? name)%string) us.

Definition find_by_email (e : string) (us : list User) : option User :=
  find (fun u => (u_email u =? e)%string) us.

Definition find_by_id (i : Z) (us : list User) : option User :=
  find (fun u => u_id u =? i) us.

(** [db.users.insert_one(doc)]: the unique indexes on [username] and
    [email] made by [init_mongodb] reject a duplicate. *)
Definition users_insert_one (name mail hash rl : string) (now : Z) : M Z :=
  db <- get_db ;;
  match find_by_username name (users db), find_by_email mail (users db) with
  | None, None =>
      let oid := next_oid db in
      set_db (mkDb (users db ++ [mkUser oid name mail hash rl now])
                (assessments db) (patient_profiles db) (doctor_profiles db)
                (oid + 1)) ;;;
      ret oid
  | _, _ => raise (DuplicateKeyError "E11000 duplicate key error")
  end.

Definition patient_profiles_insert_one (uid : Z) : M unit :=
  db <- get_db ;;
  set_db (mkDb (users db) (assessments db) (patient_profiles db ++ [uid])
            (doctor_profiles db) (next_oid db + 1)).

Definition doctor_profiles_insert_one (uid : Z) : M unit :=
  db <- get_db ;;
  set_db (mkDb (users db) (assessments db) (patient_profiles db)
            (doctor_profiles db ++ [uid]) (next_oid db + 1)).

Definition assessments_insert_one (uid : Z) (fs : list (option float))
    (p : float) (cat : string) (now : Z) : M unit :=
  db <- get_db ;;
  set_db (mkDb (users db)
            (assessments db ++ [mkAssessment (next_oid db) uid fs p cat now])
            (patient_profiles db) (doctor_profiles db) (next_oid db + 1)).

(** [if isinstance(user_id, str): user_id = ObjectId(user_id)]. *)
Definition oid_of `{Runtime} (i : idarg) : outcome Z :=
  match i with
  | IdObj z => Ok z
  | IdStr s => ObjectId s
  end.

Definition to_oid `{Runtime} (i : idarg) : M Z := lift (oid_of i).

Section Functions.
Context `{RT : Runtime} `{EN : Engine}.

Definition register_user (username email password role : string)
  : M (bool * string) :=
  if (username =? "")%string || shorter_than username 3 then
    ret (false, "Username must be at least 3 characters")
  else if (password =? "")%string || shorter_than password 6 then
    ret (false, "Password must be at least 6 characters")
  else if negb ((role =? "patient")%string || (role =? "doctor")%string) then
    ret (false, "Invalid role. Must be 'patient' or 'doctor'")
  else
    try_except
      (db <- get_db ;;
       match find_by_username username (users db) with
       | Some _ => ret (false, "Username already exists")
       | None =>
       match find_by_email email (users db) with
       | Some _ => ret (false, "Email already registered")
       | None =>
           let password_hash := generate_password_hash password in
           now <- utcnow ;;
           user_id <- users_insert_one username email password_hash role now ;;
           (if (role =? "patient")%string then
              patient_profiles_insert_one user_id
            else if (role =? "doctor")%string then
              doctor_profiles_insert_one user_id
            else ret tt) ;;;
           print ("✓ User registered: " ++ username ++ " (" ++ role ++ ")") ;;;
           ret (true, "Registration successful")
       end
       end)
      (fun e =>
         match e with
         | DuplicateKeyError _ =>
             ret (false, "Username or email already exists")
         | Exception _ =>
             print ("Registration error: " ++ str_exn e) ;;;
             ret (false, "Registration error: " ++ str_exn e)
         end).

Definition login_user (username password : string)
  : M (bool * option UserInfo) :=
  try_except
    (db <- get_db ;;
     match find_by_username username (users db) with
     | None => ret (false, None)
     | Some user =>
         ok <- check_password_hash (u_password_hash user) password ;;
         if ok then
           ret (true, Some (mkUserInfo (u_id user) (u_role user)
                              (u_username user)))
         else ret (false, None)
     end)
    (fun e =>
       print ("Login error: " ++ str_exn e) ;;;
       ret (false, None)).

Definition save_assessment (user_id : idarg) (features : dict float)
    (probability : float) (risk_category : string) : M bool :=
  try_except
    (db <- get_db ;;
     uid <- to_oid user_id ;;
     now <- utcnow ;;
     assessments_insert_one uid
       (map (dict_get features) ASSESSMENT_COLUMNS)
       probability risk_category now ;;;
     ret true)
    (fun e =>
       print ("Error saving assessment: " ++ str_exn e) ;;;
       ret false).

Definition feature (a : Assessment) (name : string) : option float :=
  match dict_get (combine ASSESSMENT_COLUMNS (a_features a)) name with
  | Some v => v
  | None => None
  end.

Definition summary (a : Assessment) : Summary :=
  mkSummary (str_oid (a_id a)) (a_probability a) (a_risk_category a)
    (a_created_at a) (feature a "age") (feature a "ejection_fraction").

Definition get_patient_assessments (user_id : idarg) : M (list Summary) :=
  try_except
    (db <- get_db ;;
     uid <- to_oid user_id ;;
     let cursor :=
       order_by_created_desc
         (filter (fun a => a_user_id a =? uid) (assessments db)) in
     ret (map summary cursor))
    (fun e =>
       print ("Error fetching patient assessments: " ++ str_exn e) ;;;
       ret []).

Definition filter_query (risk : option string)
    (start_date end_date : option Z) : Query :=
  mkQuery (if truthy risk then risk else None) start_date end_date.

(** The username shown for an assessment. *)
Definition uname_of (db : Db) (a : Assessment) : string :=
  match find_by_id (a_user_id a) (users db) with
  | Some user => u_username user
  | None => "Unknown"
  end.

Definition row (db : Db) (a : Assessment) : Row :=
  mkRow (str_oid (a_id a)) (str_oid (a_user_id a)) (uname_of db a)
    (a_features a) (a_probability a) (a_risk_category a)
    (a_created_at a).

(** The body of the result loop: the username test and its [continue]. *)
Definition keeps (db : Db) (username : option string) (a : Assessment)
  : bool :=
  negb (truthy username
        && negb (contains (lower (match username with
                                  | Some u => u
                                  | None => ""
                                  end))
                   (lower (uname_of db a)))).

Definition collect (db : Db) (username : option string)
    (cursor : list Assessment) : list Row :=
  map (row db) (filter (keeps db username) cursor).

(** The [try: int(...) except: defaults] block. *)
Definition page_params (page per_page : pyval) : Z * Z :=
  match py_int page with
  | Ok p =>
      match py_int per_page with
      | Ok pp => (Z.max 1 p, Z.max 1 pp)
      | Raised _ => (1, 10)
      end
  | Raised _ => (1, 10)
  end.

Definition get_assessments_paginated (page per_page : pyval)
    (risk username : option string) (start_date end_date : option Z)
  : M Page :=
  try_except
    (db <- get_db ;;
     let filter_query := filter_query risk start_date end_date in
     let total :=
       Z.of_nat (List.length
                 (filter (matches filter_query) (assessments db))) in
     let '(page, per_page) := page_params page per_page in
     let skip_ := (page - 1) * per_page in
     cursor <- lift (sliced skip_ per_page
                       (filter (matches filter_query) (assessments db))) ;;
     ret (mkPage (collect db username cursor) total))
    (fun e =>
       print ("Error fetching paginated assessments: " ++ str_exn e) ;;;
       ret (mkPage [] 0)).

Definition get_assessments_filtered (risk username : option string)
    (start_date end_date : option Z) : M (list Row) :=
  try_except
    (db <- get_db ;;
     let filter_query := filter_query risk start_date end_date in
     let cursor :=
       order_by_created_desc
         (filter (matches filter_query) (assessments db)) in
     ret (collect db username cursor))
    (fun e =>
       print ("Error fetching filtered assessments: " ++ str_exn e) ;;;
       ret []).

(** The page count the route [doctor_assessments] derives from the total
    and the page size it parsed ([//] is the floor division of [Z]). *)
Definition total_pages (total per_page : Z) : outcome Z :=
  if per_page =? 0 then
    Raised (Exception "integer division or modulo by zero")
  else Ok (Z.max 1 ((total + per_page - 1) / per_page)).

(** The users a world holds, and a run of registrations one after the
    other. *)
Definition stored_users (w : World Db) : list User :=
  match store w with
  | Online db => users db
  | Offline _ => []
  end.

Definition register_all (reqs : list Registration) (w : World Db)
  : World Db :=
  fold_left
    (fun w q =>
       world_after
         (register_user (rq_username q) (rq_email q) (rq_password q)
            (rq_role q) w))
    reqs w.

(** *** Routes *)

(** The [@patient_required] decorator. *)
Definition patient_required (session : option Session)
    (f : Session -> M response) : M response :=
  match session with
  | None => ret (Redirect "login")
  | Some s =>
      if negb (s_role s =? "patient")%string then ret (Redirect "login")
      else f s
  end.

Definition login (m : method) (form : dict string)
    (session : option Session) : M (response * option Session) :=
  match m with
  | POST =>
      let username := strip (form_get form "username" "") in
      let password := strip (form_get form "password" "") in
      if (username =? "")%string || (password =? "")%string then
        ret (Render "login.html" (Some "Username and password required")
               None, session)
      else
        r <- login_user username password ;;
        match r with
        | (true, Some user_info) =>
            let session' :=
              Some (mkSession (str_oid (ui_user_id user_info))
                      (ui_role user_info) (ui_username user_info)) in
            if (ui_role user_info =? "doctor")%string then
              ret (Redirect "doctor_dashboard", session')
            else ret (Redirect "patient_dashboard", session')
        | (true, None) =>
            raise (Exception "'NoneType' object is not subscriptable")
        | (false, _) =>
            ret (Render "login.html" (Some "Invalid username or password")
                   None, session)
        end
  | GET => ret (Render "login.html" None None, session)
  end.

Definition register_patient (m : method) (form : dict string)
  : M response :=
  match m with
  | POST =>
      let username := strip (form_get form "username" "") in
      let email := strip (form_get form "email" "") in
      let password := strip (form_get form "password" "") in
      let confirm_password :=
        strip (form_get form "confirm_password" "") in
      if negb (password =? confirm_password)%string then
        ret (Render "register_patient.html"
               (Some "Passwords do not match") None)
      else
        r <- register_user username email password "patient" ;;
        let '(success, message) := r in
        if success then ret (Redirect "login")
        else ret (Render "register_patient.html" (Some message) None)
  | GET => ret (Render "register_patient.html" None None)
  end.

(** The loop over [FEATURE_NAMES]: [inl name] is the early return for a
    missing field, [Raised] a [float(...)] that failed. *)
Fixpoint read_features (names : list string) (form : dict string)
    (features_input : dict float) (data : list float)
  : outcome (string + dict float * list float) :=
  match names with
  | [] => Ok (inr (features_input, data))
  | name :: names' =>
      match dict_get form name with
      | None => Ok (inl name)
      | Some val =>
          if (val =? "")%string then Ok (inl name)
          else
            match float_of_str val with
            | Raised e => Raised e
            | Ok v =>
                read_features names' form
                  (dict_set features_input name v) (data ++ [v])
            end
      end
  end.

Definition patient_predict (m : method) (form : dict string)
    (session : option Session) : M response :=
  patient_required session (fun s =>
    match m with
    | POST =>
        match classifier with
        | None =>
            ret (Render "predict.html" (Some "Model not loaded")
                   (Some (s_username s)))
        | Some predict_proba =>
            try_except
              (fs <- lift (read_features FEATURE_NAMES form [] []) ;;
               match fs with
               | inl name =>
                   ret (Render "predict.html" (Some ("Missing " ++ name))
                          (Some (s_username s)))
               | inr (features_input, data) =>
                   probability <- lift (predict_proba data) ;;
                   let '(risk_category, risk_color) :=
                     get_risk_category probability in
                   save_assessment (IdStr (s_user_id s)) features_input
                     probability risk_category ;;;
                   ret (RenderResult (round2 (probability * 100)%float)
                          risk_category risk_color
                          (get_recommendation risk_category)
                          (s_username s))
               end)
              (fun e =>
                 ret (Render "predict.html"
                        (Some ("Prediction error: " ++ str_exn e))
                        (Some (s_username s))))
        end
    | GET => ret (Render "predict.html" None (Some (s_username s)))
    end).

(** *** The other database functions *)

Record UserData := mkUserData {
  ud_id : string;
  ud_username : string;
  ud_email : string;
  ud_role : string;
  ud_created_at : Z
}.

Definition get_user_info (user_id : idarg) : M (option UserData) :=
  try_except
    (db <- get_db ;;
     user_id <- to_oid user_id ;;
     match find_by_id user_id (users db) with
     | Some user =>
         ret (Some (mkUserData (str_oid (u_id user)) (u_username user)
                      (u_email user) (u_role user) (u_created_at user)))
     | None => ret None
     end)
    (fun e =>
       print ("Error fetching user info: " ++ str_exn e) ;;;
       ret None).

(** [count_documents({'user_id': i})]. *)
Definition count_assessments (db : Db) (i : Z) : Z :=
  Z.of_nat (List.length (filter (fun a => a_user_id a =? i) (assessments db))).

Record PatientEntry := mkPatientEntry {
  pe_id : string;
  pe_username : string;
  pe_email : string;
  pe_registered : Z;
  pe_predictions_count : Z;
  pe_prediction_count : Z
}.

Definition patient_entry (db : Db) (patient : User) : PatientEntry :=
  let assessment_count := count_assessments db (u_id patient) in
  mkPatientEntry (str_oid (u_id patient)) (u_username patient)
    (u_email patient) (u_created_at patient) assessment_count
    assessment_count.

Definition get_all_patients : M (list PatientEntry) :=
  try_except
    (db <- get_db ;;
     let patients :=
       filter (fun u => (u_role u =? "patient")%string) (users db) in
     ret (map (patient_entry db) patients))
    (fun e =>
       print ("Error fetching patients: " ++ str_exn e) ;;;
       ret []).

Definition get_all_assessments : M (list Row) :=
  try_except
    (db <- get_db ;;
     let assessments := order_by_created_desc (assessments db) in
     ret (map (row db) assessments))
    (fun e =>
       print ("Error fetching all assessments: " ++ str_exn e) ;;;
       ret []).

(** The rows of a patient's profile: the whole assessment but its owner. *)
Record ProfileRow := mkProfileRow {
  pr_id : string;
  pr_features : list (option float);
  pr_probability : float;
  pr_risk_category : string;
  pr_created_at : Z
}.

Record PatientProfile := mkPatientProfile {
  pp_id : string;
  pp_username : string;
  pp_email : string;
  pp_registered : Z;
  pp_predictions : list ProfileRow
}.

Definition profile_row (a : Assessment) : ProfileRow :=
  mkProfileRow (str_oid (a_id a)) (a_features a) (a_probability a)
    (a_risk_category a) (a_created_at a).

(** [find_one({'_id': i, 'role': 'patient'})]. *)
Definition find_patient (i : Z) (us : list User) : option User :=
  find (fun u => (u_id u =? i) && (u_role u =? "patient")%string) us.

Definition get_patient_profile (patient_id : idarg)
  : M (option PatientProfile) :=
  try_except
    (db <- get_db ;;
     patient_id <- to_oid patient_id ;;
     match find_patient patient_id (users db) with
     | None => ret None
     | Some patient =>
         let assessments_cursor :=
           order_by_created_desc
             (filter (fun a => a_user_id a =? patient_id) (assessments db)) in
         ret (Some (mkPatientProfile (str_oid (u_id patient))
                      (u_username patient) (u_email patient)
                      (u_created_at patient)
                      (map profile_row assessments_cursor)))
     end)
    (fun e =>
       print ("Error fetching patient profile: " ++ str_exn e) ;;;
       ret None).

(** [find_one({'username': name, '_id': {'$ne': uid}})] and the same for
    [email]. *)
Definition find_other_by_username (name : string) (uid : Z) (us : list User)
  : option User :=
  find (fun u => (u_username u =? name)%string && negb (u_id u =? uid)) us.

Definition find_other_by_email (e : string) (uid : Z) (us : list User)
  : option User :=
  find (fun u => (u_email u =? e)%string && negb (u_id u =? uid)) us.

(** The [$set] document of a profile update, without its [updated_at]
    stamp (a field [User] does not keep). *)
Record UpdateDoc := mkUpdateDoc {
  set_username : option string;
  set_email : option string;
  set_password_hash : option string
}.

Definition apply_update (d : UpdateDoc) (u : User) : User :=
  mkUser (u_id u)
    (match set_username d with Some n => n | None => u_username u end)
    (match set_email d with Some e => e | None => u_email u end)
    (match set_password_hash d with Some h => h | None => u_password_hash u end)
    (u_role u) (u_created_at u).

(** The users with the first document of id [uid] changed, and the users
    without it. *)
Fixpoint replace_first (uid : Z) (d : UpdateDoc) (us : list User)
  : list User :=
  match us with
  | [] => []
  | u :: us' =>
      if u_id u =? uid then apply_update d u :: us'
      else u :: replace_first uid d us'
  end.

Fixpoint remove_first (uid : Z) (us : list User) : list User :=
  match us with
  | [] => []
  | u :: us' => if u_id u =? uid then us' else u :: remove_first uid us'
  end.

(** [db.users.update_one({'_id': uid}, {'$set': d})], which answers with the
    number of documents matched; the unique indexes reject a username or an
    e-mail address that another document holds. *)
Definition users_update_one (uid : Z) (d : UpdateDoc) : M Z :=
  db <- get_db ;;
  match find_by_id uid (users db) with
  | None => ret 0
  | Some u =>
      let u' := apply_update d u in
      if existsb (fun x => (u_username x =? u_username u')%string
                           || (u_email x =? u_email u')%string)
           (remove_first uid (users db))
      then raise (DuplicateKeyError "E11000 duplicate key error")
      else
        set_db (mkDb (replace_first uid d (users db)) (assessments db)
                  (patient_profiles db) (doctor_profiles db) (next_oid db)) ;;;
        ret 1
  end.

Definition update_user_profile (user_id : idarg)
    (new_username new_email new_password : option string)
  : M (bool * string) :=
  try_except
    (db <- get_db ;;
     user_id <- to_oid user_id ;;
     if truthy new_username
        && match find_other_by_username (text new_username) user_id
                   (users db) with
           | Some _ => true
           | None => false
           end
     then ret (false, "Username already taken")
     else if truthy new_email
             && match find_other_by_email (text new_email) user_id
                        (users db) with
                | Some _ => true
                | None => false
                end
     then ret (false, "Email already taken")
     else if truthy new_username && shorter_than (text new_username) 3
     then ret (false, "Username must be at least 3 characters")
     else if truthy new_password && shorter_than (text new_password) 6
     then ret (false, "Password must be at least 6 characters")
     else
       let update_doc :=
         mkUpdateDoc
           (if truthy new_username then new_username else None)
           new_email
           (if truthy new_password
            then Some (generate_password_hash (text new_password))
            else None) in
       match update_doc with
       | mkUpdateDoc None None None => ret (true, "No changes")
       | _ =>
           matched_count <- users_update_one user_id update_doc ;;
           if matched_count =? 0 then ret (false, "User not found")
           else ret (true, "Profile updated successfully")
       end)
    (fun e =>
       print ("Error updating profile: " ++ str_exn e) ;;;
       ret (false, str_exn e)).

(** *** Runs of writes *)

(** The calls that write to the store, and a run of them one after the
    other. *)
Inductive write :=
| Register (q : Registration)
| UpdateProfile (user_id : idarg)
    (new_username new_email new_password : option string)
| SaveAssessment (user_id : idarg) (features : dict float)
    (probability : float) (risk_category : string).

Definition perform (q : write) (w : World Db) : World Db :=
  match q with
  | Register q =>
      world_after
        (register_user (rq_username q) (rq_email q) (rq_password q)
           (rq_role q) w)
  | UpdateProfile user_id new_username new_email new_password =>
      world_after
        (update_user_profile user_id new_username new_email new_password w)
  | SaveAssessment user_id features probability risk_category =>
      world_after
        (save_assessment user_id features probability risk_category w)
  end.

Definition perform_all (qs : list write) (w : World Db) : World Db :=
  fold_left (fun w q => perform q w) qs w.

(** The write asks for a new username. *)
Definition renames (q : write) : bool :=
  match q with
  | UpdateProfile _ new_username _ _ => truthy new_username
  | _ => false
  end.

(** *** The other routes *)

(** What [render_template] and [jsonify] are handed. *)
Inductive value :=
| VStr (s : string)
| VInt (z : Z)
| VBool (b : bool)
| VUser (u : UserData)
| VSummaries (l : list Summary)
| VPatients (l : list PatientEntry)
| VPredictions (l : list ProfileRow)
| VRows (l : list Row).

Inductive view :=
| Goto (endpoint : string)
| Template (name : string) (kwargs : dict value)
| Json (status : Z) (body : dict value).

(** The three decorators: [required] is the role asked of the session,
    [None] when any logged-in user will do. *)
Definition role_required {A} (required : option string) (denied : A)
    (session : option Session) (f : Session -> M A) : M A :=
  match session with
  | None => ret denied
  | Some s =>
      match required with
      | Some r => if negb (s_role s =? r)%string then ret denied else f s
      | None => f s
      end
  end.

Definition login_required := role_required (A := view) None (Goto "login").

Definition doctor_required :=
  role_required (A := view) (Some "doctor") (Goto "login").

Definition index (session : option Session) : view :=
  match session with
  | None => Goto "login"
  | Some s =>
      if (s_role s =? "doctor")%string then Goto "doctor_dashboard"
      else Goto "patient_dashboard"
  end.

Definition patient_dashboard (session : option Session) : M view :=
  role_required (Some "patient") (Goto "login") session (fun s =>
    assessments <- get_patient_assessments (IdStr (s_user_id s)) ;;
    ret (Template "patient_dashboard.html"
           [("username", VStr (s_username s));
            ("predictions", VSummaries assessments)])).

Definition doctor_dashboard (session : option Session) : M view :=
  doctor_required session (fun s =>
    patients <- get_all_patients ;;
    ret (Template "doctor_dashboard.html"
           [("username", VStr (s_username s));
            ("patients", VPatients patients)])).

Definition doctor_patient_details (patient_id : string)
    (session : option Session) : M view :=
  doctor_required session (fun s =>
    patient <- get_patient_profile (IdStr patient_id) ;;
    match patient with
    | None =>
        ret (Template "doctor_dashboard.html"
               [("username", VStr (s_username s));
                ("error", VStr "Patient not found")])
    | Some patient =>
        ret (Template "patient_details.html"
               [("username", VStr (s_username s));
                ("patient_name", VStr (pp_username patient));
                ("patient_email", VStr (pp_email patient));
                ("patient_created_at", VInt (pp_registered patient));
                ("total_predictions",
                 VInt (Z.of_nat (List.length (pp_predictions patient))));
                ("predictions", VPredictions (pp_predictions patient))])
    end).

(** [/profile]; [json_arg] is [request.args.get('json')]. *)
Definition profile (json_arg : option string) (session : option Session)
  : M view :=
  login_required session (fun s =>
    try_except
      (user <- get_user_info (IdStr (s_user_id s)) ;;
       match user with
       | None => ret (Goto "logout")
       | Some user =>
           match json_arg with
           | Some j =>
               if (j =? "1")%string then ret (Json 200 [("user", VUser user)])
               else ret (Template "profile.html"
                           [("username", VStr (s_username s))])
           | None =>
               ret (Template "profile.html"
                      [("username", VStr (s_username s))])
           end
       end)
      (fun e =>
         print ("Error loading profile: " ++ str_exn e) ;;;
         ret (Goto "login"))).

Definition json_status (status : Z) (success : bool) (message : string)
  : view :=
  Json status [("success", VBool success); ("message", VStr message)].

(** [/profile/update] for a form-encoded request: [request.is_json] is
    false and [data] is [request.form.to_dict()], a dict of strings. *)
Definition profile_update (data : dict string) (session : option Session)
  : M (view * option Session) :=
  match session with
  | None => ret (Goto "login", session)
  | Some s =>
      let new_username :=
        match dict_get data "username" with
        | Some u => if (u =? "")%string then None else Some (strip u)
        | None => None
        end in
      let new_email := dict_get data "email" in
      let new_password := strip (form_get data "password" "") in
      let confirm_password := strip (form_get data "confirm_password" "") in
      if negb (new_password =? "")%string && shorter_than new_password 6 then
        ret (json_status 400 false "Password must be at least 6 characters",
             session)
      else if negb (new_password =? "")%string
              && negb (new_password =? confirm_password)%string then
        ret (json_status 400 false "Passwords do not match", session)
      else if truthy new_username && shorter_than (text new_username) 3 then
        ret (json_status 400 false "Username must be at least 3 characters",
             session)
      else
        r <- update_user_profile (IdStr (s_user_id s))
               (if truthy new_username then new_username else None)
               new_email
               (if negb (new_password =? "")%string then Some new_password
                else None) ;;
        let '(success, message) := r in
        if success then
          ret (json_status 200 true message,
               if truthy new_username
               then Some (mkSession (s_user_id s) (s_role s)
                            (text new_username))
               else session)
        else ret (json_status 400 false message, session)
  end.

(** The query string of the doctor's listing; the two dates are given as
    the listing compares them. *)
Record ListingArgs := mkListingArgs {
  arg_page : option string;
  arg_per_page : option string;
  arg_risk : option string;
  arg_username : option string;
  arg_start_date : option Z;
  arg_end_date : option Z
}.

(** [request.args.get(name, 1)]. *)
Definition arg_or (o : option string) (default : Z) : pyval :=
  match o with
  | Some s => PyStr s
  | None => PyInt default
  end.

Definition doctor_assessments (args : ListingArgs) (session : option Session)
  : M view :=
  doctor_required session (fun _ =>
    let page := arg_or (arg_page args) 1 in
    let per_page := arg_or (arg_per_page args) 10 in
    data <- get_assessments_paginated page per_page (arg_risk args)
              (arg_username args) (arg_start_date args) (arg_end_date args) ;;
    let assessments := pg_assessments data in
    let total := pg_total data in
    let '(page, per_page) :=
      match py_int page with
      | Ok p =>
          match py_int per_page with
          | Ok pp => (p, pp)
          | Raised _ => (1, 10)
          end
      | Raised _ => (1, 10)
      end in
    total_pages <- lift (total_pages total per_page) ;;
    ret (Json 200
           [("assessments", VRows assessments); ("total", VInt total);
            ("page", VInt page); ("per_page", VInt per_page);
            ("total_pages", VInt total_pages)])).

End Functions.

End Mongo.

(** ** [app_v2.py] and [app_sqlite_old.py]

    The two SQLite variants share [register_user], [login_user] and
    [get_patient_predictions] verbatim; the paginated listing is in
    [app_sqlite_old.py]. *)

Module Sqlite.

Record Db := mkDb {
  users : list User;
  predictions : list Assessment;
  (** The AUTOINCREMENT counter of [users]. *)
  next_user_id : Z
}.

Definition M := App Db.

Record UserInfo := mkUserInfo {
  ui_user_id : Z;
  ui_role : string;
  ui_username : string
}.

Record Summary := mkSummary {
  sm_id : Z;
  sm_probability : float;
  sm_risk_category : string;
  sm_created_at : Z;
  sm_age : option float;
  sm_ejection_fraction : option float
}.

Record Row := mkRow {
  r_id : Z;
  r_user_id : Z;
  r_username : string;
  r_features : list (option float);
  r_probability : float;
  r_risk_category : string;
  r_created_at : Z
}.

Record Page := mkPage {
  pg_predictions : list Row;
  pg_total : Z
}.

(** [SELECT ... FROM users WHERE username = ?] and the lookup by the
    primary key [id]. *)
Definition select_by_username (name : string) (us : list User)
  : option User :=
  find (fun u => (u_username u =? name)%string) us.

Definition select_by_id (i : Z) (us : list User) : option User :=
  find (fun u => u_id u =? i) us.

(** [INSERT INTO users ...]: the column [username] is declared UNIQUE. *)
Definition insert_user (name mail hash rl : string) : M unit :=
  db <- get_db ;;
  now <- utcnow ;;
  match select_by_username name (users db) with
  | Some _ => raise (Exception "UNIQUE constraint failed: users.username")
  | None =>
      set_db (mkDb (users db ++
                      [mkUser (next_user_id db) name mail hash rl now])
                (predictions db) (next_user_id db + 1))
  end.

Section Functions.
Context `{RT : Runtime} `{EN : Engine}.

Definition register_user (username email password role : string)
  : M (bool * string) :=
  if (username =? "")%string || shorter_than username 3 then
    ret (false, "Username must be at least 3 characters")
  else if (password =? "")%string || shorter_than password 6 then
    ret (false, "Password must be at least 6 characters")
  else if negb ((role =? "patient")%string || (role =? "doctor")%string) then
    ret (false, "Invalid role")
  else
    try_except
      (db <- get_db ;;
       match select_by_username username (users db) with
       | Some _ => ret (false, "Username already exists")
       | None =>
           let password_hash := generate_password_hash password in
           insert_user username email password_hash role ;;;
           ret (true, "Registration successful")
       end)
      (fun e => ret (false, "Registration error: " ++ str_exn e)).

Definition login_user (username password : string)
  : M (bool * option UserInfo) :=
  try_except
    (db <- get_db ;;
     match select_by_username username (users db) with
     | None => ret (false, None)
     | Some user =>
         ok <- check_password_hash (u_password_hash user) password ;;
         if ok then
           ret (true, Some (mkUserInfo (u_id user) (u_role user)
                              (u_username user)))
         else ret (false, None)
     end)
    (fun e =>
       print ("Login error: " ++ str_exn e) ;;;
       ret (false, None)).

Definition stored_users (w : World Db) : list User :=
  match store w with
  | Online db => users db
  | Offline _ => []
  end.

Definition register_all (reqs : list Registration) (w : World Db)
  : World Db :=
  fold_left
    (fun w q =>
       world_after
         (register_user (rq_username q) (rq_email q) (rq_password q)
            (rq_role q) w))
    reqs w.

(** Column [i] of the feature block of a row. *)
Definition column (a : Assessment) (i : nat) : option float :=
  match nth_error (a_features a) i with
  | Some v => v
  | None => None
  end.

Definition summary (p : Assessment) : Summary :=
  mkSummary (a_id p) (a_probability p) (a_risk_category p)
    (a_created_at p) (column p 0) (column p 4).

Definition get_patient_predictions (user_id : Z) : M (list Summary) :=
  try_except
    (db <- get_db ;;
     let predictions :=
       order_by_created_desc
         (filter (fun p => a_user_id p =? user_id) (predictions db)) in
     ret (map summary predictions))
    (fun e =>
       print ("Error fetching predictions: " ++ str_exn e) ;;;
       ret []).

(** [predictions p JOIN users u ON p.user_id = u.id] with the WHERE
    clauses the supplied filters add; [id] is the primary key of
    [users], so a prediction is joined with at most one user. *)
Definition where_sql (db : Db) (risk username : option string)
    (start_date end_date : option Z) (p : Assessment) : bool :=
  match select_by_id (a_user_id p) (users db) with
  | None => false
  | Some u =>
      (if truthy risk then
         match risk with
         | Some r => (a_risk_category p =? r)%string
         | None => true
         end
       else true)
      && (if truthy username then
            match username with
            | Some n => sql_like ("%" ++ n ++ "%") (u_username u)
            | None => true
            end
          else true)
      && match start_date with
         | Some d => d <=? a_created_at p
         | None => true
         end
      && match end_date with
         | Some d => a_created_at p <=? d
         | None => true
         end
  end.

Definition row (db : Db) (p : Assessment) : Row :=
  mkRow (a_id p) (a_user_id p)
    (match select_by_id (a_user_id p) (users db) with
     | Some u => u_username u
     | None => ""
     end)
    (a_features p) (a_probability p) (a_risk_category p)
    (a_created_at p).

(** The [try: int(...) except: defaults] block and the two range
    checks after it. *)
Definition page_params (page per_page : pyval) : Z * Z :=
  let '(page, per_page) :=
    match py_int page with
    | Ok p =>
        match py_int per_page with
        | Ok pp => (p, pp)
        | Raised _ => (1, 10)
        end
    | Raised _ => (1, 10)
    end in
  let page := if page <? 1 then 1 else page in
  let per_page := if per_page <? 1 then 10 else per_page in
  (page, per_page).

Definition get_predictions_paginated (page per_page : pyval)
    (risk username : option string) (start_date end_date : option Z)
  : M Page :=
  try_except
    (db <- get_db ;;
     let matching :=
       filter (where_sql db risk username start_date end_date)
         (predictions db) in
     let total := Z.of_nat (List.length matching) in
     let '(page, per_page) := page_params page per_page in
     let offset := (page - 1) * per_page in
     rows <- lift (sliced offset per_page matching) ;;
     ret (mkPage (map (row db) rows) total))
    (fun e =>
       print ("Error fetching paginated predictions: " ++ str_exn e) ;;;
       ret (mkPage [] 0)).

(** *** The other database functions *)

(** The id an AUTOINCREMENT column gives the next row of a table from which
    nothing is ever deleted: one more than the largest id in it. *)
Definition next_prediction_id (ps : list Assessment) : Z :=
  1 + fold_right (fun p m => Z.max (a_id p) m) 0 ps.

(** [features[name]] for each column in turn; a missing key raises the
    [KeyError], whose text is the quoted key. *)
Fixpoint subscript_all (features : dict float) (names : list string)
  : outcome (list (option float)) :=
  match names with
  | [] => Ok []
  | name :: names' =>
      match dict_get features name with
      | None => Raised (Exception ("'" ++ name ++ "'"))
      | Some v =>
          match subscript_all features names' with
          | Ok vs => Ok (Some v :: vs)
          | Raised e => Raised e
          end
      end
  end.

Definition save_prediction (user_id : Z) (features : dict float)
    (probability : float) (risk_category : string) : M bool :=
  try_except
    (db <- get_db ;;
     values <- lift (subscript_all features ASSESSMENT_COLUMNS) ;;
     now <- utcnow ;;
     set_db (mkDb (users db)
               (predictions db ++
                  [mkAssessment (next_prediction_id (predictions db)) user_id
                     values probability risk_category now])
               (next_user_id db)) ;;;
     ret true)
    (fun e =>
       print ("Error saving prediction: " ++ str_exn e) ;;;
       ret false).

(** [predictions p JOIN users u ON p.user_id = u.id], without a WHERE
    clause. *)
Definition joined (db : Db) (p : Assessment) : bool :=
  match select_by_id (a_user_id p) (users db) with
  | Some _ => true
  | None => false
  end.

Definition get_all_predictions : M (list Row) :=
  try_except
    (db <- get_db ;;
     let rows :=
       order_by_created_desc (filter (joined db) (predictions db)) in
     ret (map (row db) rows))
    (fun e =>
       print ("Error fetching all predictions: " ++ str_exn e) ;;;
       ret []).

Definition get_predictions_filtered (risk username : option string)
    (start_date end_date : option Z) : M (list Row) :=
  try_except
    (db <- get_db ;;
     let rows :=
       order_by_created_desc
         (filter (where_sql db risk username start_date end_date)
            (predictions db)) in
     ret (map (row db) rows))
    (fun e =>
       print ("Error fetching filtered predictions: " ++ str_exn e) ;;;
       ret []).

(** [get_patient_with_predictions], as [app_sqlite_old.py] has it (every
    column of the prediction) and as [app_v2.py] has it (four of them). *)
Record PredictionRow := mkPredictionRow {
  pd_id : Z;
  pd_features : list (option float);
  pd_probability : float;
  pd_risk_category : string;
  pd_created_at : Z
}.

Record PatientDetails := mkPatientDetails {
  pt_id : Z;
  pt_username : string;
  pt_email : string;
  pt_registered : Z;
  pt_predictions : list PredictionRow
}.

Record PredictionBrief := mkPredictionBrief {
  pb_id : Z;
  pb_probability : float;
  pb_risk_category : string;
  pb_date : Z
}.

Record PatientBrief := mkPatientBrief {
  bf_id : Z;
  bf_username : string;
  bf_email : string;
  bf_registered : Z;
  bf_predictions : list PredictionBrief
}.

(** [SELECT ... FROM users WHERE id = ? AND role = 'patient']. *)
Definition select_patient (i : Z) (us : list User) : option User :=
  find (fun u => (u_id u =? i) && (u_role u =? "patient")%string) us.

Definition get_patient_with_predictions (patient_id : Z)
  : M (option PatientDetails) :=
  try_except
    (db <- get_db ;;
     match select_patient patient_id (users db) with
     | None => ret None
     | Some patient =>
         let predictions :=
           order_by_created_desc
             (filter (fun p => a_user_id p =? patient_id) (predictions db)) in
         ret (Some (mkPatientDetails (u_id patient) (u_username patient)
                      (u_email patient) (u_created_at patient)
                      (map (fun p =>
                              mkPredictionRow (a_id p) (a_features p)
                                (a_probability p) (a_risk_category p)
                                (a_created_at p))
                         predictions)))
     end)
    (fun e =>
       print ("Error fetching patient details: " ++ str_exn e) ;;;
       ret None).

Definition get_patient_with_predictions_v2 (patient_id : Z)
  : M (option PatientBrief) :=
  try_except
    (db <- get_db ;;
     match select_patient patient_id (users db) with
     | None => ret None
     | Some patient =>
         let predictions :=
           order_by_created_desc
             (filter (fun p => a_user_id p =? patient_id) (predictions db)) in
         ret (Some (mkPatientBrief (u_id patient) (u_username patient)
                      (u_email patient) (u_created_at patient)
                      (map (fun p =>
                              mkPredictionBrief (a_id p) (a_probability p)
                                (a_risk_category p) (a_created_at p))
                         predictions)))
     end)
    (fun e =>
       print ("Error fetching patient details: " ++ str_exn e) ;;;
       ret None).

(** [UPDATE users SET ... WHERE id = ?]: every row of that id is changed;
    the UNIQUE constraint rejects a username another row holds. *)
Definition update_row (user_id : Z)
    (new_username new_email new_hash : option string) (u : User) : User :=
  if u_id u =? user_id then
    mkUser (u_id u)
      (match new_username with Some n => n | None => u_username u end)
      (match new_email with Some e => e | None => u_email u end)
      (match new_hash with Some h => h | None => u_password_hash u end)
      (u_role u) (u_created_at u)
  else u.

Definition update_users (user_id : Z)
    (new_username new_email new_hash : option string) : M unit :=
  db <- get_db ;;
  let taken :=
    match new_username with
    | Some n =>
        existsb (fun u => u_id u =? user_id) (users db)
        && existsb (fun u => (u_username u =? n)%string
                             && negb (u_id u =? user_id)) (users db)
    | None => false
    end in
  if taken then raise (Exception "UNIQUE constraint failed: users.username")
  else
    set_db (mkDb (map (update_row user_id new_username new_email new_hash)
                    (users db))
              (predictions db) (next_user_id db)).

Definition update_user_profile (user_id : Z)
    (new_username new_email new_password : option string)
  : M (bool * string) :=
  try_except
    (db <- get_db ;;
     if truthy new_username
        && existsb (fun u => (u_username u =? text new_username)%string
                             && negb (u_id u =? user_id)) (users db)
     then ret (false, "Username already taken")
     else
       let set_username := if truthy new_username then new_username else None in
       let set_hash :=
         if truthy new_password
         then Some (generate_password_hash (text new_password))
         else None in
       match set_username, new_email, set_hash with
       | None, None, None => ret (true, "No changes")
       | _, _, _ =>
           update_users user_id set_username new_email set_hash ;;;
           ret (true, "Profile updated")
       end)
    (fun e =>
       print ("Error updating profile: " ++ str_exn e) ;;;
       ret (false, str_exn e)).

(** *** Runs of writes *)

Inductive write :=
| Register (q : Registration)
| UpdateProfile (user_id : Z)
    (new_username new_email new_password : option string)
| SavePrediction (user_id : Z) (features : dict float)
    (probability : float) (risk_category : string).

Definition perform (q : write) (w : World Db) : World Db :=
  match q with
  | Register q =>
      world_after
        (register_user (rq_username q) (rq_email q) (rq_password q)
           (rq_role q) w)
  | UpdateProfile user_id new_username new_email new_password =>
      world_after
        (update_user_profile user_id new_username new_email new_password w)
  | SavePrediction user_id features probability risk_category =>
      world_after
        (save_prediction user_id features probability risk_category w)
  end.

Definition perform_all (qs : list write) (w : World Db) : World Db :=
  fold_left (fun w q => perform q w) qs w.

Definition renames (q : write) : bool :=
  match q with
  | UpdateProfile _ new_username _ _ => truthy new_username
  | _ => false
  end.

(** [id] is the primary key of [users], handed out by AUTOINCREMENT: the
    ids of the stored users are pairwise different and below the counter. *)
Definition keyed (w : World Db) : Prop :=
  match store w with
  | Online db =>
      NoDup (map u_id (users db))
      /\ Forall (fun i => i < next_user_id db) (map u_id (users db))
  | Offline _ => True
  end.

End Functions.

End Sqlite.

(** ** What the queries select, and what a prediction is answered with *)

Section Selections.
Context `{RT : Runtime} `{EN : Engine}.

(** The rows a Mongo query selects, in the order the engine yields them. *)
Definition selected (db : Mongo.Db) (risk : option string)
    (start_date end_date : option Z) : list Assessment :=
  order_by_created_desc
    (filter (Mongo.matches (Mongo.filter_query risk start_date end_date))
       (Mongo.assessments db)).

(** The rows SQLite selects, in the order the engine yields them. *)
Definition sql_selected (db : Sqlite.Db) (risk username : option string)
    (start_date end_date : option Z) : list Assessment :=
  order_by_created_desc
    (filter (Sqlite.where_sql db risk username start_date end_date)
       (Sqlite.predictions db)).

(** The same rows in the order in which a query with the window [s], [l]
    sorts them. *)
Definition page_selected (db : Mongo.Db) (s l : Z) (risk : option string)
    (start_date end_date : option Z) : list Assessment :=
  page_order s l
    (filter (Mongo.matches (Mongo.filter_query risk start_date end_date))
       (Mongo.assessments db)).

Definition sql_page_selected (db : Sqlite.Db) (s l : Z)
    (risk username : option string) (start_date end_date : option Z)
  : list Assessment :=
  page_order s l
    (filter (Sqlite.where_sql db risk username start_date end_date)
       (Sqlite.predictions db)).

(** The page a request is answered with when the classifier yields [p]. *)
Definition prediction_page (s : Session) (p : float) : response :=
  RenderResult (round2 (p * 100)%float)
    (fst (get_risk_category p)) (snd (get_risk_category p))
    (get_recommendation (fst (get_risk_category p))) (s_username s).

End Selections.

(** ** Storage engines and a platform

    Engines that meet the [Engine] contract: one sorts the rows it scanned
    in insertion order, one walks an ascending index on [created_at]
    backwards, so that it meets the rows last inserted first, and one does
    the first or the second according to the window of the query. *)

Fixpoint insert_desc (a : Assessment) (l : list Assessment)
  : list Assessment :=
  match l with
  | [] => [a]
  | b :: l' =>
      if a_created_at b <=? a_created_at a then a :: b :: l'
      else b :: insert_desc a l'
  end.

Definition sort_desc (l : list Assessment) : list Assessment :=
  fold_right insert_desc [] l.

Lemma insert_desc_perm (a : Assessment) (l : list Assessment) :
  Permutation (a :: l) (insert_desc a l).
Proof.
  induction l as [|b l IH]; simpl.
  - apply Permutation_refl.
  - destruct (a_created_at b <=? a_created_at a).
    + apply Permutation_refl.
    + apply perm_trans with (b :: a :: l).
      * apply perm_swap.
      * apply perm_skip, IH.
Qed.

Lemma sort_desc_perm (l : list Assessment) : Permutation l (sort_desc l).
Proof.
  induction l as [|a l IH]; simpl.
  - apply perm_nil.
  - apply perm_trans with (a :: sort_desc l).
    + apply perm_skip, IH.
    + apply insert_desc_perm.
Qed.

Lemma newer_first_trans (a b c : Assessment) :
  newer_first a b -> newer_first b c -> newer_first a c.
Proof. unfold newer_first. lia. Qed.

Lemma insert_desc_sorted (a : Assessment) (l : list Assessment) :
  StronglySorted newer_first l -> StronglySorted newer_first (insert_desc a l).
Proof.
  induction 1 as [|b l Hs IH Hb]; simpl.
  - constructor; constructor.
  - destruct (a_created_at b <=? a_created_at a) eqn:E.
    + apply Z.leb_le in E. constructor.
      * constructor; assumption.
      * constructor; [exact E|].
        eapply Forall_impl; [|exact Hb].
        intros c Hc. eapply newer_first_trans; [exact E|exact Hc].
    + apply Z.leb_gt in E. constructor; [exact IH|].
      apply (Permutation_Forall (insert_desc_perm a l)).
      constructor; [unfold newer_first; lia|exact Hb].
Qed.

Lemma sort_desc_sorted (l : list Assessment) :
  StronglySorted newer_first (sort_desc l).
Proof.
  induction l as [|a l IH]; simpl.
  - constructor.
  - apply insert_desc_sorted, IH.
Qed.

(** Rows with equal timestamps come out in the order they were scanned. *)
Definition scan_order_engine : Engine :=
  {| order_by_created_desc := sort_desc;
     order_permutation := sort_desc_perm;
     order_sorted := sort_desc_sorted;
     page_order := fun _ _ => sort_desc;
     page_permutation := fun _ _ => sort_desc_perm;
     page_sorted := fun _ _ => sort_desc_sorted;
     int_too_large := "MongoDB can only handle up to 8-byte ints" |}.

Lemma backward_perm (l : list Assessment) :
  Permutation l (sort_desc (rev l)).
Proof.
  apply perm_trans with (rev l).
  - apply Permutation_rev.
  - apply sort_desc_perm.
Qed.

(** Rows with equal timestamps come out last inserted first. *)
Definition backward_scan_engine : Engine :=
  {| order_by_created_desc := fun l => sort_desc (rev l);
     order_permutation := backward_perm;
     order_sorted := fun l => sort_desc_sorted (rev l);
     page_order := fun _ _ l => sort_desc (rev l);
     page_permutation := fun _ _ => backward_perm;
     page_sorted := fun _ _ l => sort_desc_sorted (rev l);
     int_too_large := "MongoDB can only handle up to 8-byte ints" |}.

(** A sort that keeps only the rows its window needs: a query that skips
    nothing sorts the scan as it comes, a query that skips some rows meets
    the rows last inserted first.  Every query is answered newest first,
    and the same query always in the same order. *)
Definition window_order (s l : Z) (rows : list Assessment)
  : list Assessment :=
  if s =? 0 then sort_desc rows else sort_desc (rev rows).

Lemma window_order_perm (s l : Z) (rows : list Assessment) :
  Permutation rows (window_order s l rows).
Proof.
  unfold window_order. destruct (s =? 0).
  - apply sort_desc_perm.
  - apply backward_perm.
Qed.

Lemma window_order_sorted (s l : Z) (rows : list Assessment) :
  StronglySorted newer_first (window_order s l rows).
Proof.
  unfold window_order. destruct (s =? 0); apply sort_desc_sorted.
Qed.

Definition window_sort_engine : Engine :=
  {| order_by_created_desc := sort_desc;
     order_permutation := sort_desc_perm;
     order_sorted := sort_desc_sorted;
     page_order := window_order;
     page_permutation := window_order_perm;
     page_sorted := window_order_sorted;
     int_too_large := "MongoDB can only handle up to 8-byte ints" |}.

(** A platform on which the model runs: decimal integer literals, a
    classifier that answers 0.75 for every input, and transparent stand-ins
    for hashing and rounding. *)
Definition decimal (what : string) (s : string) : outcome Z :=
  match NilZero.int_of_string s with
  | Some d => Ok (Z.of_int d)
  | None => Raised (Exception (what ++ ": '" ++ s ++ "'"))
  end.

Definition float_of_Z (z : Z) : float :=
  if z <? 0 then (- of_uint63 (Uint63.of_Z (- z)))%float
  else of_uint63 (Uint63.of_Z z).

Definition sample_runtime : Runtime :=
  {| int_of_str := decimal "invalid literal for int() with base 10";
     float_of_str := fun s =>
       match decimal "could not convert string to float" s with
       | Ok z => Ok (float_of_Z z)
       | Raised e => Raised e
       end;
     round2 := fun x => x;
     generate_password_hash := fun password => "hash$" ++ password;
     hash_accepts := fun hash password =>
       (hash =? "hash$" ++ password)%string;
     ObjectId := decimal "not a valid ObjectId";
     str_oid := fun z => NilZero.string_of_int (Z.to_int z);
     FEATURE_NAMES := ASSESSMENT_COLUMNS;
     classifier := Some (fun _ => Ok 0.75%float) |}.

(** Two patients with one HIGH assessment each, bob's the more recent. *)
Definition alice : User := mkUser 1 "alice" "a@x.com" "hash$secret1" "patient" 10.
Definition bob : User := mkUser 2 "bob" "b@x.com" "hash$secret2" "patient" 20.

Definition alice_high : Assessment :=
  mkAssessment 11 1 [] 0.9%float "HIGH" 100.
Definition bob_high : Assessment :=
  mkAssessment 12 2 [] 0.8%float "HIGH" 200.

Definition clinic : Mongo.Db :=
  Mongo.mkDb [alice; bob] [alice_high; bob_high] [1; 2] [] 13.

(** Two assessments of alice taken at the same instant. *)
Definition noon_clinic : Mongo.Db :=
  Mongo.mkDb [alice]
    [mkAssessment 2 1 [] 0.2%float "LOW" 100;
     mkAssessment 3 1 [] 0.7%float "HIGH" 100]
    [1] [] 4.

Definition sqlite_clinic : Sqlite.Db :=
  Sqlite.mkDb [alice; bob] [alice_high; bob_high] 3.

Definition outage : string := "connection refused".

Definition complete_form : dict string :=
  map (fun name => (name, "1")) ASSESSMENT_COLUMNS.

Definition alice_session : Session := mkSession "1" "patient" "alice".
Definition rao_session : Session := mkSession "7" "doctor" "rao".

Definition complete_features : dict float :=
  map (fun name => (name, 1%float)) ASSESSMENT_COLUMNS.

(** The rows of a listing, whatever else it reports. *)
Definition page_rows {D} (r : outcome Mongo.Page * World D) : list Mongo.Row :=
  Mongo.pg_assessments (returned (Mongo.mkPage [] 0) r).

(** ** The properties as the specification words them *)

(** All the supplied filters at once: risk-category equality, the
    case-insensitive substring of the username ([uname_of] gives the
    username an assessment is listed under), and the inclusive date
    bounds. *)
Definition satisfies_all_filters (uname_of : Assessment -> string)
    (risk username : option string) (start_date end_date : option Z)
    (a : Assessment) : bool :=
  (if truthy risk then
     match risk with
     | Some r => (a_risk_category a =? r)%string
     | None => true
     end
   else true)
  && (if truthy username then
        match username with
        | Some n => contains (lower n) (lower (uname_of a))
        | None => true
        end
      else true)
  && match start_date with
     | Some d => d <=? a_created_at a
     | None => true
     end
  && match end_date with
     | Some d => a_created_at a <=? d
     | None => true
     end.

(** A username filter without the two characters that [LIKE] reads as
    wildcards. *)
Definition wildcard_free (s : string) : bool :=
  forallb (fun c => negb (Ascii.eqb c "%" || Ascii.eqb c "_"))
    (list_ascii_of_string s).

(** Some suffix of [t] satisfies [f]; [n] is a prefix of [t] up to the case
    of ASCII letters. *)
Fixpoint any_suffix (f : list ascii -> bool) (t : list ascii) : bool :=
  f t || match t with
         | [] => false
         | _ :: t' => any_suffix f t'
         end.

Fixpoint iprefix (n t : list ascii) : bool :=
  match n with
  | [] => true
  | c :: n' =>
      match t with
      | [] => false
      | d :: t' => Ascii.eqb (lower_ascii c) (lower_ascii d) && iprefix n' t'
      end
  end.

(** A listing, given as (timestamp, id) pairs, is ordered by timestamp
    descending with equal timestamps in ascending id. *)
Definition newest_first_then_id (x y : Z * Z) : Prop :=
  fst y < fst x \/ (fst x = fst y /\ snd x < snd y).

Definition ties_in_insertion_order (keys : list (Z * Z)) : Prop :=
  StronglySorted newest_first_then_id keys.

(** [own] is the history of patient [uid] in [stored]: exactly the stored
    assessments whose owner is [uid], each as often as it is stored, newest
    first. *)
Definition own_history (uid : Z) (stored own : list Assessment) : Prop :=
  Permutation own (filter (fun a => a_user_id a =? uid) stored)
  /\ StronglySorted newer_first own
  /\ (forall a, In a own <-> In a stored /\ a_user_id a = uid).

(** A registration was refused, or went through. *)
Definition rejected {D} (r : outcome (bool * string) * World D) : Prop :=
  exists message, result r = Ok (false, message).

Definition accepted {D} (r : outcome (bool * string) * World D) : Prop :=
  exists message, result r = Ok (true, message).

(** A listing is ordered by timestamp descending. *)
Definition newest_first (stamps : list Z) : Prop :=
  StronglySorted (fun x y => y <= x) stamps.

(** ** Properties of a computation *)

(** A computation that leaves the store and the clock as they are and at
    most adds to the log, and one that returns whatever the world. *)
Definition read_only {D A} (m : App D A) : Prop :=
  forall w,
    store (world_after (m w)) = store w
    /\ clock (world_after (m w)) = clock w
    /\ exists l, events (world_after (m w)) = (events w ++ l)%list.

Definition answers {D A} (m : App D A) : Prop :=
  forall w, exists v, result (m w) = Ok v.

(** The assessment [save_assessment] appends. *)
Definition saved_row (db : Mongo.Db) (uid : Z) (features : dict float)
    (p : float) (category : string) (now : Z) : Assessment :=
  mkAssessment (Mongo.next_oid db) uid
    (map (dict_get features) ASSESSMENT_COLUMNS) p category now.

(** The [$set] document [update_user_profile] builds. *)
Definition update_doc_of `{Runtime}
    (new_username new_email new_password : option string)
  : Mongo.UpdateDoc :=
  Mongo.mkUpdateDoc
    (if truthy new_username then new_username else None)
    new_email
    (if truthy new_password
     then Some (generate_password_hash (text new_password))
     else None).

(** The session is missing or is not of the role. *)
Definition lacks_role (required : string) (session : option Session) : Prop :=
  match session with
  | None => True
  | Some s => s_role s <> required
  end.

(** The rank of a risk category. *)
Definition risk_rank (category : string) : Z :=
  if (category =? "LOW")%string then 0
  else if (category =? "MEDIUM")%string then 1
  else 2.

(** ** Float comparison facts *)

Lemma SFcompare_swap (x y : spec_float) :
  SFcompare y x = option_map CompOpp (SFcompare x y).
Proof.
  destruct x as [sx|sx| |sx mx ex], y as [sy|sy| |sy my ey]; simpl;
    try reflexivity;
    try (destruct sx; reflexivity);
    try (destruct sy; reflexivity);
    try (destruct sx, sy; reflexivity).
  destruct sx, sy; simpl; try reflexivity;
    rewrite (Z.compare_antisym ey ex);
    destruct (ey ?= ex)%Z; simpl; try reflexivity;
    change (Pos.compare_cont Eq my mx) with (my ?= mx)%positive;
    change (Pos.compare_cont Eq mx my) with (mx ?= my)%positive;
    rewrite (Pos.compare_antisym my mx);
    destruct (my ?= mx)%positive; reflexivity.
Qed.

Lemma leb_not_nan (x y : float) :
  (x <=? y)%float = true -> Prim2SF x <> S754_nan /\ Prim2SF y <> S754_nan.
Proof.
  rewrite leb_spec. unfold SFleb.
  destruct (Prim2SF x), (Prim2SF y); simpl; intros H; split;
    congruence.
Qed.

(** For comparable floats, [c <= p] is the negation of [p < c]. *)
Lemma leb_negb_ltb (c p : float) :
  Prim2SF c <> S754_nan -> Prim2SF p <> S754_nan ->
  (c <=? p)%float = negb (p <? c)%float.
Proof.
  intros Hc Hp. rewrite leb_spec, ltb_spec. unfold SFleb, SFltb.
  rewrite (SFcompare_swap (Prim2SF p) (Prim2SF c)).
  destruct (SFcompare (Prim2SF p) (Prim2SF c)) as [[ | | ]|] eqn:E; simpl; try reflexivity.
  exfalso. destruct (Prim2SF p), (Prim2SF c); simpl in E; congruence.
Qed.

(** ** Risk thresholds: properties *)

(** C1. For every probability [p] of the unit interval, the category is LOW
    exactly when [p < 0.33], MEDIUM exactly when [0.33 <= p < 0.67] and HIGH
    exactly when [p >= 0.67]; the boundary 0.33 is MEDIUM and the boundary
    0.67 is HIGH. *)
Theorem get_risk_category_thresholds (p : float) :
  in_unit_interval p = true ->
  (fst (get_risk_category p) = "LOW" <-> (p <? 0.33)%float = true) /\
  (fst (get_risk_category p) = "MEDIUM" <->
     ((0.33 <=? p) && (p <? 0.67))%float = true) /\
  (fst (get_risk_category p) = "HIGH" <-> (0.67 <=? p)%float = true) /\
  fst (get_risk_category 0.33) = "MEDIUM" /\
  fst (get_risk_category 0.67) = "HIGH".
Proof.
  intros Hp. unfold in_unit_interval in Hp.
  apply andb_true_iff in Hp. destruct Hp as [H0 _].
  apply leb_not_nan in H0. destruct H0 as [_ Hn].
  assert (N33 : Prim2SF 0.33 <> S754_nan) by (vm_compute; discriminate).
  assert (N67 : Prim2SF 0.67 <> S754_nan) by (vm_compute; discriminate).
  rewrite (leb_negb_ltb 0.33 p N33 Hn), (leb_negb_ltb 0.67 p N67 Hn).
  assert (Mono : (p <? 0.33)%float = true -> (p <? 0.67)%float = true).
  { rewrite !ltb_spec.
    let v := eval vm_compute in (Prim2SF 0.33) in
      change (Prim2SF 0.33) with v.
    let v := eval vm_compute in (Prim2SF 0.67) in
      change (Prim2SF 0.67) with v.
    unfold SFltb, SFcompare.
    destruct (Prim2SF p) as [s|s| |s m e]; try (intros; congruence);
      try (destruct s; intros; congruence).
    destruct s; [reflexivity|].
    destruct (Z.compare_spec e (-54)), (Z.compare_spec e (-53));
      try lia; intros; congruence. }
  unfold get_risk_category.
  destruct (p <? 0.33)%float eqn:E1; [rewrite (Mono eq_refl)|];
    [|destruct (p <? 0.67)%float eqn:E2]; simpl;
    repeat split; intros; try congruence; try discriminate;
    vm_compute; reflexivity.
Qed.

Lemma get_risk_category_thresholds_witness :
  in_unit_interval 0.5 = true /\
  (fst (get_risk_category 0.5) = "MEDIUM" <->
     ((0.33 <=? 0.5) && (0.5 <? 0.67))%float = true).
Proof.
  assert (H : in_unit_interval 0.5 = true) by (vm_compute; reflexivity).
  split; [exact H|].
  exact (proj1 (proj2 (get_risk_category_thresholds 0.5 H))).
Defined.

(** ** Lists: slices of sorted lists, and pages *)

Section Slices.
Context {A : Type} (R : A -> A -> Prop).

Lemma sorted_filter (f : A -> bool) (l : list A) :
  StronglySorted R l -> StronglySorted R (filter f l).
Proof.
  induction 1 as [|a l Hs IH Ha]; simpl.
  - constructor.
  - destruct (f a); [constructor|]; try exact IH.
    apply Forall_forall. intros x Hx.
    apply filter_In in Hx. destruct Hx as [Hx _].
    rewrite Forall_forall in Ha. apply Ha, Hx.
Qed.

Lemma sorted_skipn (n : nat) (l : list A) :
  StronglySorted R l -> StronglySorted R (skipn n l).
Proof.
  revert l. induction n as [|n IH]; intros l Hs; simpl.
  - exact Hs.
  - destruct l as [|a l]; [constructor|].
    apply IH. inversion Hs; assumption.
Qed.

Lemma In_firstn (n : nat) (l : list A) (x : A) :
  In x (firstn n l) -> In x l.
Proof.
  intros Hx. rewrite <- (firstn_skipn n l). apply in_or_app. left. exact Hx.
Qed.

Lemma sorted_firstn (n : nat) (l : list A) :
  StronglySorted R l -> StronglySorted R (firstn n l).
Proof.
  revert l. induction n as [|n IH]; intros l Hs; simpl.
  - constructor.
  - destruct l as [|a l]; [constructor|].
    inversion Hs as [|a' l' Hl Ha]; subst.
    constructor; [apply IH, Hl|].
    apply Forall_forall. intros x Hx.
    rewrite Forall_forall in Ha. apply Ha. eapply In_firstn, Hx.
Qed.

Lemma sorted_map {B : Type} (S : B -> B -> Prop) (g : A -> B) (l : list A) :
  (forall a b, R a b -> S (g a) (g b)) ->
  StronglySorted R l -> StronglySorted S (map g l).
Proof.
  intros Hg. induction 1 as [|a l Hs IH Ha]; simpl; constructor.
  - exact IH.
  - apply Forall_forall. intros y Hy.
    apply in_map_iff in Hy. destruct Hy as [x [<- Hx]].
    rewrite Forall_forall in Ha. apply Hg, Ha, Hx.
Qed.

Lemma firstn_add (a b : nat) (l : list A) :
  firstn (a + b) l = (firstn a l ++ firstn b (skipn a l))%list.
Proof.
  revert l. induction a as [|a IH]; intros l; simpl.
  - reflexivity.
  - destruct l as [|x l]; simpl.
    + now rewrite firstn_nil.
    + now rewrite IH.
Qed.

(** Cutting a list into [n] consecutive chunks of [size] elements and
    gluing them again gives back its first [n * size] elements. *)
Lemma chunks_concat (size : nat) (l : list A) (n : nat) :
  List.concat (map (fun i => firstn size (skipn (i * size) l)) (seq 0 n))
  = firstn (n * size) l.
Proof.
  induction n as [|n IH].
  - reflexivity.
  - rewrite seq_S, map_app, concat_app, IH. simpl.
    rewrite app_nil_r, (Nat.add_comm size), firstn_add. reflexivity.
Qed.

End Slices.

Lemma newest_first_of_sorted (l : list Assessment) :
  StronglySorted newer_first l -> newest_first (map a_created_at l).
Proof.
  apply sorted_map. intros a b H. exact H.
Qed.

(** Running a computation of the application monad. *)
Ltac run_app :=
  unfold try_except, bind, ret, raise, lift, get_db, set_db, utcnow, print,
    emit, check_password_hash, result, world_after;
  cbn [store clock events fst snd].

(** ** The listings, run against a reachable or an unreachable back end *)

Section ListingEquations.
Context `{RT : Runtime} `{EN : Engine}.

Lemma selected_length db risk sd ed :
  List.length (selected db risk sd ed)
  = List.length
      (filter (Mongo.matches (Mongo.filter_query risk sd ed))
         (Mongo.assessments db)).
Proof.
  unfold selected. symmetry. apply Permutation_length, order_permutation.
Qed.

Lemma sliced_in_range (s l : Z) (rows : list Assessment) :
  s <= INT64_MAX -> l <= INT64_MAX ->
  sliced s l rows = Ok (limit l (skip s (page_order s l rows))).
Proof.
  intros Hs Hl. unfold sliced.
  destruct (INT64_MAX <? s) eqn:E1; [apply Z.ltb_lt in E1; lia|].
  destruct (INT64_MAX <? l) eqn:E2; [apply Z.ltb_lt in E2; lia|].
  reflexivity.
Qed.

Lemma sliced_overflow (s l : Z) (rows : list Assessment) :
  INT64_MAX < s \/ INT64_MAX < l ->
  sliced s l rows = Raised (Exception int_too_large).
Proof.
  intros H. unfold sliced.
  destruct (INT64_MAX <? s) eqn:E1; [reflexivity|].
  destruct (INT64_MAX <? l) eqn:E2; [reflexivity|].
  apply Z.ltb_ge in E1, E2. lia.
Qed.

Lemma sliced_cases (s l : Z) (rows : list Assessment) :
  sliced s l rows = Raised (Exception int_too_large)
  \/ sliced s l rows = Ok (limit l (skip s (page_order s l rows))).
Proof.
  unfold sliced. destruct ((INT64_MAX <? s) || (INT64_MAX <? l)); auto.
Qed.

Lemma mongo_paginated_online db clk evs page per_page risk username sd ed :
  let p := fst (Mongo.page_params page per_page) in
  let pp := snd (Mongo.page_params page per_page) in
  (p - 1) * pp <= INT64_MAX -> pp <= INT64_MAX ->
  Mongo.get_assessments_paginated page per_page risk username sd ed
    (mkWorld (Online db) clk evs)
  = (Ok (Mongo.mkPage
           (Mongo.collect db username
              (limit pp
                 (skip ((p - 1) * pp)
                    (page_selected db ((p - 1) * pp) pp risk sd ed))))
           (Z.of_nat (List.length (selected db risk sd ed)))),
     mkWorld (Online db) clk evs).
Proof.
  cbv zeta. rewrite selected_length.
  unfold Mongo.get_assessments_paginated, try_except, bind, get_db, ret,
    lift, page_selected; simpl.
  destruct (Mongo.page_params page per_page) as [p pp]. cbn [fst snd].
  intros Hs Hl. now rewrite (sliced_in_range _ _ _ Hs Hl).
Qed.

Lemma mongo_paginated_overflow db clk evs page per_page risk username sd ed :
  let p := fst (Mongo.page_params page per_page) in
  let pp := snd (Mongo.page_params page per_page) in
  INT64_MAX < (p - 1) * pp \/ INT64_MAX < pp ->
  Mongo.get_assessments_paginated page per_page risk username sd ed
    (mkWorld (Online db) clk evs)
  = (Ok (Mongo.mkPage [] 0),
     mkWorld (Online db) clk
       (evs ++ [Printed ("Error fetching paginated assessments: "
                         ++ int_too_large)])).
Proof.
  cbv zeta.
  unfold Mongo.get_assessments_paginated, try_except, bind, get_db, ret,
    lift; simpl.
  destruct (Mongo.page_params page per_page) as [p pp]. cbn [fst snd].
  intros H. now rewrite (sliced_overflow _ _ _ H).
Qed.

Lemma mongo_paginated_offline reason clk evs page per_page risk username
    sd ed :
  Mongo.get_assessments_paginated page per_page risk username sd ed
    (mkWorld (Offline reason) clk evs)
  = (Ok (Mongo.mkPage [] 0),
     mkWorld (Offline reason) clk
       (evs ++ [Printed ("Error fetching paginated assessments: "
                         ++ reason)])).
Proof. reflexivity. Qed.

Lemma mongo_filtered_online db clk evs risk username sd ed :
  Mongo.get_assessments_filtered risk username sd ed
    (mkWorld (Online db) clk evs)
  = (Ok (Mongo.collect db username (selected db risk sd ed)),
     mkWorld (Online db) clk evs).
Proof. reflexivity. Qed.

Lemma mongo_filtered_offline reason clk evs risk username sd ed :
  Mongo.get_assessments_filtered risk username sd ed
    (mkWorld (Offline reason) clk evs)
  = (Ok [],
     mkWorld (Offline reason) clk
       (evs ++ [Printed ("Error fetching filtered assessments: "
                         ++ reason)])).
Proof. reflexivity. Qed.

Lemma mongo_history_online db clk evs user_id uid :
  Mongo.oid_of user_id = Ok uid ->
  Mongo.get_patient_assessments user_id (mkWorld (Online db) clk evs)
  = (Ok (map Mongo.summary
           (order_by_created_desc
              (filter (fun a => a_user_id a =? uid) (Mongo.assessments db)))),
     mkWorld (Online db) clk evs).
Proof.
  intros H.
  unfold Mongo.get_patient_assessments, try_except, bind, get_db, ret,
    Mongo.to_oid, lift; simpl.
  rewrite H. reflexivity.
Qed.

Lemma mongo_history_failed w user_id :
  (exists reason, store w = Offline reason)
  \/ (exists e, Mongo.oid_of user_id = Raised e) ->
  result (Mongo.get_patient_assessments user_id w) = Ok [].
Proof.
  unfold Mongo.get_patient_assessments, try_except, bind, get_db, ret,
    Mongo.to_oid, lift, result; simpl.
  intros [[reason H]|[e H]].
  - rewrite H. reflexivity.
  - rewrite H. destruct (store w); reflexivity.
Qed.

Lemma sqlite_paginated_online db clk evs page per_page risk username sd ed :
  let p := fst (Sqlite.page_params page per_page) in
  let pp := snd (Sqlite.page_params page per_page) in
  (p - 1) * pp <= INT64_MAX -> pp <= INT64_MAX ->
  Sqlite.get_predictions_paginated page per_page risk username sd ed
    (mkWorld (Online db) clk evs)
  = (Ok (Sqlite.mkPage
           (map (Sqlite.row db)
              (limit pp
                 (skip ((p - 1) * pp)
                    (sql_page_selected db ((p - 1) * pp) pp risk username
                       sd ed))))
           (Z.of_nat
              (List.length
                 (filter (Sqlite.where_sql db risk username sd ed)
                    (Sqlite.predictions db))))),
     mkWorld (Online db) clk evs).
Proof.
  cbv zeta.
  unfold Sqlite.get_predictions_paginated, try_except, bind, get_db, ret,
    lift, sql_page_selected; simpl.
  destruct (Sqlite.page_params page per_page) as [p pp]. cbn [fst snd].
  intros Hs Hl. now rewrite (sliced_in_range _ _ _ Hs Hl).
Qed.

Lemma sqlite_paginated_overflow db clk evs page per_page risk username
    sd ed :
  let p := fst (Sqlite.page_params page per_page) in
  let pp := snd (Sqlite.page_params page per_page) in
  INT64_MAX < (p - 1) * pp \/ INT64_MAX < pp ->
  Sqlite.get_predictions_paginated page per_page risk username sd ed
    (mkWorld (Online db) clk evs)
  = (Ok (Sqlite.mkPage [] 0),
     mkWorld (Online db) clk
       (evs ++ [Printed ("Error fetching paginated predictions: "
                         ++ int_too_large)])).
Proof.
  cbv zeta.
  unfold Sqlite.get_predictions_paginated, try_except, bind, get_db, ret,
    lift; simpl.
  destruct (Sqlite.page_params page per_page) as [p pp]. cbn [fst snd].
  intros H. now rewrite (sliced_overflow _ _ _ H).
Qed.

Lemma sqlite_paginated_offline reason clk evs page per_page risk username
    sd ed :
  Sqlite.get_predictions_paginated page per_page risk username sd ed
    (mkWorld (Offline reason) clk evs)
  = (Ok (Sqlite.mkPage [] 0),
     mkWorld (Offline reason) clk
       (evs ++ [Printed ("Error fetching paginated predictions: "
                         ++ reason)])).
Proof. reflexivity. Qed.

Lemma sqlite_history_online db clk evs uid :
  Sqlite.get_patient_predictions uid (mkWorld (Online db) clk evs)
  = (Ok (map Sqlite.summary
           (order_by_created_desc
              (filter (fun p => a_user_id p =? uid) (Sqlite.predictions db)))),
     mkWorld (Online db) clk evs).
Proof. reflexivity. Qed.

Lemma collect_created db username l :
  map Mongo.r_created_at (Mongo.collect db username l)
  = map a_created_at (filter (Mongo.keeps db username) l).
Proof.
  unfold Mongo.collect. rewrite map_map. reflexivity.
Qed.

End ListingEquations.

(** ** Pages *)

Section Pages.
Context `{RT : Runtime} `{EN : Engine}.

Lemma mongo_page_params_numeric page per_page p pp :
  py_int page = Ok p -> py_int per_page = Ok pp ->
  Mongo.page_params page per_page = (Z.max 1 p, Z.max 1 pp).
Proof.
  intros Hp Hpp. unfold Mongo.page_params. now rewrite Hp, Hpp.
Qed.

Lemma mongo_page_params_default page per_page :
  (exists e, py_int page = Raised e)
  \/ (exists e, py_int per_page = Raised e) ->
  Mongo.page_params page per_page = (1, 10).
Proof.
  unfold Mongo.page_params. intros [[e H]|[e H]]; rewrite H.
  - reflexivity.
  - destruct (py_int page); reflexivity.
Qed.

Lemma sqlite_page_params_numeric page per_page p pp :
  py_int page = Ok p -> py_int per_page = Ok pp ->
  Sqlite.page_params page per_page
  = (Z.max 1 p, if pp <? 1 then 10 else pp).
Proof.
  intros Hp Hpp. unfold Sqlite.page_params. rewrite Hp, Hpp.
  destruct (p <? 1) eqn:E; f_equal.
  - apply Z.ltb_lt in E. lia.
  - apply Z.ltb_ge in E. lia.
Qed.

Lemma sqlite_page_params_default page per_page :
  (exists e, py_int page = Raised e)
  \/ (exists e, py_int per_page = Raised e) ->
  Sqlite.page_params page per_page = (1, 10).
Proof.
  unfold Sqlite.page_params. intros [[e H]|[e H]]; rewrite H.
  - reflexivity.
  - destruct (py_int page); reflexivity.
Qed.

Lemma collect_app db username l1 l2 :
  Mongo.collect db username (l1 ++ l2)
  = (Mongo.collect db username l1 ++ Mongo.collect db username l2)%list.
Proof.
  unfold Mongo.collect. now rewrite filter_app, map_app.
Qed.

Lemma collect_concat db username (ls : list (list Assessment)) :
  Mongo.collect db username (List.concat ls)
  = List.concat (map (Mongo.collect db username) ls).
Proof.
  induction ls as [|l ls IH]; simpl.
  - reflexivity.
  - now rewrite collect_app, IH.
Qed.

(** Among rows with pairwise different timestamps, newest first is one
    order only. *)
Lemma stamps_injective (l : list Assessment) (a b : Assessment) :
  NoDup (map a_created_at l) -> In a l -> In b l ->
  a_created_at a = a_created_at b -> a = b.
Proof.
  induction l as [|h t IH]; cbn [map]; [contradiction|].
  intros N Ha Hb E. inversion N as [|x xs Hh Ht]; subst.
  destruct Ha as [<-|Ha], Hb as [<-|Hb].
  - reflexivity.
  - exfalso. apply Hh. rewrite E. now apply in_map.
  - exfalso. apply Hh. rewrite <- E. now apply in_map.
  - now apply IH.
Qed.

Lemma newest_first_unique (l1 l2 : list Assessment) :
  StronglySorted newer_first l1 -> StronglySorted newer_first l2 ->
  Permutation l1 l2 -> NoDup (map a_created_at l1) -> l1 = l2.
Proof.
  revert l2. induction l1 as [|a t1 IH]; intros l2 S1 S2 P N.
  - apply Permutation_nil in P. now subst.
  - destruct l2 as [|b t2];
      [apply Permutation_sym, Permutation_nil in P; discriminate|].
    assert (E : a = b).
    { assert (Ha : In a (b :: t2))
        by (apply (Permutation_in a P); now left).
      assert (Hb : In b (a :: t1))
        by (apply (Permutation_in b (Permutation_sym P)); now left).
      destruct Ha as [Ha|Ha]; [now symmetry|].
      destruct Hb as [Hb|Hb]; [exact Hb|].
      apply (stamps_injective (a :: t1)); auto; [now left|now right|].
      inversion S1 as [|x xs _ F1]; subst.
      inversion S2 as [|y ys _ F2]; subst.
      rewrite Forall_forall in F1, F2.
      specialize (F1 b Hb). specialize (F2 a Ha).
      unfold newer_first in F1, F2. lia. }
    subst b. f_equal. apply IH.
    + now inversion S1.
    + now inversion S2.
    + now apply Permutation_cons_inv in P.
    + now inversion N.
Qed.

Lemma page_selected_is_selected db s l risk sd ed :
  NoDup
    (map a_created_at
       (filter (Mongo.matches (Mongo.filter_query risk sd ed))
          (Mongo.assessments db))) ->
  page_selected db s l risk sd ed = selected db risk sd ed.
Proof.
  intros N. unfold page_selected, selected.
  apply newest_first_unique.
  - apply page_sorted.
  - apply order_sorted.
  - eapply perm_trans; [|apply order_permutation].
    apply Permutation_sym, page_permutation.
  - eapply Permutation_NoDup; [|exact N].
    apply Permutation_map, page_permutation.
Qed.

(** Page [k >= 1] at page size [pp] is chunk [k - 1] of the selected rows,
    with the username test applied to the chunk, when no two selected rows
    share a timestamp and the window fits 64 bits. *)
Lemma mongo_page_is_chunk db clk evs per_page pp risk username sd ed k :
  py_int per_page = Ok pp ->
  NoDup
    (map a_created_at
       (filter (Mongo.matches (Mongo.filter_query risk sd ed))
          (Mongo.assessments db))) ->
  Z.of_nat (S k) * Z.max 1 pp <= INT64_MAX ->
  page_rows
    (Mongo.get_assessments_paginated (PyInt (Z.of_nat (S k))) per_page
       risk username sd ed (mkWorld (Online db) clk evs))
  = Mongo.collect db username
      (firstn (Z.to_nat (Z.max 1 pp))
         (skipn (k * Z.to_nat (Z.max 1 pp)) (selected db risk sd ed))).
Proof.
  intros Hpp N R.
  pose proof (mongo_paginated_online db clk evs (PyInt (Z.of_nat (S k)))
                per_page risk username sd ed) as E.
  cbv zeta in E.
  rewrite (mongo_page_params_numeric (PyInt (Z.of_nat (S k))) per_page
             (Z.of_nat (S k)) pp eq_refl Hpp) in E.
  cbn [fst snd] in E.
  replace (Z.max 1 (Z.of_nat (S k)) - 1) with (Z.of_nat k) in E by lia.
  rewrite E by nia.
  rewrite (page_selected_is_selected _ _ _ _ _ _ N).
  unfold page_rows, returned, result, limit, skip.
  cbn [fst snd Mongo.pg_assessments].
  rewrite Z2Nat.inj_mul by lia. now rewrite Nat2Z.id.
Qed.

(** The pages the route counts are enough to reach every selected row. *)
Lemma total_pages_cover (total per_page : Z) :
  0 <= total -> 1 <= per_page ->
  exists n,
    Mongo.total_pages total per_page = Ok n /\ total <= n * Z.max 1 per_page.
Proof.
  intros Ht Hp. unfold Mongo.total_pages.
  destruct (per_page =? 0) eqn:E; [apply Z.eqb_eq in E; lia|].
  eexists. split; [reflexivity|].
  rewrite (Z.max_r 1 per_page) by lia.
  pose proof (Z.div_mod (total + per_page - 1) per_page ltac:(lia)) as D.
  pose proof (Z.mod_pos_bound (total + per_page - 1) per_page ltac:(lia)) as B.
  nia.
Qed.

End Pages.

Section ListingProperties.
Context `{RT : Runtime} `{EN : Engine}.

(** C3, as the code has it. With the back end reachable and unchanged and
    a numeric page size, when no two assessments that match the risk and
    date filters share a creation timestamp and the n pages asked for stay
    within the 64-bit range of the driver, the pages 1, 2, ..., n of the
    paginated listing, where n pages are enough to cover the total it
    reports, concatenate to exactly the rows of the unpaginated query used
    for the CSV export with the same filters, in the same order; no call
    alters the store. *)
Theorem pages_concatenate_to_export
    (db : Mongo.Db) (clk : Z) (evs : list event) (per_page : pyval) (pp : Z)
    (risk username : option string) (sd ed : option Z) (n : nat) :
  let w := mkWorld (Online db) clk evs in
  let listing page :=
    Mongo.get_assessments_paginated page per_page risk username sd ed w in
  py_int per_page = Ok pp ->
  NoDup
    (map a_created_at
       (filter (Mongo.matches (Mongo.filter_query risk sd ed))
          (Mongo.assessments db))) ->
  Z.of_nat n * Z.max 1 pp <= INT64_MAX ->
  Z.of_nat
    (List.length
       (filter (Mongo.matches (Mongo.filter_query risk sd ed))
          (Mongo.assessments db)))
    <= Z.of_nat n * Z.max 1 pp ->
  List.concat
    (map (fun k => page_rows (listing (PyInt (Z.of_nat k)))) (seq 1 n))
  = returned [] (Mongo.get_assessments_filtered risk username sd ed w)
  /\ (forall k, (1 <= k <= n)%nat ->
      Mongo.pg_total
        (returned (Mongo.mkPage [] 0) (listing (PyInt (Z.of_nat k))))
      = Z.of_nat
          (List.length
             (filter (Mongo.matches (Mongo.filter_query risk sd ed))
                (Mongo.assessments db)))
      /\ world_after (listing (PyInt (Z.of_nat k))) = w)
  /\ (forall page, store (world_after (listing page)) = store w)
  /\ world_after (Mongo.get_assessments_filtered risk username sd ed w) = w.
Proof.
  intros w listing Hpp N R Hn. unfold listing, w in *.
  split; [|split; [|split]].
  - rewrite mongo_filtered_online. unfold returned, result.
    cbn [fst].
    rewrite <- seq_shift, map_map.
    rewrite (map_ext_in _
               (fun k => Mongo.collect db username
                           (firstn (Z.to_nat (Z.max 1 pp))
                              (skipn (k * Z.to_nat (Z.max 1 pp))
                                 (selected db risk sd ed))))).
    + rewrite <- (map_map
                    (fun k => firstn (Z.to_nat (Z.max 1 pp))
                                (skipn (k * Z.to_nat (Z.max 1 pp))
                                   (selected db risk sd ed)))
                    (Mongo.collect db username)).
      rewrite <- collect_concat, chunks_concat.
      rewrite firstn_all2; [reflexivity|].
      rewrite selected_length.
      apply Nat2Z.inj_le. rewrite Nat2Z.inj_mul, Z2Nat.id by lia. exact Hn.
    + intros k Hk. apply in_seq in Hk.
      apply mongo_page_is_chunk; [exact Hpp|exact N|nia].
  - intros k Hk.
    pose proof (mongo_paginated_online db clk evs (PyInt (Z.of_nat k))
                  per_page risk username sd ed) as E.
    cbv zeta in E.
    rewrite (mongo_page_params_numeric (PyInt (Z.of_nat k)) per_page
               (Z.of_nat k) pp eq_refl Hpp) in E.
    cbn [fst snd] in E. rewrite E by nia.
    unfold returned, result, world_after. cbn [fst snd Mongo.pg_total].
    now rewrite selected_length.
  - intros page.
    unfold Mongo.get_assessments_paginated, try_except, bind, get_db, ret,
      lift, print, emit, world_after. cbn [store].
    destruct (Mongo.page_params page per_page) as [p q].
    destruct (sliced _ _ _); reflexivity.
  - now rewrite mongo_filtered_online.
Qed.

Lemma newest_first_map {B} (g : Assessment -> B) (t : B -> Z)
    (l : list Assessment) :
  (forall a, t (g a) = a_created_at a) ->
  StronglySorted newer_first l -> newest_first (map t (map g l)).
Proof.
  intros E S. rewrite map_map.
  rewrite (map_ext _ a_created_at) by exact E.
  now apply newest_first_of_sorted.
Qed.

Lemma newest_first_nil : newest_first [].
Proof. constructor. Qed.

Lemma sliced_sorted (s l : Z) (rows cursor : list Assessment) :
  sliced s l rows = Ok cursor -> StronglySorted newer_first cursor.
Proof.
  destruct (sliced_cases s l rows) as [E|E]; rewrite E; [discriminate|].
  intros [= <-]. apply sorted_firstn, sorted_skipn, page_sorted.
Qed.

Ltac newest_first_rows :=
  unfold page_rows, returned, result; cbn [fst];
  first
    [ apply newest_first_nil
    | apply newest_first_map;
      [ reflexivity
      | first
          [ apply order_sorted
          | apply sorted_filter, order_sorted
          | eapply sorted_filter, sliced_sorted; eassumption
          | eapply sliced_sorted; eassumption ] ] ].

(** C4, as the code has it. Every multi-row assessment query returns its
    rows ordered by creation timestamp descending: in the MongoDB variant
    the paginated listing, the export query, the listing of all
    assessments, the patient's own history and the predictions of a
    patient's profile; in the SQLite variants the paginated listing, the
    export query, the listing of all predictions, the patient's own
    history and the predictions of the patient's details, in either form.
    Nothing is stated for rows with equal timestamps: no query names a
    second sort key. *)
Theorem listings_newest_first
    (wm : World Mongo.Db) (ws : World Sqlite.Db) (page per_page : pyval)
    (risk username : option string) (sd ed : option Z)
    (user_id : idarg) (uid : Z) :
  newest_first
    (map Mongo.r_created_at
       (page_rows
          (Mongo.get_assessments_paginated page per_page risk username
             sd ed wm)))
  /\ newest_first
       (map Mongo.r_created_at
          (returned []
             (Mongo.get_assessments_filtered risk username sd ed wm)))
  /\ newest_first
       (map Mongo.sm_created_at
          (returned [] (Mongo.get_patient_assessments user_id wm)))
  /\ newest_first
       (map Sqlite.r_created_at
          (Sqlite.pg_predictions
             (returned (Sqlite.mkPage [] 0)
                (Sqlite.get_predictions_paginated page per_page risk
                   username sd ed ws))))
  /\ newest_first
       (map Sqlite.sm_created_at
          (returned [] (Sqlite.get_patient_predictions uid ws)))
  /\ newest_first
       (map Mongo.r_created_at (returned [] (Mongo.get_all_assessments wm)))
  /\ newest_first
       (map Mongo.pr_created_at
          (match returned None (Mongo.get_patient_profile user_id wm) with
           | Some patient => Mongo.pp_predictions patient
           | None => []
           end))
  /\ newest_first
       (map Sqlite.r_created_at
          (returned [] (Sqlite.get_all_predictions ws)))
  /\ newest_first
       (map Sqlite.r_created_at
          (returned []
             (Sqlite.get_predictions_filtered risk username sd ed ws)))
  /\ newest_first
       (map Sqlite.pd_created_at
          (match returned None (Sqlite.get_patient_with_predictions uid ws)
           with
           | Some patient => Sqlite.pt_predictions patient
           | None => []
           end))
  /\ newest_first
       (map Sqlite.pb_date
          (match
             returned None (Sqlite.get_patient_with_predictions_v2 uid ws)
           with
           | Some patient => Sqlite.bf_predictions patient
           | None => []
           end)).
Proof.
  destruct wm as [[db|reason] clk evs], ws as [[sdb|sreason] sclk sevs].
  all: repeat match goal with |- _ /\ _ => split end.
  all: unfold Mongo.get_assessments_paginated,
         Mongo.get_assessments_filtered, Mongo.get_patient_assessments,
         Mongo.get_all_assessments, Mongo.get_patient_profile,
         Sqlite.get_predictions_paginated, Sqlite.get_patient_predictions,
         Sqlite.get_all_predictions, Sqlite.get_predictions_filtered,
         Sqlite.get_patient_with_predictions,
         Sqlite.get_patient_with_predictions_v2, Mongo.to_oid,
         Mongo.collect;
       run_app.
  all: repeat match goal with
         | |- context [Mongo.page_params ?a ?b] =>
             destruct (Mongo.page_params a b)
         | |- context [Sqlite.page_params ?a ?b] =>
             destruct (Sqlite.page_params a b)
         | |- context [sliced ?a ?b ?c] => destruct (sliced a b c) eqn:?
         | |- context [Mongo.oid_of ?a] => destruct (Mongo.oid_of a)
         | |- context [Mongo.find_patient ?a ?b] =>
             destruct (Mongo.find_patient a b)
         | |- context [Sqlite.select_patient ?a ?b] =>
             destruct (Sqlite.select_patient a b)
         end.
  all: cbn [fst snd]; newest_first_rows.
Qed.

End ListingProperties.

Section PageRequests.
Context `{RT : Runtime} `{EN : Engine}.

Lemma skip_past_the_end {A} (n : Z) (l : list A) :
  Z.of_nat (List.length l) <= n -> skip n l = [].
Proof.
  intros H. unfold skip. apply skipn_all2. lia.
Qed.

(** C5, as the code has it. Pages are counted from 1. When [int()] rejects
    the page or the page size, both fall back to page 1 and page size 10.
    A numeric page below 1 is read as page 1; a numeric page size below 1
    is read as 10 by the SQLite variant and as 1 by the MongoDB variant.
    The listing never raises, and a page that starts at or beyond the last
    selected row is returned empty; it comes together with the total as
    long as the offset and the page size fit 64 bits. Beyond that the
    driver raises, and the listing prints the error and returns no row and
    the total 0. *)
Theorem pagination_parameters (page per_page : pyval) :
  ((exists e, py_int page = Raised e)
   \/ (exists e, py_int per_page = Raised e) ->
   Mongo.page_params page per_page = (1, 10)
   /\ Sqlite.page_params page per_page = (1, 10))
  /\ (forall p pp, py_int page = Ok p -> py_int per_page = Ok pp ->
      Mongo.page_params page per_page = (Z.max 1 p, Z.max 1 pp)
      /\ Sqlite.page_params page per_page
         = (Z.max 1 p, if pp <? 1 then 10 else pp))
  /\ (forall db clk evs risk username sd ed,
      let w := mkWorld (Online db) clk evs in
      let r :=
        Mongo.get_assessments_paginated page per_page risk username sd ed w in
      let p := fst (Mongo.page_params page per_page) in
      let pp := snd (Mongo.page_params page per_page) in
      let total := Z.of_nat (List.length (selected db risk sd ed)) in
      (exists pg, result r = Ok pg)
      /\ (total <= (p - 1) * pp -> page_rows r = [])
      /\ ((p - 1) * pp <= INT64_MAX -> pp <= INT64_MAX ->
          world_after r = w
          /\ Mongo.pg_total (returned (Mongo.mkPage [] 0) r) = total
          /\ (p = 1 ->
              page_rows r
              = Mongo.collect db username
                  (limit pp (page_selected db 0 pp risk sd ed)))
          /\ (total <= (p - 1) * pp -> result r = Ok (Mongo.mkPage [] total)))
      /\ (INT64_MAX < (p - 1) * pp \/ INT64_MAX < pp ->
          r = (Ok (Mongo.mkPage [] 0),
               mkWorld (Online db) clk
                 (evs ++ [Printed ("Error fetching paginated assessments: "
                                   ++ int_too_large)]))))
  /\ (forall db clk evs risk username sd ed,
      let w := mkWorld (Online db) clk evs in
      let r :=
        Sqlite.get_predictions_paginated page per_page risk username sd ed
          w in
      let p := fst (Sqlite.page_params page per_page) in
      let pp := snd (Sqlite.page_params page per_page) in
      let total :=
        Z.of_nat (List.length (sql_selected db risk username sd ed)) in
      let rows := Sqlite.pg_predictions (returned (Sqlite.mkPage [] 0) r) in
      (exists pg, result r = Ok pg)
      /\ (total <= (p - 1) * pp -> rows = [])
      /\ ((p - 1) * pp <= INT64_MAX -> pp <= INT64_MAX ->
          world_after r = w
          /\ Sqlite.pg_total (returned (Sqlite.mkPage [] 0) r) = total
          /\ (p = 1 ->
              rows
              = map (Sqlite.row db)
                  (limit pp (sql_page_selected db 0 pp risk username sd ed)))
          /\ (total <= (p - 1) * pp ->
              result r = Ok (Sqlite.mkPage [] total)))
      /\ (INT64_MAX < (p - 1) * pp \/ INT64_MAX < pp ->
          r = (Ok (Sqlite.mkPage [] 0),
               mkWorld (Online db) clk
                 (evs ++ [Printed ("Error fetching paginated predictions: "
                                   ++ int_too_large)])))).
Proof.
  split; [|split; [|split]].
  - intros H. split.
    + apply mongo_page_params_default, H.
    + apply sqlite_page_params_default, H.
  - intros p pp Hp Hpp. split.
    + apply mongo_page_params_numeric; assumption.
    + apply sqlite_page_params_numeric; assumption.
  - intros db clk evs risk username sd ed w r p pp total.
    pose proof (mongo_paginated_online db clk evs page per_page risk username
                  sd ed) as On.
    pose proof (mongo_paginated_overflow db clk evs page per_page risk
                  username sd ed) as Ov.
    cbv zeta in On, Ov. fold p pp w r in On, Ov.
    assert (Past : total <= (p - 1) * pp ->
                   limit pp
                     (skip ((p - 1) * pp)
                        (page_selected db ((p - 1) * pp) pp risk sd ed))
                   = []).
    { intros H. rewrite skip_past_the_end; [apply firstn_nil|].
      unfold total, selected in H. unfold page_selected.
      rewrite <- (Permutation_length (page_permutation _ _ _)).
      rewrite <- (Permutation_length (order_permutation _)) in H. exact H. }
    assert (Cases : ((p - 1) * pp <= INT64_MAX /\ pp <= INT64_MAX)
                    \/ (INT64_MAX < (p - 1) * pp \/ INT64_MAX < pp)) by lia.
    split; [|split; [|split]].
    + destruct Cases as [[A B]|C];
        [rewrite (On A B)|rewrite (Ov C)]; eexists; reflexivity.
    + intros H. destruct Cases as [[A B]|C].
      * rewrite (On A B). unfold page_rows, returned, result.
        cbn [fst Mongo.pg_assessments]. now rewrite (Past H).
      * now rewrite (Ov C).
    + intros A B. rewrite (On A B).
      unfold page_rows, returned, result, world_after.
      cbn [fst snd Mongo.pg_assessments Mongo.pg_total].
      split; [reflexivity|]. split; [reflexivity|]. split.
      * intros E. rewrite E. reflexivity.
      * intros H. now rewrite (Past H).
    + exact Ov.
  - intros db clk evs risk username sd ed w r p pp total rows.
    pose proof (sqlite_paginated_online db clk evs page per_page risk
                  username sd ed) as On.
    pose proof (sqlite_paginated_overflow db clk evs page per_page risk
                  username sd ed) as Ov.
    cbv zeta in On, Ov. fold p pp w r in On, Ov.
    assert (T : Z.of_nat
                  (List.length
                     (filter (Sqlite.where_sql db risk username sd ed)
                        (Sqlite.predictions db))) = total).
    { unfold total, sql_selected.
      now rewrite <- (Permutation_length (order_permutation _)). }
    rewrite T in On.
    assert (Past : total <= (p - 1) * pp ->
                   limit pp
                     (skip ((p - 1) * pp)
                        (sql_page_selected db ((p - 1) * pp) pp risk username
                           sd ed))
                   = []).
    { intros H. rewrite skip_past_the_end; [apply firstn_nil|].
      rewrite <- T in H. unfold sql_page_selected.
      now rewrite <- (Permutation_length (page_permutation _ _ _)). }
    assert (Cases : ((p - 1) * pp <= INT64_MAX /\ pp <= INT64_MAX)
                    \/ (INT64_MAX < (p - 1) * pp \/ INT64_MAX < pp)) by lia.
    unfold rows.
    split; [|split; [|split]].
    + destruct Cases as [[A B]|C];
        [rewrite (On A B)|rewrite (Ov C)]; eexists; reflexivity.
    + intros H. destruct Cases as [[A B]|C].
      * rewrite (On A B). unfold returned, result.
        cbn [fst Sqlite.pg_predictions]. now rewrite (Past H).
      * now rewrite (Ov C).
    + intros A B. rewrite (On A B).
      unfold returned, result, world_after.
      cbn [fst snd Sqlite.pg_predictions Sqlite.pg_total].
      split; [reflexivity|]. split; [reflexivity|]. split.
      * intros E. rewrite E. reflexivity.
      * intros H. now rewrite (Past H).
    + exact Ov.
Qed.

End PageRequests.

(** ** The filters of the doctor's listing *)

Lemma like_percent (pat t : list ascii) :
  like ("%"%char :: pat) t = any_suffix (like pat) t.
Proof.
  induction t as [|c t IH]; simpl.
  - reflexivity.
  - f_equal. exact IH.
Qed.

Lemma like_any (t : list ascii) : like ["%"%char] t = true.
Proof.
  rewrite like_percent. induction t as [|c t IH]; simpl; [reflexivity|exact IH].
Qed.

Lemma like_literal (n t : list ascii) :
  forallb (fun c => negb (Ascii.eqb c "%" || Ascii.eqb c "_")) n = true ->
  like (n ++ ["%"%char]) t = iprefix n t.
Proof.
  revert t. induction n as [|c n IH]; intros t H.
  - apply like_any.
  - simpl in H. apply andb_true_iff in H. destruct H as [Hc Hn].
    apply negb_true_iff, orb_false_iff in Hc. destruct Hc as [H1 H2].
    cbn [app like]. rewrite H1, H2.
    destruct t as [|d t]; [reflexivity|].
    cbn [iprefix orb]. now rewrite IH.
Qed.

Lemma any_suffix_ext (f g : list ascii -> bool) (t : list ascii) :
  (forall x, f x = g x) -> any_suffix f t = any_suffix g t.
Proof.
  intros H. induction t as [|c t IH]; simpl; rewrite H; [reflexivity|].
  now rewrite IH.
Qed.

Lemma prefix_lower (n s : string) :
  String.prefix (lower n) (lower s)
  = iprefix (list_ascii_of_string n) (list_ascii_of_string s).
Proof.
  revert s. induction n as [|c n IH]; intros s.
  - destruct s; reflexivity.
  - destruct s as [|d s]; [reflexivity|].
    cbn [lower String.prefix list_ascii_of_string iprefix].
    destruct (ascii_dec (lower_ascii c) (lower_ascii d)) as [E|E].
    + rewrite E, Ascii.eqb_refl. apply IH.
    + apply Ascii.eqb_neq in E. now rewrite E.
Qed.

Lemma contains_lower (n s : string) :
  contains (lower n) (lower s)
  = any_suffix (iprefix (list_ascii_of_string n)) (list_ascii_of_string s).
Proof.
  induction s as [|d s IH].
  - pose proof (prefix_lower n "") as P.
    cbn [lower list_ascii_of_string] in P.
    cbn [lower contains any_suffix list_ascii_of_string]. rewrite P.
    now destruct (iprefix (list_ascii_of_string n) []).
  - pose proof (prefix_lower n (String d s)) as P.
    cbn [lower list_ascii_of_string] in P.
    cbn [lower contains list_ascii_of_string any_suffix].
    rewrite P, IH.
    now destruct (iprefix (list_ascii_of_string n)
                    (d :: list_ascii_of_string s)).
Qed.

Lemma list_ascii_app (a b : string) :
  list_ascii_of_string (a ++ b)
  = (list_ascii_of_string a ++ list_ascii_of_string b)%list.
Proof.
  induction a as [|c a IH]; simpl; [reflexivity|now rewrite IH].
Qed.

Lemma sql_like_substring (n s : string) :
  wildcard_free n = true ->
  sql_like ("%" ++ n ++ "%") s = contains (lower n) (lower s).
Proof.
  intros H. unfold sql_like.
  change ("%" ++ n ++ "%") with (String "%" (n ++ "%")).
  cbn [list_ascii_of_string]. rewrite list_ascii_app. cbn [list_ascii_of_string].
  rewrite like_percent, contains_lower.
  apply any_suffix_ext. intros x. apply like_literal, H.
Qed.

Section Filters.
Context `{RT : Runtime} `{EN : Engine}.

(** The WHERE clause of the SQLite listing is the conjunction of all the
    supplied filters, for a prediction whose user exists and a username
    filter free of [LIKE] wildcards. *)
Lemma sqlite_where_is_conjunction db risk username sd ed p u :
  Sqlite.select_by_id (a_user_id p) (Sqlite.users db) = Some u ->
  (forall n, username = Some n -> wildcard_free n = true) ->
  Sqlite.where_sql db risk username sd ed p
  = satisfies_all_filters (fun a => Sqlite.r_username (Sqlite.row db a))
      risk username sd ed p.
Proof.
  intros Hu Hw. unfold Sqlite.where_sql, satisfies_all_filters, Sqlite.row.
  rewrite Hu. cbn [Sqlite.r_username].
  destruct username as [n|]; [|reflexivity].
  destruct (truthy (Some n)); [|reflexivity].
  now rewrite (sql_like_substring n (u_username u) (Hw n eq_refl)).
Qed.

(** The SQLite listing does what C2 says: its total is the number of rows
    that satisfy all the supplied filters, and its slice is the requested
    page of those rows in the engine's order. *)
Lemma sqlite_listing_is_conjunctive db clk evs page per_page risk username
    sd ed :
  (forall p, In p (Sqlite.predictions db) ->
             Sqlite.select_by_id (a_user_id p) (Sqlite.users db) <> None) ->
  (forall n, username = Some n -> wildcard_free n = true) ->
  let all_filters :=
    satisfies_all_filters (fun a => Sqlite.r_username (Sqlite.row db a))
      risk username sd ed in
  let p := fst (Sqlite.page_params page per_page) in
  let pp := snd (Sqlite.page_params page per_page) in
  (p - 1) * pp <= INT64_MAX -> pp <= INT64_MAX ->
  result
    (Sqlite.get_predictions_paginated page per_page risk username sd ed
       (mkWorld (Online db) clk evs))
  = Ok (Sqlite.mkPage
          (map (Sqlite.row db)
             (limit pp
                (skip ((p - 1) * pp)
                   (page_order ((p - 1) * pp) pp
                      (filter all_filters (Sqlite.predictions db))))))
          (Z.of_nat
             (List.length (filter all_filters (Sqlite.predictions db))))).
Proof.
  intros Hj Hw all_filters p pp. unfold all_filters, p, pp. intros A B.
  rewrite (sqlite_paginated_online _ _ _ _ _ _ _ _ _ A B).
  unfold result, sql_page_selected. cbn [fst].
  rewrite (filter_ext_in
             (Sqlite.where_sql db risk username sd ed)
             (satisfies_all_filters
                (fun a => Sqlite.r_username (Sqlite.row db a))
                risk username sd ed)); [reflexivity|].
  intros a Ha. specialize (Hj a Ha).
  destruct (Sqlite.select_by_id (a_user_id a) (Sqlite.users db)) as [u|] eqn:E;
    [|contradiction].
  now apply (sqlite_where_is_conjunction db risk username sd ed a u).
Qed.

(** The MongoDB listing does so only while no username filter is supplied:
    its query document leaves the username out. *)
Lemma mongo_matches_without_username db risk username sd ed a :
  truthy username = false ->
  Mongo.matches (Mongo.filter_query risk sd ed) a
  = satisfies_all_filters (Mongo.uname_of db) risk username sd ed a
  /\ Mongo.keeps db username a = true.
Proof.
  intros Hn. unfold Mongo.matches, Mongo.filter_query, satisfies_all_filters,
    Mongo.keeps.
  rewrite Hn. cbn [Mongo.q_risk_category Mongo.q_created_gte
                     Mongo.q_created_lte andb negb].
  split; [|reflexivity].
  destruct risk as [r|]; [|reflexivity].
  destruct (truthy (Some r)); now rewrite ?andb_true_r.
Qed.

(** Whatever username filter is supplied, the total the MongoDB listing
    reports is the one it reports without it. *)
Lemma mongo_total_ignores_username w page per_page risk username sd ed :
  Mongo.pg_total
    (returned (Mongo.mkPage [] 0)
       (Mongo.get_assessments_paginated page per_page risk username sd ed w))
  = Mongo.pg_total
      (returned (Mongo.mkPage [] 0)
         (Mongo.get_assessments_paginated page per_page risk None sd ed w)).
Proof.
  destruct w as [[db|reason] clk evs].
  - unfold Mongo.get_assessments_paginated, returned. run_app.
    destruct (Mongo.page_params page per_page) as [p pp].
    destruct (sliced _ _ _); reflexivity.
  - now rewrite !mongo_paginated_offline.
Qed.

End Filters.

(** ** The patient's own history *)

Section History.
Context `{RT : Runtime} `{EN : Engine}.

Lemma engine_own_history (uid : Z) (stored : list Assessment) :
  own_history uid stored
    (order_by_created_desc (filter (fun a => a_user_id a =? uid) stored)).
Proof.
  split; [|split].
  - apply Permutation_sym, order_permutation.
  - apply order_sorted.
  - intros a. split.
    + intros Ha.
      apply (Permutation_in a (Permutation_sym (order_permutation _))) in Ha.
      apply filter_In in Ha. destruct Ha as [Ha E].
      split; [exact Ha|]. now apply Z.eqb_eq.
    + intros [Ha E].
      apply (Permutation_in a (order_permutation _)).
      apply filter_In. split; [exact Ha|]. now apply Z.eqb_eq.
Qed.

(** C8. For every patient id, the patient's listing is exactly the stored
    assessments owned by that id, ordered by creation time descending; no
    row of it belongs to another user, whatever the store holds. With the
    back end unreachable the listing is empty. *)
Theorem patient_history_is_own
    (mdb : Mongo.Db) (sdb : Sqlite.Db) (clk : Z) (evs : list event)
    (user_id : idarg) (uid : Z) :
  Mongo.oid_of user_id = Ok uid ->
  (exists own,
      returned []
        (Mongo.get_patient_assessments user_id (mkWorld (Online mdb) clk evs))
      = map Mongo.summary own
      /\ own_history uid (Mongo.assessments mdb) own)
  /\ (exists own,
        returned []
          (Sqlite.get_patient_predictions uid (mkWorld (Online sdb) clk evs))
        = map Sqlite.summary own
        /\ own_history uid (Sqlite.predictions sdb) own)
  /\ (forall reason,
        returned []
          (Mongo.get_patient_assessments user_id
             (mkWorld (Offline reason) clk evs)) = []
        /\ returned []
             (Sqlite.get_patient_predictions uid
                (mkWorld (Offline reason) clk evs)) = []).
Proof.
  intros Hid. split; [|split].
  - eexists. split.
    + rewrite (mongo_history_online _ _ _ _ _ Hid). reflexivity.
    + apply engine_own_history.
  - eexists. split.
    + rewrite sqlite_history_online. reflexivity.
    + apply engine_own_history.
  - intros reason. split.
    + unfold returned. rewrite mongo_history_failed; [reflexivity|].
      left. eexists. reflexivity.
    + reflexivity.
Qed.

End History.

(** ** Registration *)

Section Registration.
Context `{RT : Runtime}.

Lemma find_app {A} (f : A -> bool) (l1 l2 : list A) :
  find f (l1 ++ l2)
  = match find f l1 with
    | Some x => Some x
    | None => find f l2
    end.
Proof.
  induction l1 as [|a l1 IH]; simpl; [reflexivity|].
  destruct (f a); [reflexivity|exact IH].
Qed.

Lemma find_username_none (u : string) (us : list User) :
  find (fun x => (u_username x =? u)%string) us = None <->
  ~ In u (usernames us).
Proof.
  unfold usernames. induction us as [|x us IH]; simpl.
  - split; [intros _ []|reflexivity].
  - destruct (u_username x =? u)%string eqn:E.
    + apply String.eqb_eq in E. split; [discriminate|].
      intros H. exfalso. apply H. now left.
    + apply String.eqb_neq in E. rewrite IH. split.
      * intros H [H1|H1]; [exact (E H1)|exact (H H1)].
      * intros H H1. apply H. now right.
Qed.

Lemma find_email_none (e : string) (us : list User) :
  find (fun x => (u_email x =? e)%string) us = None <->
  ~ In e (emails us).
Proof.
  unfold emails. induction us as [|x us IH]; simpl.
  - split; [intros _ []|reflexivity].
  - destruct (u_email x =? e)%string eqn:E.
    + apply String.eqb_eq in E. split; [discriminate|].
      intros H. exfalso. apply H. now left.
    + apply String.eqb_neq in E. rewrite IH. split.
      * intros H [H1|H1]; [exact (E H1)|exact (H H1)].
      * intros H H1. apply H. now right.
Qed.

Lemma shorter_than_empty (s : string) (n : nat) :
  shorter_than s (S n) = false -> (s =? "")%string = false.
Proof.
  destruct s; [discriminate|reflexivity].
Qed.

(** What one call of the MongoDB [register_user] does: it refuses and
    leaves the store alone, or it accepts a request that passes every
    check and appends one user. *)
Lemma mongo_register_cases (u e p r : string) (w : World Mongo.Db) :
  let res := Mongo.register_user u e p r w in
  (rejected res /\ store (world_after res) = store w)
  \/ (result res = Ok (true, "Registration successful")
      /\ shorter_than u 3 = false /\ shorter_than p 6 = false
      /\ (r = "patient" \/ r = "doctor")
      /\ exists db db',
          store w = Online db
          /\ ~ In u (usernames (Mongo.users db))
          /\ ~ In e (emails (Mongo.users db))
          /\ store (world_after res) = Online db'
          /\ Mongo.users db'
             = (Mongo.users db
                ++ [mkUser (Mongo.next_oid db) u e
                      (generate_password_hash p) r (clock w)])%list).
Proof.
  unfold Mongo.register_user.
  destruct ((u =? "")%string || shorter_than u 3) eqn:Eu;
    [left; split; [eexists|]; reflexivity|].
  destruct ((p =? "")%string || shorter_than p 6) eqn:Ep;
    [left; split; [eexists|]; reflexivity|].
  destruct (negb ((r =? "patient")%string || (r =? "doctor")%string)) eqn:Er;
    [left; split; [eexists|]; reflexivity|].
  apply orb_false_iff in Eu, Ep. destruct Eu as [_ Eu], Ep as [_ Ep].
  apply negb_false_iff in Er.
  destruct w as [[db|reason] clk evs]; cbv zeta;
    [|left; split; [eexists|]; reflexivity].
  unfold Mongo.users_insert_one. run_app.
  unfold Mongo.find_by_username, Mongo.find_by_email.
  destruct (find (fun x => (u_username x =? u)%string) (Mongo.users db))
    eqn:Fu; [left; split; [eexists|]; reflexivity|].
  destruct (find (fun x => (u_email x =? e)%string) (Mongo.users db))
    eqn:Fe; [left; split; [eexists|]; reflexivity|].
  right. run_app. unfold Mongo.find_by_username, Mongo.find_by_email.
  rewrite Fu, Fe. run_app.
  apply find_username_none in Fu. apply find_email_none in Fe.
  assert (Hr : r = "patient" \/ r = "doctor").
  { apply orb_true_iff in Er. destruct Er as [Er|Er];
      apply String.eqb_eq in Er; auto. }
  destruct (r =? "patient")%string eqn:Rp;
    [|destruct (r =? "doctor")%string eqn:Rd; [|discriminate]].
  all: unfold Mongo.patient_profiles_insert_one,
         Mongo.doctor_profiles_insert_one; run_app;
       repeat split; auto; do 2 eexists; repeat split; eauto.
Qed.

Lemma sqlite_register_cases (u e p r : string) (w : World Sqlite.Db) :
  let res := Sqlite.register_user u e p r w in
  (rejected res /\ store (world_after res) = store w)
  \/ (result res = Ok (true, "Registration successful")
      /\ shorter_than u 3 = false /\ shorter_than p 6 = false
      /\ (r = "patient" \/ r = "doctor")
      /\ exists db db',
          store w = Online db
          /\ ~ In u (usernames (Sqlite.users db))
          /\ store (world_after res) = Online db'
          /\ Sqlite.users db'
             = (Sqlite.users db
                ++ [mkUser (Sqlite.next_user_id db) u e
                      (generate_password_hash p) r (clock w)])%list).
Proof.
  unfold Sqlite.register_user.
  destruct ((u =? "")%string || shorter_than u 3) eqn:Eu;
    [left; split; [eexists|]; reflexivity|].
  destruct ((p =? "")%string || shorter_than p 6) eqn:Ep;
    [left; split; [eexists|]; reflexivity|].
  destruct (negb ((r =? "patient")%string || (r =? "doctor")%string)) eqn:Er;
    [left; split; [eexists|]; reflexivity|].
  apply orb_false_iff in Eu, Ep. destruct Eu as [_ Eu], Ep as [_ Ep].
  apply negb_false_iff in Er.
  destruct w as [[db|reason] clk evs]; cbv zeta;
    [|left; split; [eexists|]; reflexivity].
  unfold Sqlite.insert_user. run_app. unfold Sqlite.select_by_username.
  destruct (find (fun x => (u_username x =? u)%string) (Sqlite.users db))
    eqn:Fu; [left; split; [eexists|]; reflexivity|].
  right. run_app. unfold Sqlite.select_by_username. rewrite Fu. run_app.
  apply find_username_none in Fu.
  assert (Hr : r = "patient" \/ r = "doctor").
  { apply orb_true_iff in Er. destruct Er as [Er|Er];
      apply String.eqb_eq in Er; auto. }
  repeat split; auto. do 2 eexists. repeat split; eauto.
Qed.

(** The users after one registration: those before, with at most the new
    one appended, under a name (and, on MongoDB, an e-mail address) that
    was not yet stored. *)
Lemma mongo_register_users (u e p r : string) (w : World Mongo.Db) :
  let w' := world_after (Mongo.register_user u e p r w) in
  Mongo.stored_users w' = Mongo.stored_users w
  \/ (~ In u (usernames (Mongo.stored_users w))
      /\ ~ In e (emails (Mongo.stored_users w))
      /\ exists new,
          u_username new = u /\ u_email new = e
          /\ Mongo.stored_users w'
             = (Mongo.stored_users w ++ [new])%list).
Proof.
  destruct (mongo_register_cases u e p r w) as [[_ H]|H]; cbv zeta.
  - left. unfold Mongo.stored_users. now rewrite H.
  - destruct H as (_ & _ & _ & _ & db & db' & Hw & Hu & He & Hw' & Hus).
    right. unfold Mongo.stored_users. rewrite Hw, Hw', Hus.
    repeat split; auto. eexists (mkUser _ _ _ _ _ _).
    repeat split; reflexivity.
Qed.

Lemma sqlite_register_users (u e p r : string) (w : World Sqlite.Db) :
  let w' := world_after (Sqlite.register_user u e p r w) in
  Sqlite.stored_users w' = Sqlite.stored_users w
  \/ (~ In u (usernames (Sqlite.stored_users w))
      /\ exists new,
          u_username new = u
          /\ Sqlite.stored_users w'
             = (Sqlite.stored_users w ++ [new])%list).
Proof.
  destruct (sqlite_register_cases u e p r w) as [[_ H]|H]; cbv zeta.
  - left. unfold Sqlite.stored_users. now rewrite H.
  - destruct H as (_ & _ & _ & _ & db & db' & Hw & Hu & Hw' & Hus).
    right. unfold Sqlite.stored_users. rewrite Hw, Hw', Hus.
    split; auto. eexists (mkUser _ _ _ _ _ _). split; reflexivity.
Qed.

Lemma NoDup_snoc {A} (l : list A) (x : A) :
  NoDup l -> ~ In x l -> NoDup (l ++ [x]).
Proof.
  intros Hl Hx. apply NoDup_rev in Hl.
  rewrite <- (rev_involutive (l ++ [x])). apply NoDup_rev.
  rewrite rev_app_distr. simpl. constructor; [|exact Hl].
  intros H. apply Hx. now apply in_rev.
Qed.

(** A name once stored stays stored, and the names (on MongoDB also the
    e-mail addresses) stay pairwise different, through any run of
    registrations. *)
Lemma mongo_register_all_keeps (reqs : list Registration)
    (w : World Mongo.Db) :
  (forall u, In u (usernames (Mongo.stored_users w)) ->
             In u (usernames (Mongo.stored_users (Mongo.register_all reqs w))))
  /\ (NoDup (usernames (Mongo.stored_users w)) ->
      NoDup (usernames (Mongo.stored_users (Mongo.register_all reqs w))))
  /\ (NoDup (emails (Mongo.stored_users w)) ->
      NoDup (emails (Mongo.stored_users (Mongo.register_all reqs w)))).
Proof.
  revert w. induction reqs as [|q reqs IH]; intros w; simpl.
  - auto.
  - specialize (IH (world_after
                      (Mongo.register_user (rq_username q) (rq_email q)
                         (rq_password q) (rq_role q) w))).
    destruct IH as (IH1 & IH2 & IH3).
    destruct (mongo_register_users (rq_username q) (rq_email q)
                (rq_password q) (rq_role q) w)
      as [E|(Hu & He & new & Nu & Ne & E)]; cbv zeta in E.
    + rewrite E in IH1, IH2, IH3. auto.
    + rewrite E in IH1, IH2, IH3. unfold usernames, emails in *.
      rewrite map_app in IH1, IH2, IH3. simpl in IH1, IH2, IH3.
      rewrite Nu in IH1, IH2. rewrite Ne in IH3.
      split; [|split].
      * intros u H. apply IH1, in_or_app. now left.
      * intros H. apply IH2, NoDup_snoc; assumption.
      * intros H. apply IH3, NoDup_snoc; assumption.
Qed.

Lemma sqlite_register_all_keeps (reqs : list Registration)
    (w : World Sqlite.Db) :
  (forall u, In u (usernames (Sqlite.stored_users w)) ->
             In u (usernames
                     (Sqlite.stored_users (Sqlite.register_all reqs w))))
  /\ (NoDup (usernames (Sqlite.stored_users w)) ->
      NoDup (usernames (Sqlite.stored_users (Sqlite.register_all reqs w)))).
Proof.
  revert w. induction reqs as [|q reqs IH]; intros w; simpl.
  - auto.
  - specialize (IH (world_after
                      (Sqlite.register_user (rq_username q) (rq_email q)
                         (rq_password q) (rq_role q) w))).
    destruct IH as (IH1 & IH2).
    destruct (sqlite_register_users (rq_username q) (rq_email q)
                (rq_password q) (rq_role q) w)
      as [E|(Hu & new & Nu & E)]; cbv zeta in E.
    + rewrite E in IH1, IH2. auto.
    + rewrite E in IH1, IH2. unfold usernames in *.
      rewrite map_app in IH1, IH2. simpl in IH1, IH2.
      rewrite Nu in IH1, IH2.
      split.
      * intros u H. apply IH1, in_or_app. now left.
      * intros H. apply IH2, NoDup_snoc; assumption.
Qed.

Lemma mongo_register_invalid (u e p r : string) (w : World Mongo.Db) :
  shorter_than u 3 = true \/ shorter_than p 6 = true
  \/ (r <> "patient" /\ r <> "doctor") ->
  rejected (Mongo.register_user u e p r w)
  /\ world_after (Mongo.register_user u e p r w) = w.
Proof.
  intros H. unfold Mongo.register_user.
  destruct ((u =? "")%string || shorter_than u 3) eqn:Eu;
    [split; [eexists|]; reflexivity|].
  destruct ((p =? "")%string || shorter_than p 6) eqn:Ep;
    [split; [eexists|]; reflexivity|].
  destruct (negb ((r =? "patient")%string || (r =? "doctor")%string)) eqn:Er;
    [split; [eexists|]; reflexivity|].
  exfalso. apply orb_false_iff in Eu, Ep.
  destruct Eu as [_ Eu], Ep as [_ Ep].
  apply negb_false_iff, orb_true_iff in Er.
  destruct H as [H|[H|[H1 H2]]]; try congruence.
  destruct Er as [Er|Er]; apply String.eqb_eq in Er; congruence.
Qed.

Lemma sqlite_register_invalid (u e p r : string) (w : World Sqlite.Db) :
  shorter_than u 3 = true \/ shorter_than p 6 = true
  \/ (r <> "patient" /\ r <> "doctor") ->
  rejected (Sqlite.register_user u e p r w)
  /\ world_after (Sqlite.register_user u e p r w) = w.
Proof.
  intros H. unfold Sqlite.register_user.
  destruct ((u =? "")%string || shorter_than u 3) eqn:Eu;
    [split; [eexists|]; reflexivity|].
  destruct ((p =? "")%string || shorter_than p 6) eqn:Ep;
    [split; [eexists|]; reflexivity|].
  destruct (negb ((r =? "patient")%string || (r =? "doctor")%string)) eqn:Er;
    [split; [eexists|]; reflexivity|].
  exfalso. apply orb_false_iff in Eu, Ep.
  destruct Eu as [_ Eu], Ep as [_ Ep].
  apply negb_false_iff, orb_true_iff in Er.
  destruct H as [H|[H|[H1 H2]]]; try congruence.
  destruct Er as [Er|Er]; apply String.eqb_eq in Er; congruence.
Qed.

Lemma mongo_register_taken (u e p r : string) (w : World Mongo.Db) :
  In u (usernames (Mongo.stored_users w))
  \/ In e (emails (Mongo.stored_users w)) ->
  rejected (Mongo.register_user u e p r w)
  /\ store (world_after (Mongo.register_user u e p r w)) = store w.
Proof.
  intros H.
  destruct (mongo_register_cases u e p r w) as [H'|H']; [exact H'|].
  exfalso.
  destruct H' as (_ & _ & _ & _ & db & db' & Hw & Hu & He & _).
  unfold Mongo.stored_users in H. rewrite Hw in H. tauto.
Qed.

Lemma sqlite_register_taken (u e p r : string) (w : World Sqlite.Db) :
  In u (usernames (Sqlite.stored_users w)) ->
  rejected (Sqlite.register_user u e p r w)
  /\ store (world_after (Sqlite.register_user u e p r w)) = store w.
Proof.
  intros H.
  destruct (sqlite_register_cases u e p r w) as [H'|H']; [exact H'|].
  exfalso.
  destruct H' as (_ & _ & _ & _ & db & db' & Hw & Hu & _).
  unfold Sqlite.stored_users in H. rewrite Hw in H. tauto.
Qed.

Lemma mongo_register_taken_message (u e p r : string)
    (w : World Mongo.Db) :
  shorter_than u 3 = false -> shorter_than p 6 = false ->
  r = "patient" \/ r = "doctor" ->
  In u (usernames (Mongo.stored_users w)) ->
  result (Mongo.register_user u e p r w)
  = Ok (false, "Username already exists").
Proof.
  intros Hu Hp Hr Hin. unfold Mongo.register_user.
  rewrite Hu, Hp, (shorter_than_empty _ _ Hu), (shorter_than_empty _ _ Hp).
  replace ((r =? "patient")%string || (r =? "doctor")%string) with true
    by (destruct Hr as [-> | ->]; reflexivity).
  cbn [orb negb]. unfold Mongo.stored_users in Hin.
  destruct w as [[db|reason] clk evs]; cbn [store] in Hin; [|destruct Hin].
  run_app. unfold Mongo.find_by_username.
  destruct (find (fun x => (u_username x =? u)%string) (Mongo.users db))
    eqn:F; [reflexivity|].
  apply find_username_none in F. contradiction.
Qed.

Lemma sqlite_register_taken_message (u e p r : string)
    (w : World Sqlite.Db) :
  shorter_than u 3 = false -> shorter_than p 6 = false ->
  r = "patient" \/ r = "doctor" ->
  In u (usernames (Sqlite.stored_users w)) ->
  result (Sqlite.register_user u e p r w)
  = Ok (false, "Username already exists").
Proof.
  intros Hu Hp Hr Hin. unfold Sqlite.register_user.
  rewrite Hu, Hp, (shorter_than_empty _ _ Hu), (shorter_than_empty _ _ Hp).
  replace ((r =? "patient")%string || (r =? "doctor")%string) with true
    by (destruct Hr as [-> | ->]; reflexivity).
  cbn [orb negb]. unfold Sqlite.stored_users in Hin.
  destruct w as [[db|reason] clk evs]; cbn [store] in Hin; [|destruct Hin].
  run_app. unfold Sqlite.select_by_username.
  destruct (find (fun x => (u_username x =? u)%string) (Sqlite.users db))
    eqn:F; [reflexivity|].
  apply find_username_none in F. contradiction.
Qed.

(** After an accepted registration the name is stored. *)
Lemma mongo_accepted_stores (u e p r : string) (w : World Mongo.Db) :
  accepted (Mongo.register_user u e p r w) ->
  shorter_than u 3 = false
  /\ In u (usernames
             (Mongo.stored_users
                (world_after (Mongo.register_user u e p r w)))).
Proof.
  intros [m Hm].
  destruct (mongo_register_cases u e p r w) as [[[m' H'] _]|H'].
  - rewrite Hm in H'. discriminate.
  - destruct H' as (_ & Hu & _ & _ & db & db' & Hw & _ & _ & Hw' & Hus).
    split; [exact Hu|].
    unfold Mongo.stored_users. rewrite Hw', Hus. unfold usernames.
    rewrite map_app. apply in_or_app. right. now left.
Qed.

Lemma sqlite_accepted_stores (u e p r : string) (w : World Sqlite.Db) :
  accepted (Sqlite.register_user u e p r w) ->
  shorter_than u 3 = false
  /\ In u (usernames
             (Sqlite.stored_users
                (world_after (Sqlite.register_user u e p r w)))).
Proof.
  intros [m Hm].
  destruct (sqlite_register_cases u e p r w) as [[[m' H'] _]|H'].
  - rewrite Hm in H'. discriminate.
  - destruct H' as (_ & Hu & _ & _ & db & db' & Hw & _ & Hw' & Hus).
    split; [exact Hu|].
    unfold Sqlite.stored_users. rewrite Hw', Hus. unfold usernames.
    rewrite map_app. apply in_or_app. right. now left.
Qed.

End Registration.

(** ** Login *)

Section Login.
Context `{RT : Runtime}.

Lemma mongo_login_unknown db clk evs u p :
  Mongo.find_by_username u (Mongo.users db) = None ->
  Mongo.login_user u p (mkWorld (Online db) clk evs)
  = (Ok (false, None), mkWorld (Online db) clk evs).
Proof.
  intros H. unfold Mongo.login_user. run_app. now rewrite H.
Qed.

Lemma mongo_login_wrong db clk evs u p user :
  Mongo.find_by_username u (Mongo.users db) = Some user ->
  hash_accepts (u_password_hash user) p = false ->
  Mongo.login_user u p (mkWorld (Online db) clk evs)
  = (Ok (false, None),
     mkWorld (Online db) clk (evs ++ [HashVerified])).
Proof.
  intros H Hh. unfold Mongo.login_user. run_app. rewrite H. run_app.
  now rewrite Hh.
Qed.

Lemma mongo_login_offline reason clk evs u p :
  Mongo.login_user u p (mkWorld (Offline reason) clk evs)
  = (Ok (false, None),
     mkWorld (Offline reason) clk
       (evs ++ [Printed ("Login error: " ++ reason)])).
Proof. reflexivity. Qed.

Lemma sqlite_login_unknown db clk evs u p :
  Sqlite.select_by_username u (Sqlite.users db) = None ->
  Sqlite.login_user u p (mkWorld (Online db) clk evs)
  = (Ok (false, None), mkWorld (Online db) clk evs).
Proof.
  intros H. unfold Sqlite.login_user. run_app. now rewrite H.
Qed.

Lemma sqlite_login_wrong db clk evs u p user :
  Sqlite.select_by_username u (Sqlite.users db) = Some user ->
  hash_accepts (u_password_hash user) p = false ->
  Sqlite.login_user u p (mkWorld (Online db) clk evs)
  = (Ok (false, None),
     mkWorld (Online db) clk (evs ++ [HashVerified])).
Proof.
  intros H Hh. unfold Sqlite.login_user. run_app. rewrite H. run_app.
  now rewrite Hh.
Qed.

(** The login route, once [login_user] has answered. *)
Lemma mongo_login_route_failed form sess w w' :
  strip (form_get form "username" "") <> "" ->
  strip (form_get form "password" "") <> "" ->
  Mongo.login_user (strip (form_get form "username" ""))
    (strip (form_get form "password" "")) w
  = (Ok (false, None), w') ->
  Mongo.login POST form sess w
  = (Ok (Render "login.html" (Some "Invalid username or password") None,
         sess), w').
Proof.
  intros Hu Hp H. unfold Mongo.login.
  apply String.eqb_neq in Hu, Hp. rewrite Hu, Hp. cbn [orb].
  unfold bind. rewrite H. reflexivity.
Qed.

(** C7, as the code has it. A login with a username that is not stored
    and a login with a stored username and a password its hash does not
    accept return the same failure signal, [(False, None)], and the login
    route answers both with the same page and the same message. Their
    timing is not equalised: the first returns without verifying any hash,
    the second only after the hash verification. *)
Theorem login_failures_return_alike
    (mdb : Mongo.Db) (sdb : Sqlite.Db) (clk : Z) (evs : list event)
    (unknown known : dict string) (sess : option Session)
    (um us : User) :
  let u1 := strip (form_get unknown "username" "") in
  let p1 := strip (form_get unknown "password" "") in
  let u2 := strip (form_get known "username" "") in
  let p2 := strip (form_get known "password" "") in
  let wm := mkWorld (Online mdb) clk evs in
  let ws := mkWorld (Online sdb) clk evs in
  u1 <> "" -> p1 <> "" -> u2 <> "" -> p2 <> "" ->
  Mongo.find_by_username u1 (Mongo.users mdb) = None ->
  Mongo.find_by_username u2 (Mongo.users mdb) = Some um ->
  hash_accepts (u_password_hash um) p2 = false ->
  Sqlite.select_by_username u1 (Sqlite.users sdb) = None ->
  Sqlite.select_by_username u2 (Sqlite.users sdb) = Some us ->
  hash_accepts (u_password_hash us) p2 = false ->
  observation (Mongo.login_user u1 p1 wm) = (Ok (false, None), evs)
  /\ observation (Mongo.login_user u2 p2 wm)
     = (Ok (false, None), (evs ++ [HashVerified])%list)
  /\ observation (Sqlite.login_user u1 p1 ws) = (Ok (false, None), evs)
  /\ observation (Sqlite.login_user u2 p2 ws)
     = (Ok (false, None), (evs ++ [HashVerified])%list)
  /\ result (Mongo.login POST unknown sess wm)
     = Ok (Render "login.html" (Some "Invalid username or password") None,
           sess)
  /\ result (Mongo.login POST known sess wm)
     = Ok (Render "login.html" (Some "Invalid username or password") None,
           sess).
Proof.
  intros u1 p1 u2 p2 wm ws Hu1 Hp1 Hu2 Hp2 Mn Ms Mh Sn Ss Sh.
  unfold wm, ws, observation.
  rewrite (mongo_login_unknown _ _ _ _ _ Mn).
  rewrite (mongo_login_wrong _ _ _ _ _ _ Ms Mh).
  rewrite (sqlite_login_unknown _ _ _ _ _ Sn).
  rewrite (sqlite_login_wrong _ _ _ _ _ _ Ss Sh).
  repeat split.
  - erewrite mongo_login_route_failed; try eassumption; [reflexivity|].
    apply mongo_login_unknown, Mn.
  - erewrite mongo_login_route_failed; try eassumption; [reflexivity|].
    apply (mongo_login_wrong _ _ _ _ _ _ Ms Mh).
Qed.

End Login.

(** ** Storage failures *)

Section StorageFailures.
Context `{RT : Runtime}.

(** [save_assessment] never raises, and reports a failure by [False] and a
    line in the server log. *)
Lemma save_assessment_offline reason clk evs user_id features p category :
  Mongo.save_assessment user_id features p category
    (mkWorld (Offline reason) clk evs)
  = (Ok false,
     mkWorld (Offline reason) clk
       (evs ++ [Printed ("Error saving assessment: " ++ reason)])).
Proof. reflexivity. Qed.

Lemma save_assessment_returns user_id features p category w :
  exists saved w',
    Mongo.save_assessment user_id features p category w = (Ok saved, w').
Proof.
  unfold Mongo.save_assessment, Mongo.to_oid, Mongo.assessments_insert_one.
  destruct w as [[db|reason] clk evs]; run_app.
  - destruct (Mongo.oid_of user_id); do 2 eexists; reflexivity.
  - do 2 eexists; reflexivity.
Qed.

(** C9. For every prediction request of a logged-in patient whose form is
    complete and which the classifier scores, a storage back end that is
    unavailable when the assessment is saved does not change the response:
    the page shows the computed probability and its risk category, and the
    failure appears only as a line in the server log. The response is the
    same whatever the state of the storage. *)
Theorem prediction_survives_storage_failure
    (s : Session) (form : dict string) (reason : string) (clk : Z)
    (evs : list event) (predict_proba : list float -> outcome float)
    (features_input : dict float) (data : list float) (p : float) :
  s_role s = "patient" ->
  classifier = Some predict_proba ->
  Mongo.read_features FEATURE_NAMES form [] []
  = Ok (inr (features_input, data)) ->
  predict_proba data = Ok p ->
  Mongo.patient_predict POST form (Some s)
    (mkWorld (Offline reason) clk evs)
  = (Ok (prediction_page s p),
     mkWorld (Offline reason) clk
       (evs ++ [Printed ("Error saving assessment: " ++ reason)]))
  /\ forall st,
      result (Mongo.patient_predict POST form (Some s) (mkWorld st clk evs))
      = Ok (prediction_page s p).
Proof.
  intros Hrole Hclf Hread Hp.
  assert (Step : forall w,
    Mongo.patient_predict POST form (Some s) w
    = match Mongo.save_assessment (IdStr (s_user_id s)) features_input p
              (fst (get_risk_category p)) w with
      | (Ok _, w') => (Ok (prediction_page s p), w')
      | (Raised e, w') =>
          (Ok (Render "predict.html"
                 (Some ("Prediction error: " ++ str_exn e))
                 (Some (s_username s))), w')
      end).
  { intros w. unfold Mongo.patient_predict, Mongo.patient_required.
    rewrite Hrole. cbn [String.eqb Ascii.eqb Bool.eqb negb]. rewrite Hclf.
    unfold try_except at 1. unfold bind at 1, lift at 1. rewrite Hread.
    unfold bind at 1, lift at 1. rewrite Hp.
    unfold prediction_page.
    destruct (get_risk_category p) as [category color]. cbn [fst snd].
    unfold bind at 1.
    destruct (Mongo.save_assessment (IdStr (s_user_id s)) features_input p
                category w) as [[saved|e] w']; reflexivity. }
  split.
  - rewrite Step, save_assessment_offline. reflexivity.
  - intros st. rewrite Step.
    destruct (save_assessment_returns (IdStr (s_user_id s)) features_input
                p (fst (get_risk_category p)) (mkWorld st clk evs))
      as (saved & w' & E).
    rewrite E. reflexivity.
Qed.

Lemma mongo_register_offline u e p r reason clk evs :
  shorter_than u 3 = false -> shorter_than p 6 = false ->
  r = "patient" \/ r = "doctor" ->
  Mongo.register_user u e p r (mkWorld (Offline reason) clk evs)
  = (Ok (false, "Registration error: " ++ reason),
     mkWorld (Offline reason) clk
       (evs ++ [Printed ("Registration error: " ++ reason)])).
Proof.
  intros Hu Hp Hr. unfold Mongo.register_user.
  rewrite Hu, Hp, (shorter_than_empty _ _ Hu), (shorter_than_empty _ _ Hp).
  replace ((r =? "patient")%string || (r =? "doctor")%string) with true
    by (destruct Hr as [-> | ->]; reflexivity).
  reflexivity.
Qed.

(** C10, as the code has it. While the storage back end is unreachable,
    a registration that passes the input checks is answered with the
    registration page and the message [Registration error: ...], which is
    none of the messages of a refused input, and a login with both fields
    filled in is answered exactly as bad credentials are, with [Invalid
    username or password]; both failures are printed to the server log,
    and neither request is ever answered as a success. *)
Theorem storage_failure_at_login_and_registration
    (reason : string) (clk : Z) (evs : list event) (form : dict string)
    (sess : option Session) :
  let w := mkWorld (Offline reason) clk evs in
  let username := strip (form_get form "username" "") in
  let password := strip (form_get form "password" "") in
  (username <> "" -> password <> "" ->
   Mongo.login POST form sess w
   = (Ok (Render "login.html" (Some "Invalid username or password") None,
          sess),
      mkWorld (Offline reason) clk
        (evs ++ [Printed ("Login error: " ++ reason)])))
  /\ (shorter_than username 3 = false -> shorter_than password 6 = false ->
      password = strip (form_get form "confirm_password" "") ->
      Mongo.register_patient POST form w
      = (Ok (Render "register_patient.html"
               (Some ("Registration error: " ++ reason)) None),
         mkWorld (Offline reason) clk
           (evs ++ [Printed ("Registration error: " ++ reason)])))
  /\ (forall m, exists template error,
        result (Mongo.login m form sess w)
        = Ok (Render template error None, sess))
  /\ (forall m, exists error,
        result (Mongo.register_patient m form w)
        = Ok (Render "register_patient.html" error None))
  /\ ~ In ("Registration error: " ++ reason)
         ["Username must be at least 3 characters";
          "Password must be at least 6 characters";
          "Invalid role. Must be 'patient' or 'doctor'";
          "Username already exists"; "Email already registered";
          "Username or email already exists"; "Passwords do not match"].
Proof.
  intros w username password. unfold w, username, password.
  repeat apply conj.
  - intros Hu Hp. apply mongo_login_route_failed; try assumption.
    apply mongo_login_offline.
  - intros Hu Hp Hc. unfold Mongo.register_patient.
    rewrite <- Hc, String.eqb_refl. cbn [negb]. unfold bind.
    rewrite mongo_register_offline by auto. reflexivity.
  - intros [|].
    + do 2 eexists. reflexivity.
    + unfold Mongo.login.
      destruct ((strip (form_get form "username" "") =? "")%string
                || (strip (form_get form "password" "") =? "")%string).
      * do 2 eexists. reflexivity.
      * unfold bind. rewrite mongo_login_offline.
        do 2 eexists. reflexivity.
  - intros [|].
    + eexists. reflexivity.
    + unfold Mongo.register_patient.
      destruct (negb (strip (form_get form "password" "")
                      =? strip (form_get form "confirm_password" ""))%string).
      * eexists. reflexivity.
      * unfold bind.
        destruct (mongo_register_cases
                    (strip (form_get form "username" ""))
                    (strip (form_get form "email" ""))
                    (strip (form_get form "password" "")) "patient"
                    (mkWorld (Offline reason) clk evs))
          as [[[msg Hm] _]|H].
        -- unfold result in Hm.
           destruct (Mongo.register_user _ _ _ _ _) as [o w'].
           cbn [fst] in Hm. subst o. eexists. reflexivity.
        -- destruct H as (_ & _ & _ & _ & db & db' & Hw & _).
           discriminate Hw.
  - cbn [In]. intros H.
    repeat (destruct H as [H|H]; [discriminate H|]). exact H.
Qed.

End StorageFailures.

(** ** The properties on concrete stores *)

Definition clinic_world : World Mongo.Db := mkWorld (Online clinic) 300 [].

(** C2, at a store on which the MongoDB listing departs from it. The clinic
    holds one assessment of alice and a later one of bob. Asked for page 1
    at page size 1 with the username filter "alice", the listing reports a
    total of 2 and returns no row, although exactly one assessment satisfies
    all the filters and the export query with the same filters returns
    it. *)
Lemma mongo_listing_filters_username_after_paging :
  result
    (Mongo.get_assessments_paginated (RT := sample_runtime)
       (EN := scan_order_engine) (PyInt 1) (PyInt 1) None (Some "alice")
       None None clinic_world)
  = Ok (Mongo.mkPage [] 2)
  /\ filter (satisfies_all_filters (Mongo.uname_of clinic) None (Some "alice")
            None None)
       (Mongo.assessments clinic)
     = [alice_high]
  /\ result
       (Mongo.get_assessments_filtered (RT := sample_runtime)
          (EN := scan_order_engine) None (Some "alice") None None
          clinic_world)
     = Ok [Mongo.row (RT := sample_runtime) clinic alice_high].
Proof. repeat split; vm_compute; reflexivity. Qed.

Lemma pages_concatenate_to_export_witness :
  List.concat
    (map (fun k =>
            page_rows
              (Mongo.get_assessments_paginated (RT := sample_runtime)
                 (EN := scan_order_engine) (PyInt (Z.of_nat k)) (PyStr "1")
                 None (Some "alice") None None clinic_world))
       (seq 1 2))
  = returned []
      (Mongo.get_assessments_filtered (RT := sample_runtime)
         (EN := scan_order_engine) None (Some "alice") None None
         clinic_world).
Proof.
  refine (proj1 (pages_concatenate_to_export (RT := sample_runtime)
                   (EN := scan_order_engine) clinic 300 [] (PyStr "1") 1
                   None (Some "alice") None None 2 _ _ _ _)).
  - reflexivity.
  - repeat constructor; cbn; intuition discriminate.
  - vm_compute. discriminate.
  - vm_compute. discriminate.
Defined.

(** C3 fails as stated. With two assessments stored at the same instant and
    an engine whose order among equal timestamps depends on the window,
    page 1 and page 2 at page size 1 both hold the first assessment while
    the export holds each once. And at a page size of 2^63 the driver
    raises: page 1 comes back empty with total 0, while the export returns
    the two rows of the clinic. *)
Lemma pages_repeat_and_omit_rows :
  map Mongo.r_id
    (page_rows
       (Mongo.get_assessments_paginated (RT := sample_runtime)
          (EN := window_sort_engine) (PyInt 1) (PyInt 1) None None None None
          (mkWorld (Online noon_clinic) 300 []))
     ++ page_rows
          (Mongo.get_assessments_paginated (RT := sample_runtime)
             (EN := window_sort_engine) (PyInt 2) (PyInt 1) None None None
             None (mkWorld (Online noon_clinic) 300 [])))
  = ["2"; "2"]
  /\ map Mongo.r_id
       (returned []
          (Mongo.get_assessments_filtered (RT := sample_runtime)
             (EN := window_sort_engine) None None None None
             (mkWorld (Online noon_clinic) 300 [])))
     = ["2"; "3"]
  /\ result
       (Mongo.get_assessments_paginated (RT := sample_runtime)
          (EN := scan_order_engine) (PyInt 1) (PyStr "9223372036854775808")
          None None None None clinic_world)
     = Ok (Mongo.mkPage [] 0)
  /\ List.length
       (returned []
          (Mongo.get_assessments_filtered (RT := sample_runtime)
             (EN := scan_order_engine) None None None None clinic_world))
     = 2%nat.
Proof. repeat split; vm_compute; reflexivity. Qed.

(** C4 fails as stated: on an engine that serves the descending sort by
    walking the ascending [created_at] index, which [init_mongodb] creates,
    backwards, the two assessments of the MongoDB store that were saved at
    the same instant are listed last inserted first. *)
Lemma equal_timestamps_follow_the_engine :
  map a_id (Mongo.assessments noon_clinic) = [2; 3]
  /\ map a_created_at (Mongo.assessments noon_clinic) = [100; 100]
  /\ page_rows
       (Mongo.get_assessments_paginated (RT := sample_runtime)
          (EN := backward_scan_engine) (PyInt 1) (PyInt 10) None None None
          None (mkWorld (Online noon_clinic) 300 []))
     = map (Mongo.row (RT := sample_runtime) noon_clinic)
         (rev (Mongo.assessments noon_clinic))
  /\ ~ ties_in_insertion_order
         (map (fun a => (a_created_at a, a_id a))
            (rev (Mongo.assessments noon_clinic))).
Proof.
  split; [reflexivity|]. split; [reflexivity|].
  split; [vm_compute; reflexivity|].
  intros H. cbn in H. inversion H as [|x l Hl Hx]; subst.
  inversion Hx as [|y l' Hy _]; subst.
  unfold newest_first_then_id in Hy. simpl in Hy. lia.
Qed.

(** C5 fails as stated: the MongoDB listing reads the page size 0 as 1, not
    as the default 10. *)
Lemma mongo_page_size_zero_becomes_one :
  Mongo.page_params (RT := sample_runtime) (PyStr "1") (PyStr "0") = (1, 1)
  /\ List.length
       (page_rows
          (Mongo.get_assessments_paginated (RT := sample_runtime)
             (EN := scan_order_engine) (PyStr "1") (PyStr "0") None None
             None None clinic_world)) = 1%nat
  /\ List.length
       (page_rows
          (Mongo.get_assessments_paginated (RT := sample_runtime)
             (EN := scan_order_engine) (PyStr "1") (PyStr "10") None None
             None None clinic_world)) = 2%nat.
Proof. repeat split; vm_compute; reflexivity. Qed.

Lemma pagination_parameters_witness :
  Mongo.page_params (RT := sample_runtime) (PyStr "two") (PyStr "5") = (1, 10)
  /\ Sqlite.page_params (RT := sample_runtime) (PyStr "two") (PyStr "5")
     = (1, 10).
Proof.
  refine (proj1 (pagination_parameters (RT := sample_runtime)
                   (EN := scan_order_engine) (PyStr "two") (PyStr "5")) _).
  left. eexists. vm_compute. reflexivity.
Defined.

(** C7 fails as stated: the two failed logins differ in what the server is
    seen doing, since only the one with a stored username runs the password
    hash. *)
Lemma unknown_username_skips_the_hash :
  observation
    (Mongo.login_user (RT := sample_runtime) "mallory" "guess" clinic_world)
  = (Ok (false, None), [])
  /\ observation
       (Mongo.login_user (RT := sample_runtime) "alice" "guess" clinic_world)
     = (Ok (false, None), [HashVerified])
  /\ observation
       (Mongo.login_user (RT := sample_runtime) "mallory" "guess"
          clinic_world)
     <> observation
          (Mongo.login_user (RT := sample_runtime) "alice" "guess"
             clinic_world).
Proof.
  repeat split; try (vm_compute; reflexivity).
  vm_compute. discriminate.
Qed.

Lemma login_failures_return_alike_witness :
  result
    (Mongo.login (RT := sample_runtime) POST
       [("username", "mallory"); ("password", "guess")] None clinic_world)
  = Ok (Render "login.html" (Some "Invalid username or password") None, None)
  /\ result
       (Mongo.login (RT := sample_runtime) POST
          [("username", "alice"); ("password", "guess")] None clinic_world)
     = Ok (Render "login.html" (Some "Invalid username or password") None,
           None).
Proof.
  refine (proj2 (proj2 (proj2 (proj2
            (login_failures_return_alike (RT := sample_runtime)
               clinic sqlite_clinic 300 []
               [("username", "mallory"); ("password", "guess")]
               [("username", "alice"); ("password", "guess")] None
               alice alice _ _ _ _ _ _ _ _ _ _))))).
  all: vm_compute; try reflexivity; discriminate.
Defined.

Lemma patient_history_is_own_witness :
  exists own,
    returned []
      (Mongo.get_patient_assessments (RT := sample_runtime)
         (EN := scan_order_engine) (IdStr "1") clinic_world)
    = map (Mongo.summary (RT := sample_runtime)) own
    /\ own_history 1 (Mongo.assessments clinic) own.
Proof.
  refine (proj1 (patient_history_is_own (RT := sample_runtime)
                   (EN := scan_order_engine) clinic sqlite_clinic 300 []
                   (IdStr "1") 1 _)).
  vm_compute. reflexivity.
Defined.

Lemma prediction_survives_storage_failure_witness :
  Mongo.patient_predict (RT := sample_runtime) POST complete_form
    (Some alice_session) (mkWorld (Offline outage) 300 [])
  = (Ok (prediction_page (RT := sample_runtime) alice_session 0.75),
     mkWorld (Offline outage) 300
       [Printed ("Error saving assessment: " ++ outage)]).
Proof.
  refine (proj1 (prediction_survives_storage_failure (RT := sample_runtime)
                   alice_session complete_form outage 300 []
                   (fun _ => Ok 0.75%float)
                   (rev (map (fun name => (name, 1%float)) ASSESSMENT_COLUMNS))
                   (map (fun _ => 1%float) ASSESSMENT_COLUMNS)
                   0.75 _ _ _ _)).
  all: vm_compute; reflexivity.
Defined.

(** C10 fails as stated: with the back end unreachable, a login is answered
    exactly as a login with a wrong password is. *)
Lemma storage_failure_looks_like_bad_credentials :
  result
    (Mongo.login (RT := sample_runtime) POST
       [("username", "alice"); ("password", "secret1")] None
       (mkWorld (Offline outage) 300 []))
  = Ok (Render "login.html" (Some "Invalid username or password") None, None)
  /\ result
       (Mongo.login (RT := sample_runtime) POST
          [("username", "alice"); ("password", "guess")] None clinic_world)
     = Ok (Render "login.html" (Some "Invalid username or password") None,
           None)
  /\ result
       (Mongo.login (RT := sample_runtime) POST
          [("username", "alice"); ("password", "secret1")] None clinic_world)
     = Ok (Redirect "patient_dashboard", Some alice_session).
Proof. repeat split; vm_compute; reflexivity. Qed.

Lemma storage_failure_at_login_and_registration_witness :
  Mongo.login (RT := sample_runtime) POST
    [("username", "alice"); ("password", "secret1")] None
    (mkWorld (Offline outage) 300 [])
  = (Ok (Render "login.html" (Some "Invalid username or password") None,
         None),
     mkWorld (Offline outage) 300 [Printed ("Login error: " ++ outage)]).
Proof.
  refine (proj1 (storage_failure_at_login_and_registration
                   (RT := sample_runtime) outage 300 []
                   [("username", "alice"); ("password", "secret1")] None)
            _ _).
  all: vm_compute; discriminate.
Defined.

(** ** The unfiltered listings *)

Section Unfiltered.
Context `{RT : Runtime} `{EN : Engine}.

Lemma mongo_keeps_without_username db username l :
  truthy username = false -> filter (Mongo.keeps db username) l = l.
Proof.
  intros H. unfold Mongo.keeps. rewrite H. cbn [andb negb].
  apply filter_true.
Qed.

Lemma mongo_matches_without_filters risk l :
  truthy risk = false ->
  filter (Mongo.matches (Mongo.filter_query risk None None)) l = l.
Proof.
  intros H. unfold Mongo.matches, Mongo.filter_query. rewrite H.
  cbn [Mongo.q_risk_category Mongo.q_created_gte Mongo.q_created_lte andb].
  apply filter_true.
Qed.

Lemma sqlite_where_without_filters db risk username p :
  truthy risk = false -> truthy username = false ->
  Sqlite.where_sql db risk username None None p = Sqlite.joined db p.
Proof.
  intros Hr Hu. unfold Sqlite.where_sql, Sqlite.joined. rewrite Hr, Hu.
  destruct (Sqlite.select_by_id (a_user_id p) (Sqlite.users db)); reflexivity.
Qed.

(** X1. In both variants the listing of all assessments returns exactly
    what the filtered export query returns when no filter is supplied; a
    risk or username filter given as the empty string counts as not
    supplied. *)
Theorem all_rows_is_export_without_filters
    (wm : World Mongo.Db) (ws : World Sqlite.Db)
    (risk username : option string) :
  truthy risk = false -> truthy username = false ->
  result (Mongo.get_all_assessments wm)
  = result (Mongo.get_assessments_filtered risk username None None wm)
  /\ result (Sqlite.get_all_predictions ws)
     = result (Sqlite.get_predictions_filtered risk username None None ws).
Proof.
  intros Hr Hu. split.
  - destruct wm as [[db|reason] clk evs]; [|reflexivity].
    rewrite mongo_filtered_online. unfold selected, Mongo.collect.
    rewrite (mongo_matches_without_filters risk _ Hr).
    rewrite (mongo_keeps_without_username db username _ Hu). reflexivity.
  - destruct ws as [[db|reason] clk evs]; [|reflexivity].
    unfold Sqlite.get_all_predictions, Sqlite.get_predictions_filtered.
    run_app.
    rewrite (filter_ext (Sqlite.where_sql db risk username None None)
               (Sqlite.joined db)); [reflexivity|].
    intros p. now apply sqlite_where_without_filters.
Qed.

End Unfiltered.

Lemma all_rows_is_export_without_filters_witness :
  result
    (Mongo.get_all_assessments (RT := sample_runtime)
       (EN := scan_order_engine) clinic_world)
  = result
      (Mongo.get_assessments_filtered (RT := sample_runtime)
         (EN := scan_order_engine) (Some "") None None None clinic_world).
Proof.
  refine (proj1 (all_rows_is_export_without_filters (RT := sample_runtime)
                   (EN := scan_order_engine) clinic_world
                   (mkWorld (Online sqlite_clinic) 300 [])
                   (Some "") None _ _)); reflexivity.
Defined.

(** ** Registration, then login *)

Section RegisterLogin.
Context `{RT : Runtime}.

Lemma mongo_register_online u e p r w db :
  store w = Online db ->
  exists db' extra,
    store (world_after (Mongo.register_user u e p r w)) = Online db'
    /\ Mongo.users db' = (Mongo.users db ++ extra)%list.
Proof.
  intros Hw.
  destruct (mongo_register_cases u e p r w) as [[_ H]|H].
  - exists db, []. rewrite H, app_nil_r. auto.
  - destruct H as (_ & _ & _ & _ & d & d' & Hd & _ & _ & Hd' & Hus).
    rewrite Hw in Hd. injection Hd as <-.
    exists d'. eexists. split; [exact Hd'|exact Hus].
Qed.

Lemma mongo_register_all_online later w db :
  store w = Online db ->
  exists db' extra,
    store (Mongo.register_all later w) = Online db'
    /\ Mongo.users db' = (Mongo.users db ++ extra)%list.
Proof.
  revert w db. induction later as [|q later IH]; intros w db Hw; simpl.
  - exists db, []. rewrite app_nil_r. auto.
  - destruct (mongo_register_online (rq_username q) (rq_email q)
                (rq_password q) (rq_role q) w db Hw)
      as (d1 & x1 & H1 & U1).
    destruct (IH _ _ H1) as (d2 & x2 & H2 & U2).
    exists d2, (x1 ++ x2)%list. split; [exact H2|].
    now rewrite U2, U1, app_assoc.
Qed.

Lemma sqlite_register_online u e p r w db :
  store w = Online db ->
  exists db' extra,
    store (world_after (Sqlite.register_user u e p r w)) = Online db'
    /\ Sqlite.users db' = (Sqlite.users db ++ extra)%list.
Proof.
  intros Hw.
  destruct (sqlite_register_cases u e p r w) as [[_ H]|H].
  - exists db, []. rewrite H, app_nil_r. auto.
  - destruct H as (_ & _ & _ & _ & d & d' & Hd & _ & Hd' & Hus).
    rewrite Hw in Hd. injection Hd as <-.
    exists d'. eexists. split; [exact Hd'|exact Hus].
Qed.

Lemma sqlite_register_all_online later w db :
  store w = Online db ->
  exists db' extra,
    store (Sqlite.register_all later w) = Online db'
    /\ Sqlite.users db' = (Sqlite.users db ++ extra)%list.
Proof.
  revert w db. induction later as [|q later IH]; intros w db Hw; simpl.
  - exists db, []. rewrite app_nil_r. auto.
  - destruct (sqlite_register_online (rq_username q) (rq_email q)
                (rq_password q) (rq_role q) w db Hw)
      as (d1 & x1 & H1 & U1).
    destruct (IH _ _ H1) as (d2 & x2 & H2 & U2).
    exists d2, (x1 ++ x2)%list. split; [exact H2|].
    now rewrite U2, U1, app_assoc.
Qed.

(** The user a name finds once it was appended under a name not stored
    before. *)
Lemma find_appended (u : string) (us extra : list User) (new : User) :
  ~ In u (usernames us) -> u_username new = u ->
  find (fun x => (u_username x =? u)%string) ((us ++ [new]) ++ extra)
  = Some new.
Proof.
  intros Hn Hu. rewrite !find_app.
  apply find_username_none in Hn. rewrite Hn. cbn [find].
  now rewrite Hu, String.eqb_refl.
Qed.

(** X2. Registration and login round-trip, in both variants: when the
    password hash accepts the password it was made from, a login with the
    username and password of an accepted registration succeeds and returns
    that username and role, also after any number of later registrations. *)
Theorem register_then_login
    (wm : World Mongo.Db) (ws : World Sqlite.Db) (u e p r : string) :
  hash_accepts (generate_password_hash p) p = true ->
  (accepted (Mongo.register_user u e p r wm) ->
   forall later, exists uid,
     result
       (Mongo.login_user u p
          (Mongo.register_all later
             (world_after (Mongo.register_user u e p r wm))))
     = Ok (true, Some (Mongo.mkUserInfo uid r u)))
  /\ (accepted (Sqlite.register_user u e p r ws) ->
      forall later, exists uid,
        result
          (Sqlite.login_user u p
             (Sqlite.register_all later
                (world_after (Sqlite.register_user u e p r ws))))
        = Ok (true, Some (Sqlite.mkUserInfo uid r u))).
Proof.
  intros Hh. split.
  - intros [m Hm] later.
    destruct (mongo_register_cases u e p r wm) as [[[m' H'] _]|H].
    { rewrite Hm in H'. discriminate. }
    destruct H as (_ & _ & _ & _ & db & db' & Hw & Hu & _ & Hw' & Hus).
    destruct (mongo_register_all_online later _ _ Hw')
      as (db2 & extra & H2 & U2).
    exists (Mongo.next_oid db).
    destruct (Mongo.register_all later _) as [st clk evs].
    cbn [store] in H2. subst st.
    unfold Mongo.login_user. run_app. unfold Mongo.find_by_username.
    rewrite U2, Hus. erewrite find_appended; [|exact Hu|reflexivity].
    run_app.
    cbn [u_password_hash]. now rewrite Hh.
  - intros [m Hm] later.
    destruct (sqlite_register_cases u e p r ws) as [[[m' H'] _]|H].
    { rewrite Hm in H'. discriminate. }
    destruct H as (_ & _ & _ & _ & db & db' & Hw & Hu & Hw' & Hus).
    destruct (sqlite_register_all_online later _ _ Hw')
      as (db2 & extra & H2 & U2).
    exists (Sqlite.next_user_id db).
    destruct (Sqlite.register_all later _) as [st clk evs].
    cbn [store] in H2. subst st.
    unfold Sqlite.login_user. run_app. unfold Sqlite.select_by_username.
    rewrite U2, Hus. erewrite find_appended; [|exact Hu|reflexivity].
    run_app.
    cbn [u_password_hash]. now rewrite Hh.
Qed.

End RegisterLogin.

Lemma register_then_login_witness :
  exists uid,
    result
      (Mongo.login_user (RT := sample_runtime) "carol" "secret3"
         (Mongo.register_all (RT := sample_runtime)
            [mkRegistration "dave" "d@x.com" "secret4" "doctor"]
            (world_after
               (Mongo.register_user (RT := sample_runtime) "carol" "c@x.com"
                  "secret3" "patient" clinic_world))))
    = Ok (true, Some (Mongo.mkUserInfo uid "patient" "carol")).
Proof.
  refine (proj1 (register_then_login (RT := sample_runtime) clinic_world
                   (mkWorld (Online sqlite_clinic) 300 [])
                   "carol" "c@x.com" "secret3" "patient" _) _ _).
  - reflexivity.
  - eexists. vm_compute. reflexivity.
Defined.

(** ** Saving an assessment, then reading the history *)

Section SaveThenRead.
Context `{RT : Runtime} `{EN : Engine}.

Lemma save_assessment_online db clk evs user_id uid features p category :
  Mongo.oid_of user_id = Ok uid ->
  Mongo.save_assessment user_id features p category
    (mkWorld (Online db) clk evs)
  = (Ok true,
     mkWorld
       (Online
          (Mongo.mkDb (Mongo.users db)
             (Mongo.assessments db
                ++ [saved_row db uid features p category clk])
             (Mongo.patient_profiles db) (Mongo.doctor_profiles db)
             (Mongo.next_oid db + 1)))
       clk evs).
Proof.
  intros H. unfold Mongo.save_assessment, Mongo.to_oid,
    Mongo.assessments_insert_one. run_app. rewrite H. reflexivity.
Qed.

Lemma filter_owner_snoc (uid other : Z) (l : list Assessment)
    (new : Assessment) :
  a_user_id new = uid ->
  filter (fun a => a_user_id a =? other) (l ++ [new])
  = if uid =? other
    then (filter (fun a => a_user_id a =? other) l ++ [new])%list
    else filter (fun a => a_user_id a =? other) l.
Proof.
  intros H. rewrite filter_app. cbn [filter]. rewrite H.
  destruct (uid =? other); [reflexivity|apply app_nil_r].
Qed.

(** X3. Saving and reading round-trip on MongoDB: after [save_assessment]
    for a patient on a reachable store, that patient's history is the
    history of the store with the new assessment appended: it holds the new
    row, with the probability, category and time it was saved with, and is
    one row longer; the history of every other patient is what it was. *)
Theorem saved_assessment_joins_history
    (db : Mongo.Db) (clk : Z) (evs : list event) (user_id : idarg) (uid : Z)
    (features : dict float) (p : float) (category : string) :
  Mongo.oid_of user_id = Ok uid ->
  let w := mkWorld (Online db) clk evs in
  let w' := world_after (Mongo.save_assessment user_id features p category w) in
  let new := saved_row db uid features p category clk in
  result (Mongo.save_assessment user_id features p category w) = Ok true
  /\ (exists own,
        returned [] (Mongo.get_patient_assessments user_id w')
        = map Mongo.summary own
        /\ own_history uid (Mongo.assessments db ++ [new]) own
        /\ In new own
        /\ List.length own
           = S (List.length
                  (returned [] (Mongo.get_patient_assessments user_id w))))
  /\ (forall other, other <> uid ->
        result (Mongo.get_patient_assessments (IdObj other) w')
        = result (Mongo.get_patient_assessments (IdObj other) w)).
Proof.
  intros Hid w w' new. unfold w', w, new.
  rewrite (save_assessment_online _ _ _ _ _ _ _ _ Hid).
  unfold world_after, result. cbn [fst snd].
  split; [reflexivity|split].
  - eexists. split; [|split; [|split]].
    + rewrite (mongo_history_online _ _ _ _ _ Hid). reflexivity.
    + apply engine_own_history.
    + apply (Permutation_in _ (order_permutation _)).
      apply filter_In. split.
      * apply in_or_app. right. now left.
      * apply Z.eqb_refl.
    + rewrite (mongo_history_online _ _ _ _ _ Hid).
      unfold returned, result. cbn [fst Mongo.assessments].
      rewrite length_map.
      rewrite <- (Permutation_length (order_permutation _)).
      rewrite <- (Permutation_length (order_permutation _)).
      rewrite (filter_owner_snoc uid uid) by reflexivity.
      rewrite Z.eqb_refl, length_app. cbn [List.length]. lia.
  - intros other Hne.
    rewrite !(mongo_history_online _ _ _ (IdObj other) other eq_refl).
    cbn [fst Mongo.assessments].
    rewrite (filter_owner_snoc uid other) by reflexivity.
    destruct (uid =? other) eqn:E; [apply Z.eqb_eq in E; congruence|].
    reflexivity.
Qed.

Lemma sqlite_save_online db clk evs uid features values p category :
  Sqlite.subscript_all features ASSESSMENT_COLUMNS = Ok values ->
  Sqlite.save_prediction uid features p category (mkWorld (Online db) clk evs)
  = (Ok true,
     mkWorld
       (Online
          (Sqlite.mkDb (Sqlite.users db)
             (Sqlite.predictions db
                ++ [mkAssessment
                      (Sqlite.next_prediction_id (Sqlite.predictions db)) uid
                      values p category clk])
             (Sqlite.next_user_id db)))
       clk evs).
Proof.
  intros H. unfold Sqlite.save_prediction. run_app. rewrite H. reflexivity.
Qed.

Lemma subscript_all_complete features names :
  (forall name, In name names -> dict_get features name <> None) ->
  Sqlite.subscript_all features names = Ok (map (dict_get features) names).
Proof.
  induction names as [|n names IH]; intros H; simpl; [reflexivity|].
  destruct (dict_get features n) eqn:E.
  - rewrite IH; [reflexivity|]. intros x Hx. apply H. now right.
  - exfalso. apply (H n); [now left|exact E].
Qed.

Lemma subscript_all_missing features names name :
  In name names -> dict_get features name = None ->
  exists key, In key names /\ dict_get features key = None
              /\ Sqlite.subscript_all features names
                 = Raised (Exception ("'" ++ key ++ "'")).
Proof.
  induction names as [|n names IH]; intros Hin Hn; [destruct Hin|].
  simpl. destruct (dict_get features n) eqn:E.
  - destruct Hin as [->|Hin]; [congruence|].
    destruct (IH Hin Hn) as (key & Hk & Hg & Hs).
    exists key. rewrite Hs. split; [now right|]. split; [exact Hg|reflexivity].
  - exists n. split; [now left|]. split; [exact E|reflexivity].
Qed.

Lemma next_prediction_id_above (ps : list Assessment) :
  Forall (fun p => a_id p < Sqlite.next_prediction_id ps) ps.
Proof.
  unfold Sqlite.next_prediction_id. induction ps as [|p ps IH].
  - constructor.
  - cbn [fold_right]. constructor.
    + pose proof (Z.le_max_l (a_id p)
                    (fold_right (fun p m => Z.max (a_id p) m) 0 ps)).
      lia.
    + eapply Forall_impl; [|exact IH]. intros a Ha. cbv beta in *.
      pose proof (Z.le_max_r (a_id p)
                    (fold_right (fun p m => Z.max (a_id p) m) 0 ps)).
      lia.
Qed.

(** X4. Saving and reading round-trip on SQLite: when the features hold
    every column, [save_prediction] on a reachable store succeeds, the new
    row gets an id no stored prediction has, the patient's history holds it
    and is one row longer, and the history of every other patient is what
    it was. *)
Theorem saved_prediction_joins_history
    (db : Sqlite.Db) (clk : Z) (evs : list event) (uid : Z)
    (features : dict float) (p : float) (category : string) :
  (forall name, In name ASSESSMENT_COLUMNS -> dict_get features name <> None) ->
  let w := mkWorld (Online db) clk evs in
  let w' := world_after (Sqlite.save_prediction uid features p category w) in
  let new :=
    mkAssessment (Sqlite.next_prediction_id (Sqlite.predictions db)) uid
      (map (dict_get features) ASSESSMENT_COLUMNS) p category clk in
  result (Sqlite.save_prediction uid features p category w) = Ok true
  /\ ~ In (a_id new) (map a_id (Sqlite.predictions db))
  /\ (exists own,
        returned [] (Sqlite.get_patient_predictions uid w')
        = map Sqlite.summary own
        /\ own_history uid (Sqlite.predictions db ++ [new]) own
        /\ In new own
        /\ List.length own
           = S (List.length
                  (returned [] (Sqlite.get_patient_predictions uid w))))
  /\ (forall other, other <> uid ->
        result (Sqlite.get_patient_predictions other w')
        = result (Sqlite.get_patient_predictions other w)).
Proof.
  intros Hall w w' new. unfold w', w, new.
  rewrite (sqlite_save_online _ _ _ _ _ _ _ _
             (subscript_all_complete _ _ Hall)).
  unfold world_after, result. cbn [fst snd].
  split; [reflexivity|split; [|split]].
  - cbn [a_id]. intros Hin. apply in_map_iff in Hin.
    destruct Hin as (a & Ha & Hin).
    pose proof (next_prediction_id_above (Sqlite.predictions db)) as F.
    rewrite Forall_forall in F. specialize (F a Hin). lia.
  - eexists. split; [|split; [|split]].
    + rewrite sqlite_history_online. reflexivity.
    + apply engine_own_history.
    + apply (Permutation_in _ (order_permutation _)).
      apply filter_In. split.
      * apply in_or_app. right. now left.
      * apply Z.eqb_refl.
    + rewrite sqlite_history_online.
      unfold returned, result. cbn [fst Sqlite.predictions].
      rewrite length_map.
      rewrite <- (Permutation_length (order_permutation _)).
      rewrite <- (Permutation_length (order_permutation _)).
      rewrite (filter_owner_snoc uid uid) by reflexivity.
      rewrite Z.eqb_refl, length_app. cbn [List.length]. lia.
  - intros other Hne.
    rewrite !sqlite_history_online.
    cbn [fst Sqlite.predictions].
    rewrite (filter_owner_snoc uid other) by reflexivity.
    destruct (uid =? other) eqn:E; [apply Z.eqb_eq in E; congruence|].
    reflexivity.
Qed.

End SaveThenRead.

(** ** A feature that is missing *)

Section MissingFeature.
Context `{RT : Runtime} `{EN : Engine}.

Lemma dict_get_combine_map {V} (f : string -> V) (names : list string)
    (name : string) :
  In name names ->
  dict_get (combine names (map f names)) name = Some (f name).
Proof.
  induction names as [|n names IH]; intros Hin; [destruct Hin|].
  cbn [map combine dict_get].
  destruct (n =? name)%string eqn:E.
  - apply String.eqb_eq in E. now subst.
  - destruct Hin as [->|Hin]; [now rewrite String.eqb_refl in E|].
    now apply IH.
Qed.

(** X5. What a missing feature does. On MongoDB [save_assessment] answers
    [True] and leaves a store whose assessments are the former ones followed
    by one new assessment, of that user, probability and category, in which
    every feature column reads back as the value the features held under
    that name, and as [None] when they held none. On SQLite a feature dict that lacks one of the twelve columns
    makes [save_prediction] answer [False], log the missing key and store
    nothing. *)
Theorem missing_feature_saved_as_none_or_refused
    (mdb : Mongo.Db) (ws : World Sqlite.Db) (clk : Z) (evs : list event)
    (user_id : idarg) (uid suid : Z) (features : dict float) (p : float)
    (category name : string) :
  In name ASSESSMENT_COLUMNS ->
  Mongo.oid_of user_id = Ok uid ->
  (result
     (Mongo.save_assessment user_id features p category
        (mkWorld (Online mdb) clk evs)) = Ok true
   /\ exists db' a,
        store
          (world_after
             (Mongo.save_assessment user_id features p category
                (mkWorld (Online mdb) clk evs))) = Online db'
        /\ Mongo.assessments db' = (Mongo.assessments mdb ++ [a])%list
        /\ a_user_id a = uid
        /\ a_probability a = p
        /\ a_risk_category a = category
        /\ Mongo.feature a name = dict_get features name)
  /\ (dict_get features name = None ->
      result (Sqlite.save_prediction suid features p category ws) = Ok false
      /\ store (world_after
                  (Sqlite.save_prediction suid features p category ws))
         = store ws
      /\ (forall db, store ws = Online db ->
          exists key,
            In key ASSESSMENT_COLUMNS /\ dict_get features key = None
            /\ events
                 (world_after
                    (Sqlite.save_prediction suid features p category ws))
               = (events ws
                  ++ [Printed ("Error saving prediction: '" ++ key ++ "'")])
                 %list)).
Proof.
  intros Hin Hid. split.
  - split.
    + now rewrite (save_assessment_online _ _ _ _ _ _ _ _ Hid).
    + rewrite (save_assessment_online _ _ _ _ _ _ _ _ Hid).
      unfold world_after. cbn [snd store].
      eexists. exists (saved_row mdb uid features p category clk).
      split; [reflexivity|]. cbn [Mongo.assessments].
      split; [reflexivity|]. unfold saved_row.
      cbn [a_user_id a_probability a_risk_category].
      repeat split.
      unfold Mongo.feature. cbn [a_features].
      now rewrite (dict_get_combine_map (dict_get features) _ _ Hin).
  - intros Hnone.
    destruct (subscript_all_missing features _ _ Hin Hnone)
      as (key & Hk & Hg & Hs).
    destruct ws as [[db|reason] wclk wevs];
      unfold Sqlite.save_prediction; run_app; [rewrite Hs|];
      repeat split; try reflexivity.
    + intros d Hd. exists key. repeat split; auto.
    + intros d Hd. discriminate Hd.
Qed.

End MissingFeature.

(** ** The doctor's views of the patients *)

Section DoctorViews.
Context `{RT : Runtime} `{EN : Engine}.

Lemma mongo_all_patients_online db clk evs :
  Mongo.get_all_patients (mkWorld (Online db) clk evs)
  = (Ok (map (Mongo.patient_entry db)
           (filter (fun u => (u_role u =? "patient")%string) (Mongo.users db))),
     mkWorld (Online db) clk evs).
Proof. reflexivity. Qed.

Lemma history_length db clk evs uid :
  Mongo.count_assessments db uid
  = Z.of_nat
      (List.length
         (returned []
            (Mongo.get_patient_assessments (IdObj uid)
               (mkWorld (Online db) clk evs)))).
Proof.
  rewrite (mongo_history_online _ _ _ (IdObj uid) uid eq_refl).
  unfold returned, result, Mongo.count_assessments. cbn [fst].
  rewrite length_map.
  now rewrite <- (Permutation_length (order_permutation _)).
Qed.

(** X6. The doctor's dashboard and the patients' histories agree: on a
    reachable store [get_all_patients] lists exactly the stored users whose
    role is patient, and the count shown for each under both of its keys
    is the number of rows of that patient's own history. *)
Theorem patient_counts_match_histories
    (db : Mongo.Db) (clk : Z) (evs : list event) :
  let w := mkWorld (Online db) clk evs in
  let listed := returned [] (Mongo.get_all_patients w) in
  (forall e, In e listed ->
     exists u,
       In u (Mongo.users db) /\ u_role u = "patient"
       /\ Mongo.pe_id e = str_oid (u_id u)
       /\ Mongo.pe_username e = u_username u
       /\ Mongo.pe_predictions_count e
          = Z.of_nat
              (List.length
                 (returned []
                    (Mongo.get_patient_assessments (IdObj (u_id u)) w)))
       /\ Mongo.pe_prediction_count e = Mongo.pe_predictions_count e)
  /\ (forall u, In u (Mongo.users db) -> u_role u = "patient" ->
        In (Mongo.patient_entry db u) listed)
  /\ List.length listed
     = List.length
         (filter (fun u => (u_role u =? "patient")%string) (Mongo.users db)).
Proof.
  intros w listed. unfold listed, w. rewrite mongo_all_patients_online.
  unfold returned, result. cbn [fst]. split; [|split].
  - intros e He. apply in_map_iff in He. destruct He as (u & <- & Hu).
    apply filter_In in Hu. destruct Hu as [Hu Hr].
    apply String.eqb_eq in Hr.
    exists u. repeat split; auto.
    cbn [Mongo.patient_entry Mongo.pe_predictions_count].
    apply (history_length db clk evs).
  - intros u Hu Hr. apply in_map. apply filter_In. split; [exact Hu|].
    now apply String.eqb_eq.
  - apply length_map.
Qed.

Lemma find_patient_none uid (us : list User) :
  (forall u, In u us -> u_id u = uid -> u_role u <> "patient") ->
  Mongo.find_patient uid us = None.
Proof.
  intros H. unfold Mongo.find_patient.
  destruct (find _ us) as [u|] eqn:F; [|reflexivity].
  apply find_some in F. destruct F as [Hin Hb].
  apply andb_true_iff in Hb. destruct Hb as [Hi Hr].
  apply Z.eqb_eq in Hi. apply String.eqb_eq in Hr.
  exfalso. exact (H u Hin Hi Hr).
Qed.

(** X7. A patient's profile is given for patients only, and shows the
    patient's own history. When no stored user has both the id asked for
    and the role patient (the id is unknown, or a doctor's), or the id is
    not a valid one, [get_patient_profile] returns [None] and the doctor's
    details page answers "Patient not found". When it returns a profile,
    that profile is of a stored patient with that id and its predictions
    are, row for row, the rows of that patient's own history. *)
Theorem patient_profile_is_for_patients
    (db : Mongo.Db) (clk : Z) (evs : list event) (patient_id : string)
    (s : Session) :
  let w := mkWorld (Online db) clk evs in
  s_role s = "doctor" ->
  ((exists e, ObjectId patient_id = Raised e)
   \/ (exists uid,
         ObjectId patient_id = Ok uid
         /\ forall u, In u (Mongo.users db) -> u_id u = uid ->
                      u_role u <> "patient") ->
   result (Mongo.get_patient_profile (IdStr patient_id) w) = Ok None
   /\ result (Mongo.doctor_patient_details patient_id (Some s) w)
      = Ok (Mongo.Template "doctor_dashboard.html"
              [("username", Mongo.VStr (s_username s));
               ("error", Mongo.VStr "Patient not found")]))
  /\ (forall prof,
        result (Mongo.get_patient_profile (IdStr patient_id) w)
        = Ok (Some prof) ->
        exists u uid,
          ObjectId patient_id = Ok uid
          /\ In u (Mongo.users db) /\ u_id u = uid /\ u_role u = "patient"
          /\ Mongo.pp_username prof = u_username u
          /\ Mongo.pp_email prof = u_email u
          /\ map (fun r => (Mongo.pr_id r, Mongo.pr_probability r,
                            Mongo.pr_risk_category r, Mongo.pr_created_at r))
               (Mongo.pp_predictions prof)
             = map (fun r => (Mongo.sm_id r, Mongo.sm_probability r,
                              Mongo.sm_risk_category r, Mongo.sm_created_at r))
                 (returned []
                    (Mongo.get_patient_assessments (IdStr patient_id) w))).
Proof.
  intros w Hs. unfold w. split.
  - intros H.
    assert (P : Mongo.get_patient_profile (IdStr patient_id)
                  (mkWorld (Online db) clk evs)
                = (Ok None,
                   snd (Mongo.get_patient_profile (IdStr patient_id)
                          (mkWorld (Online db) clk evs)))).
    { unfold Mongo.get_patient_profile, Mongo.to_oid. run_app.
      cbn [Mongo.oid_of].
      destruct H as [[e H]|(uid & H & Hn)]; rewrite H; [reflexivity|].
      now rewrite (find_patient_none _ _ Hn). }
    split.
    + now rewrite P.
    + unfold Mongo.doctor_patient_details, Mongo.doctor_required,
        Mongo.role_required.
      rewrite Hs. cbn [String.eqb Ascii.eqb Bool.eqb negb andb].
      unfold bind. rewrite P. reflexivity.
  - intros prof.
    unfold Mongo.get_patient_profile, Mongo.to_oid. run_app.
    cbn [Mongo.oid_of].
    destruct (ObjectId patient_id) as [uid|e] eqn:E; [|discriminate].
    destruct (Mongo.find_patient uid (Mongo.users db)) as [u|] eqn:F;
      [|discriminate].
    intros H. injection H as <-.
    apply find_some in F. destruct F as [Hin Hb].
    apply andb_true_iff in Hb. destruct Hb as [Hi Hr].
    apply Z.eqb_eq in Hi. apply String.eqb_eq in Hr.
    exists u, uid. repeat split; auto.
    cbn [Mongo.pp_predictions].
    rewrite (mongo_history_online _ _ _ (IdStr patient_id) uid E).
    unfold returned, result. cbn [fst]. rewrite !map_map. reflexivity.
Qed.

End DoctorViews.

(** ** Profile updates on MongoDB *)

Section ProfileUpdate.
Context `{RT : Runtime}.

(** What one call of [update_user_profile] does: it fails and leaves the
    store alone, it finds nothing to change, or it rewrites the first user
    of the id with a document the checks and the unique indexes let
    through. *)
Lemma mongo_update_cases user_id nu ne np (w : World Mongo.Db) :
  let res := Mongo.update_user_profile user_id nu ne np w in
  (exists m, result res = Ok (false, m) /\ store (world_after res) = store w)
  \/ (result res = Ok (true, "No changes") /\ world_after res = w)
  \/ (result res = Ok (true, "Profile updated successfully")
      /\ exists db uid u,
          store w = Online db
          /\ Mongo.oid_of user_id = Ok uid
          /\ Mongo.find_by_id uid (Mongo.users db) = Some u
          /\ (truthy nu = true ->
              Mongo.find_other_by_username (text nu) uid (Mongo.users db)
              = None
              /\ shorter_than (text nu) 3 = false)
          /\ (truthy np = true -> shorter_than (text np) 6 = false)
          /\ existsb
               (fun x =>
                  (u_username x
                   =? u_username
                        (Mongo.apply_update (update_doc_of nu ne np) u))%string
                  || (u_email x
                      =? u_email
                           (Mongo.apply_update (update_doc_of nu ne np) u))
                     %string)
               (Mongo.remove_first uid (Mongo.users db)) = false
          /\ world_after res
             = mkWorld
                 (Online
                    (Mongo.mkDb
                       (Mongo.replace_first uid (update_doc_of nu ne np)
                          (Mongo.users db))
                       (Mongo.assessments db) (Mongo.patient_profiles db)
                       (Mongo.doctor_profiles db) (Mongo.next_oid db)))
                 (clock w) (events w)).
Proof.
  unfold Mongo.update_user_profile, Mongo.to_oid.
  destruct w as [[db|reason] clk evs]; cbv zeta;
    [|left; eexists; split; reflexivity].
  run_app.
  destruct (Mongo.oid_of user_id) as [uid|e] eqn:Eid;
    [|left; eexists; split; reflexivity].
  destruct nu as [n|], ne as [em|], np as [pw|];
    unfold update_doc_of; cbn [truthy text andb].
  all: repeat first
    [ progress cbn [andb negb]
    | match goal with
      | |- context [negb (?s =? "")%string] =>
          destruct (s =? "")%string eqn:?
      | |- context [Mongo.find_other_by_username ?a ?b ?c] =>
          destruct (Mongo.find_other_by_username a b c) eqn:?
      | |- context [match Mongo.find_other_by_email ?a ?b ?c with _ => _ end] =>
          destruct (Mongo.find_other_by_email a b c) eqn:?
      | |- context [shorter_than ?s ?k] =>
          destruct (shorter_than s k) eqn:?
      end ].
  all: try (left; eexists; split; reflexivity).
  all: try (right; left; split; reflexivity).
  all: unfold Mongo.users_update_one; run_app;
       (destruct (Mongo.find_by_id uid (Mongo.users db)) as [u|] eqn:Fi;
        [|left; eexists; split; reflexivity]);
       match goal with
       | |- context [existsb ?f ?l] => destruct (existsb f l) eqn:Ex
       end;
       [left; eexists; split; reflexivity|].
  all: right; right; split; [reflexivity|];
       exists db, uid, u;
       repeat split; try assumption; try reflexivity;
       try discriminate.
Qed.

Lemma replace_first_frame uid d (us : list User) :
  map u_id (Mongo.replace_first uid d us) = map u_id us
  /\ map u_role (Mongo.replace_first uid d us) = map u_role us
  /\ map u_created_at (Mongo.replace_first uid d us) = map u_created_at us.
Proof.
  induction us as [|h t IH]; cbn [Mongo.replace_first map]; [auto|].
  destruct (u_id h =? uid); cbn [map]; [auto|].
  destruct IH as (-> & -> & ->). auto.
Qed.

(** Every user after the update was there before, or is the updated one. *)
Lemma replace_first_in uid d (us : list User) u x :
  Mongo.find_by_id uid us = Some u ->
  In x (Mongo.replace_first uid d us) ->
  x = Mongo.apply_update d u \/ In x (Mongo.remove_first uid us).
Proof.
  unfold Mongo.find_by_id.
  induction us as [|h t IH]; cbn [find Mongo.replace_first Mongo.remove_first];
    [discriminate|].
  destruct (u_id h =? uid).
  - intros [= ->] [<-|Hx]; auto.
  - intros F [<-|Hx]; [right; now left|].
    destruct (IH F Hx); [now left|right; now right].
Qed.

Lemma replace_first_NoDup {K} (key : User -> K) uid d (us : list User) u :
  Mongo.find_by_id uid us = Some u ->
  (forall x, In x (Mongo.remove_first uid us) ->
             key x <> key (Mongo.apply_update d u)) ->
  NoDup (map key us) -> NoDup (map key (Mongo.replace_first uid d us)).
Proof.
  unfold Mongo.find_by_id.
  induction us as [|h t IH]; cbn [find Mongo.replace_first Mongo.remove_first];
    [discriminate|].
  destruct (u_id h =? uid) eqn:E.
  - intros [= ->] Hfree Hnd. cbn [map] in *. inversion Hnd; subst.
    constructor; [|assumption].
    intros Hin. apply in_map_iff in Hin. destruct Hin as (x & Hk & Hx).
    exact (Hfree x Hx Hk).
  - intros F Hfree Hnd. cbn [map] in *. inversion Hnd as [|k l Hh Ht]; subst.
    constructor.
    + intros Hin. apply in_map_iff in Hin. destruct Hin as (x & Hk & Hx).
      destruct (replace_first_in uid d t u x F Hx) as [->|Hr].
      * apply (Hfree h); [now left|]. now symmetry.
      * apply Hh. rewrite <- Hk. apply in_map.
        clear - Hr. induction t as [|a t IH]; [destruct Hr|].
        cbn [Mongo.remove_first] in Hr.
        destruct (u_id a =? uid); [now right|].
        destruct Hr as [<-|Hr]; [now left|right; auto].
    + apply IH; auto. intros x Hx. apply Hfree. now right.
Qed.

Lemma existsb_collision_false (us : list User) (u' : User) :
  existsb (fun x => (u_username x =? u_username u')%string
                    || (u_email x =? u_email u')%string) us = false ->
  forall x, In x us ->
    u_username x <> u_username u' /\ u_email x <> u_email u'.
Proof.
  intros H x Hx.
  assert (B : (u_username x =? u_username u')%string
              || (u_email x =? u_email u')%string = false).
  { destruct ((u_username x =? u_username u')%string
              || (u_email x =? u_email u')%string) eqn:E; [|reflexivity].
    rewrite <- H. symmetry. apply existsb_exists. now exists x. }
  apply orb_false_iff in B. destruct B as [B1 B2].
  split; now apply String.eqb_neq.
Qed.

(** X8. A profile update on MongoDB is all or nothing and keeps the store
    sound. Whenever [update_user_profile] answers [False] the store is
    what it was. Whatever it answers, it never changes the id, the role or
    the registration time of any user, never adds or removes a user, leaves
    the assessments and profile documents alone, and usernames and e-mail
    addresses that were pairwise different stay so. *)
Theorem profile_update_is_atomic_and_sound
    (w : World Mongo.Db) (user_id : idarg)
    (new_username new_email new_password : option string) :
  let res :=
    Mongo.update_user_profile user_id new_username new_email new_password w in
  let before := Mongo.stored_users w in
  let after := Mongo.stored_users (world_after res) in
  (forall m, result res = Ok (false, m) -> store (world_after res) = store w)
  /\ (exists success m, result res = Ok (success, m))
  /\ map u_id after = map u_id before
  /\ map u_role after = map u_role before
  /\ map u_created_at after = map u_created_at before
  /\ (NoDup (usernames before) -> NoDup (usernames after))
  /\ (NoDup (emails before) -> NoDup (emails after))
  /\ (forall db db',
        store w = Online db -> store (world_after res) = Online db' ->
        Mongo.assessments db' = Mongo.assessments db
        /\ Mongo.patient_profiles db' = Mongo.patient_profiles db
        /\ Mongo.doctor_profiles db' = Mongo.doctor_profiles db
        /\ Mongo.next_oid db' = Mongo.next_oid db).
Proof.
  cbv zeta.
  destruct (mongo_update_cases user_id new_username new_email new_password w)
    as [(m & Hr & Hs)|[(Hr & Hw)|(Hr & db & uid & u & Hdb & _ & Fi & _ & _
                                   & Ex & Hw)]].
  - unfold Mongo.stored_users. rewrite Hs.
    repeat split; auto; try (do 2 eexists; exact Hr); congruence.
  - rewrite Hw.
    repeat split; auto; try (do 2 eexists; exact Hr); congruence.
  - unfold Mongo.stored_users. rewrite Hw, Hdb. cbn [store Mongo.users].
    pose proof (existsb_collision_false _ _ Ex) as Free.
    destruct (replace_first_frame uid
                (update_doc_of new_username new_email new_password)
                (Mongo.users db)) as (F1 & F2 & F3).
    repeat split; auto; try (do 2 eexists; exact Hr); try congruence.
    all: try (apply (replace_first_NoDup u_username _ _ _ u Fi);
              intros x Hx; apply (Free x Hx)).
    all: try (apply (replace_first_NoDup u_email _ _ _ u Fi);
              intros x Hx; apply (Free x Hx)).
    all: match goal with
         | A : Online _ = Online ?d, B : Online _ = Online ?d' |- _ =>
             injection A as <-; injection B as <-; reflexivity
         end.
Qed.

Lemma find_by_id_some uid (us : list User) u :
  Mongo.find_by_id uid us = Some u ->
  u_id u = uid
  /\ forall x, In x us -> x = u \/ In x (Mongo.remove_first uid us).
Proof.
  unfold Mongo.find_by_id.
  induction us as [|h t IH]; cbn [find Mongo.remove_first]; [discriminate|].
  destruct (u_id h =? uid) eqn:E.
  - intros [= ->]. split; [now apply Z.eqb_eq|].
    intros x [<-|Hx]; auto.
  - intros F. destruct (IH F) as [Hi Hr]. split; [exact Hi|].
    intros x [<-|Hx]; [right; now left|].
    destruct (Hr x Hx); [now left|right; now right].
Qed.

Lemma others_have_other_names uid (us : list User) u :
  NoDup (usernames us) -> Mongo.find_by_id uid us = Some u ->
  forall x, In x (Mongo.remove_first uid us) -> u_username x <> u_username u.
Proof.
  unfold usernames, Mongo.find_by_id.
  induction us as [|h t IH]; cbn [find Mongo.remove_first map];
    [discriminate|].
  intros Hnd. inversion Hnd as [|k l Hh Ht]; subst.
  destruct (u_id h =? uid) eqn:E.
  - intros [= ->] x Hx Heq. apply Hh. rewrite <- Heq. now apply in_map.
  - intros F x [<-|Hx].
    + intros Heq. apply Hh. rewrite Heq. apply in_map.
      apply find_some in F. tauto.
    + now apply IH.
Qed.

Lemma find_username_replaced uid d (us : list User) u name :
  Mongo.find_by_id uid us = Some u ->
  (forall x, In x us -> u_username x = name -> u_id x = uid) ->
  u_username (Mongo.apply_update d u) = name ->
  Mongo.find_by_username name (Mongo.replace_first uid d us)
  = Some (Mongo.apply_update d u).
Proof.
  unfold Mongo.find_by_id, Mongo.find_by_username.
  induction us as [|h t IH]; cbn [find Mongo.replace_first]; [discriminate|].
  destruct (u_id h =? uid) eqn:E.
  - intros [= ->] _ Hn. cbn [find]. now rewrite Hn, String.eqb_refl.
  - intros F Hall Hn. cbn [find].
    destruct (u_username h =? name)%string eqn:En.
    + apply String.eqb_eq in En. apply Z.eqb_neq in E.
      exfalso. apply E, Hall; [now left|exact En].
    + apply IH; auto. intros x Hx. apply Hall. now right.
Qed.

(** X9. Changing the credentials and logging in round-trip on MongoDB.
    After a profile update of a stored user went through, a login under
    the user's name (the new one when the name was changed) succeeds
    exactly when the hash now stored (that of the new password when the
    password was changed) accepts the password, and it returns the user's
    id and unchanged role; when the name was changed, no login under the
    old name succeeds any more. *)
Theorem changed_credentials_then_login
    (db : Mongo.Db) (clk : Z) (evs : list event) (uid : Z) (u : User)
    (new_username new_email new_password : option string)
    (password : string) :
  let w := mkWorld (Online db) clk evs in
  let res :=
    Mongo.update_user_profile (IdObj uid) new_username new_email
      new_password w in
  let name := if truthy new_username then text new_username
              else u_username u in
  let hash := if truthy new_password
              then generate_password_hash (text new_password)
              else u_password_hash u in
  NoDup (usernames (Mongo.users db)) ->
  Mongo.find_by_id uid (Mongo.users db) = Some u ->
  result res = Ok (true, "Profile updated successfully") ->
  result (Mongo.login_user name password (world_after res))
  = Ok (if hash_accepts hash password
        then (true, Some (Mongo.mkUserInfo uid (u_role u) name))
        else (false, None))
  /\ (name <> u_username u ->
      result (Mongo.login_user (u_username u) password (world_after res))
      = Ok (false, None)).
Proof.
  intros w res name hash Hnd Fi Hr. unfold res, w in *.
  destruct (mongo_update_cases (IdObj uid) new_username new_email
              new_password (mkWorld (Online db) clk evs))
    as [(m & Hr' & _)|[(Hr' & _)|(_ & db0 & uid0 & u0 & Hdb & Hid & Fi0 & Hu
                                  & _ & Ex & Hw)]];
    try (rewrite Hr in Hr'; discriminate).
  cbn [store] in Hdb. injection Hdb as <-.
  cbn [Mongo.oid_of] in Hid. injection Hid as <-.
  rewrite Fi in Fi0. injection Fi0 as <-.
  rewrite Hw. cbn [clock events].
  destruct (find_by_id_some _ _ _ Fi) as [Hidu Hsplit].
  set (d := update_doc_of new_username new_email new_password) in *.
  assert (Hname : u_username (Mongo.apply_update d u) = name).
  { unfold name, d, update_doc_of. cbn [Mongo.apply_update u_username
      Mongo.set_username].
    destruct (truthy new_username) eqn:T; [|reflexivity].
    destruct new_username; [reflexivity|discriminate T]. }
  assert (Hhash : u_password_hash (Mongo.apply_update d u) = hash).
  { unfold hash, d, update_doc_of. cbn [Mongo.apply_update u_password_hash
      Mongo.set_password_hash].
    now destruct (truthy new_password). }
  assert (Hholders : forall x, In x (Mongo.users db) ->
                               u_username x = name -> u_id x = uid).
  { intros x Hx Hn. unfold name in Hn.
    destruct (truthy new_username) eqn:T.
    - destruct (Hu eq_refl) as [Fo _].
      unfold Mongo.find_other_by_username in Fo.
      pose proof (find_none _ _ Fo x Hx) as B. cbv beta in B.
      rewrite Hn, String.eqb_refl in B. cbn [andb] in B.
      apply negb_false_iff in B. now apply Z.eqb_eq.
    - destruct (Hsplit x Hx) as [->|Hrem]; [exact Hidu|].
      exfalso. exact (others_have_other_names _ _ _ Hnd Fi x Hrem Hn). }
  split.
  - unfold Mongo.login_user. run_app. cbn [Mongo.users].
    rewrite (find_username_replaced uid d _ u name Fi Hholders Hname).
    run_app. rewrite Hhash.
    cbn [Mongo.apply_update u_id u_role]. rewrite Hname, Hidu.
    now destruct (hash_accepts hash password).
  - intros Hne. unfold Mongo.login_user. run_app. cbn [Mongo.users].
    unfold Mongo.find_by_username.
    replace (find _ (Mongo.replace_first uid d (Mongo.users db)))
      with (@None User); [reflexivity|].
    symmetry. apply find_username_none. intros Hin.
    unfold usernames in Hin. apply in_map_iff in Hin.
    destruct Hin as (x & Hx & Hin).
    destruct (replace_first_in uid d _ u x Fi Hin) as [->|Hrem].
    + apply Hne. now rewrite <- Hname.
    + exact (others_have_other_names _ _ _ Hnd Fi x Hrem Hx).
Qed.

End ProfileUpdate.

(** ** The routes of [app_mongodb.py] *)

Section Routes.
Context `{RT : Runtime} `{EN : Engine}.

Lemma mongo_paginated_total page per_page risk username sd ed
    (w : World Mongo.Db) :
  exists pg,
    result (Mongo.get_assessments_paginated page per_page risk username sd ed
              w) = Ok pg
    /\ 0 <= Mongo.pg_total pg.
Proof.
  destruct w as [[db|reason] clk evs].
  - unfold Mongo.get_assessments_paginated. run_app.
    destruct (Mongo.page_params page per_page) as [p pp].
    destruct (sliced _ _ _); cbn [fst]; eexists;
      (split; [reflexivity|]); cbn [Mongo.pg_total]; lia.
  - rewrite mongo_paginated_offline. eexists. split; [reflexivity|].
    cbn [Mongo.pg_total]. lia.
Qed.

(** X12. The page count of the route [doctor_assessments]. For a doctor
    whose [page] and [per_page] arguments [int()] accepts, the route answers
    with the rows and the total of [get_assessments_paginated] and with the
    arguments as parsed. With a page size of at least 1 the page count is
    the least number of pages, at least one, that holds the total. With a
    page size of 0, which the listing itself reads as 1, the route raises a
    division by zero instead of answering. *)
Theorem doctor_listing_page_count
    (args : Mongo.ListingArgs) (s : Session) (w : World Mongo.Db)
    (p pp : Z) :
  let page := Mongo.arg_or (Mongo.arg_page args) 1 in
  let per_page := Mongo.arg_or (Mongo.arg_per_page args) 10 in
  let listing :=
    Mongo.get_assessments_paginated page per_page (Mongo.arg_risk args)
      (Mongo.arg_username args) (Mongo.arg_start_date args)
      (Mongo.arg_end_date args) w in
  let pg := returned (Mongo.mkPage [] 0) listing in
  let res := Mongo.doctor_assessments args (Some s) w in
  s_role s = "doctor" ->
  py_int page = Ok p ->
  py_int per_page = Ok pp ->
  world_after res = world_after listing
  /\ (pp = 0 ->
      result res = Raised (Exception "integer division or modulo by zero"))
  /\ (1 <= pp ->
      exists n,
        result res
        = Ok (Mongo.Json 200
                [("assessments", Mongo.VRows (Mongo.pg_assessments pg));
                 ("total", Mongo.VInt (Mongo.pg_total pg));
                 ("page", Mongo.VInt p); ("per_page", Mongo.VInt pp);
                 ("total_pages", Mongo.VInt n)])
        /\ 1 <= n
        /\ Mongo.pg_total pg <= n * pp
        /\ (n = 1 \/ (n - 1) * pp < Mongo.pg_total pg)).
Proof.
  cbv zeta. intros Hs Hp Hpp.
  unfold Mongo.doctor_assessments, Mongo.doctor_required, Mongo.role_required.
  rewrite Hs. cbn [String.eqb Ascii.eqb Bool.eqb negb]. rewrite Hp, Hpp.
  unfold returned.
  destruct (mongo_paginated_total (Mongo.arg_or (Mongo.arg_page args) 1)
              (Mongo.arg_or (Mongo.arg_per_page args) 10)
              (Mongo.arg_risk args) (Mongo.arg_username args)
              (Mongo.arg_start_date args) (Mongo.arg_end_date args) w)
    as (pg & Hr & Ht).
  revert Hr. run_app.
  destruct (Mongo.get_assessments_paginated _ _ _ _ _ _ w) as [o w'].
  cbn [fst snd]. intros ->. unfold Mongo.total_pages.
  destruct (pp =? 0) eqn:E.
  - apply Z.eqb_eq in E. cbn [fst snd].
    split; [reflexivity|]. split; [reflexivity|]. lia.
  - apply Z.eqb_neq in E. cbn [fst snd].
    split; [reflexivity|]. split; [intros; lia|].
    intros H1. eexists. split; [reflexivity|].
    pose proof (Z.div_mod (Mongo.pg_total pg + pp - 1) pp ltac:(lia)) as D.
    pose proof (Z.mod_pos_bound (Mongo.pg_total pg + pp - 1) pp ltac:(lia))
      as B.
    split; [lia|]. split; [nia|].
    destruct (Z.max_spec 1 ((Mongo.pg_total pg + pp - 1) / pp))
      as [[L ->]|[L ->]]; [right; nia|now left].
Qed.

(** X13. The role gates. A request without a session, or with a session of
    another role, is sent to the login page by every doctor route and by
    every patient route, and the two profile routes do so without a
    session; none of them then reads the store, writes to it or prints. The
    dashboard [index] picks for a patient or a doctor is one that answers
    that session with its template. *)
Theorem routes_refuse_the_wrong_role
    (w : World Mongo.Db) (session : option Session) (patient_id : string)
    (args : Mongo.ListingArgs) (m : method) (form data : dict string)
    (json_arg : option string) :
  (lacks_role "doctor" session ->
   Mongo.doctor_dashboard session w = (Ok (Mongo.Goto "login"), w)
   /\ Mongo.doctor_patient_details patient_id session w
      = (Ok (Mongo.Goto "login"), w)
   /\ Mongo.doctor_assessments args session w = (Ok (Mongo.Goto "login"), w))
  /\ (lacks_role "patient" session ->
      Mongo.patient_dashboard session w = (Ok (Mongo.Goto "login"), w)
      /\ Mongo.patient_predict m form session w = (Ok (Redirect "login"), w))
  /\ Mongo.profile json_arg None w = (Ok (Mongo.Goto "login"), w)
  /\ Mongo.profile_update data None w = (Ok (Mongo.Goto "login", None), w)
  /\ (forall s, session = Some s ->
      (s_role s = "doctor" ->
       Mongo.index session = Mongo.Goto "doctor_dashboard"
       /\ exists kwargs,
            result (Mongo.doctor_dashboard session w)
            = Ok (Mongo.Template "doctor_dashboard.html" kwargs))
      /\ (s_role s = "patient" ->
          Mongo.index session = Mongo.Goto "patient_dashboard"
          /\ exists kwargs,
               result (Mongo.patient_dashboard session w)
               = Ok (Mongo.Template "patient_dashboard.html" kwargs))).
Proof.
  assert (G : forall r, lacks_role r session ->
              forall A (d : A) f,
                Mongo.role_required (Some r) d session f w = (Ok d, w)).
  { intros r L A d f. unfold Mongo.role_required.
    destruct session as [s|]; [|reflexivity].
    cbn [lacks_role] in L. apply String.eqb_neq in L. now rewrite L. }
  split; [|split; [|split; [|split]]].
  - intros L. unfold Mongo.doctor_dashboard, Mongo.doctor_patient_details,
      Mongo.doctor_assessments, Mongo.doctor_required.
    now rewrite !(G _ L).
  - intros L. split.
    + unfold Mongo.patient_dashboard. now rewrite (G _ L).
    + unfold Mongo.patient_predict, Mongo.patient_required.
      destruct session as [s|]; [|reflexivity].
      cbn [lacks_role] in L. apply String.eqb_neq in L. now rewrite L.
  - reflexivity.
  - reflexivity.
  - intros s ->. split; intros Hr.
    + unfold Mongo.index, Mongo.doctor_dashboard, Mongo.doctor_required,
        Mongo.role_required.
      rewrite Hr. cbn [String.eqb Ascii.eqb Bool.eqb negb].
      split; [reflexivity|].
      destruct w as [[db|reason] clk evs].
      * run_app. rewrite mongo_all_patients_online. run_app.
        eexists. reflexivity.
      * eexists. reflexivity.
    + unfold Mongo.index, Mongo.patient_dashboard, Mongo.role_required.
      rewrite Hr. cbn [String.eqb Ascii.eqb Bool.eqb negb].
      split; [reflexivity|].
      destruct w as [[db|reason] clk evs].
      * unfold Mongo.get_patient_assessments, Mongo.to_oid. run_app.
        destruct (Mongo.oid_of (IdStr (s_user_id s))); eexists; reflexivity.
      * eexists. reflexivity.
Qed.

End Routes.

(** ** Reading without writing *)

Section ReadOnly.
Context {D : Type}.

Lemma read_only_ret {A} (a : A) : read_only (D := D) (ret a).
Proof.
  intros w. split; [reflexivity|]. split; [reflexivity|].
  exists []. now rewrite app_nil_r.
Qed.

Lemma read_only_raise {A} (e : exn) : read_only (D := D) (A := A) (raise e).
Proof.
  intros w. split; [reflexivity|]. split; [reflexivity|].
  exists []. now rewrite app_nil_r.
Qed.

Lemma read_only_lift {A} (o : outcome A) : read_only (D := D) (lift o).
Proof.
  intros w. split; [reflexivity|]. split; [reflexivity|].
  exists []. now rewrite app_nil_r.
Qed.

Lemma read_only_get_db : read_only (D := D) get_db.
Proof.
  intros w. unfold get_db, world_after.
  destruct (store w) eqn:E; cbn [snd];
    (split; [exact E|]; split; [reflexivity|]);
    exists []; now rewrite app_nil_r.
Qed.

Lemma read_only_print (line : string) : read_only (D := D) (print line).
Proof.
  intros w. split; [reflexivity|]. split; [reflexivity|].
  now exists [Printed line].
Qed.

Lemma read_only_bind {A B} (m : App D A) (k : A -> App D B) :
  read_only m -> (forall a, read_only (k a)) -> read_only (bind m k).
Proof.
  intros Hm Hk w. specialize (Hm w). unfold bind, world_after in *.
  destruct (m w) as [[a|e] w1]; cbn [snd] in *; [|exact Hm].
  destruct Hm as (S1 & C1 & l1 & E1).
  destruct (Hk a w1) as (S2 & C2 & l2 & E2). unfold world_after in *.
  rewrite S2, C2, E2, S1, C1, E1. split; [reflexivity|].
  split; [reflexivity|].
  exists (l1 ++ l2)%list. now rewrite app_assoc.
Qed.

Lemma read_only_try {A} (m : App D A) (h : exn -> App D A) :
  read_only m -> (forall e, read_only (h e)) -> read_only (try_except m h).
Proof.
  intros Hm Hh w. specialize (Hm w). unfold try_except, world_after in *.
  destruct (m w) as [[a|e] w1]; cbn [snd] in *; [exact Hm|].
  destruct Hm as (S1 & C1 & l1 & E1).
  destruct (Hh e w1) as (S2 & C2 & l2 & E2). unfold world_after in *.
  rewrite S2, C2, E2, S1, C1, E1. split; [reflexivity|].
  split; [reflexivity|].
  exists (l1 ++ l2)%list. now rewrite app_assoc.
Qed.

Lemma answers_ret {A} (a : A) : answers (D := D) (ret a).
Proof. intros w. now exists a. Qed.

Lemma answers_bind {A B} (m : App D A) (k : A -> App D B) :
  answers m -> (forall a, answers (k a)) -> answers (bind m k).
Proof.
  intros Hm Hk w. destruct (Hm w) as [a Ha]. unfold bind, result in *.
  destruct (m w) as [o w1]. cbn [fst] in Ha. subst o. apply Hk.
Qed.

Lemma answers_print (line : string) : answers (D := D) (print line).
Proof. intros w. now exists tt. Qed.

Lemma answers_try {A} (m : App D A) (h : exn -> App D A) :
  (forall e, answers (h e)) -> answers (try_except m h).
Proof.
  intros Hh w. unfold try_except, result.
  destruct (m w) as [[a|e] w1]; [now exists a|apply Hh].
Qed.

End ReadOnly.

Ltac effects :=
  repeat first
    [ apply read_only_try | apply read_only_bind | apply read_only_ret
    | apply read_only_raise | apply read_only_lift | apply read_only_get_db
    | apply read_only_print
    | apply answers_try | apply answers_bind | apply answers_ret
    | apply answers_print
    | progress intros
    | progress cbv zeta
    | match goal with
      | |- read_only (match ?x with _ => _ end) => destruct x
      | |- answers (match ?x with _ => _ end) => destruct x
      | |- read_only (let '(_, _) := ?x in _) => destruct x
      end ].

Section Readers.
Context `{RT : Runtime} `{EN : Engine}.

(** X14. The reading functions and the pages built on them never write and
    never fail. [get_user_info], [get_patient_assessments],
    [get_all_patients], [get_all_assessments], [get_assessments_paginated],
    [get_assessments_filtered] and [get_patient_profile], and the routes
    [patient_dashboard], [doctor_dashboard], [doctor_patient_details] and
    [profile], return a value in every world, reachable store or not, valid
    id or not, and leave the store and the clock as they found them; all
    they may do besides is print. The route [doctor_assessments] leaves the
    store alone as well. *)
Theorem reading_neither_writes_nor_fails
    (user_id : idarg) (page per_page : pyval) (risk username : option string)
    (start_date end_date : option Z) (session : option Session)
    (patient_id : string) (json_arg : option string)
    (args : Mongo.ListingArgs) :
  (read_only (Mongo.get_user_info user_id)
   /\ answers (Mongo.get_user_info user_id))
  /\ (read_only (Mongo.get_patient_assessments user_id)
      /\ answers (Mongo.get_patient_assessments user_id))
  /\ (read_only Mongo.get_all_patients /\ answers Mongo.get_all_patients)
  /\ (read_only Mongo.get_all_assessments
      /\ answers Mongo.get_all_assessments)
  /\ (read_only
        (Mongo.get_assessments_paginated page per_page risk username
           start_date end_date)
      /\ answers
           (Mongo.get_assessments_paginated page per_page risk username
              start_date end_date))
  /\ (read_only
        (Mongo.get_assessments_filtered risk username start_date end_date)
      /\ answers
           (Mongo.get_assessments_filtered risk username start_date
              end_date))
  /\ (read_only (Mongo.get_patient_profile user_id)
      /\ answers (Mongo.get_patient_profile user_id))
  /\ (read_only (Mongo.patient_dashboard session)
      /\ answers (Mongo.patient_dashboard session))
  /\ (read_only (Mongo.doctor_dashboard session)
      /\ answers (Mongo.doctor_dashboard session))
  /\ (read_only (Mongo.doctor_patient_details patient_id session)
      /\ answers (Mongo.doctor_patient_details patient_id session))
  /\ (read_only (Mongo.profile json_arg session)
      /\ answers (Mongo.profile json_arg session))
  /\ read_only (Mongo.doctor_assessments args session).
Proof.
  assert (R1 : forall i, read_only (Mongo.get_patient_assessments i)).
  { intros i. unfold Mongo.get_patient_assessments, Mongo.to_oid. effects. }
  assert (A1 : forall i, answers (Mongo.get_patient_assessments i)).
  { intros i. unfold Mongo.get_patient_assessments. effects. }
  assert (R2 : read_only Mongo.get_all_patients).
  { unfold Mongo.get_all_patients. effects. }
  assert (A2 : answers Mongo.get_all_patients).
  { unfold Mongo.get_all_patients. effects. }
  assert (R3 : forall i, read_only (Mongo.get_patient_profile i)).
  { intros i. unfold Mongo.get_patient_profile, Mongo.to_oid. effects. }
  assert (A3 : forall i, answers (Mongo.get_patient_profile i)).
  { intros i. unfold Mongo.get_patient_profile. effects. }
  assert (R4 : forall i, read_only (Mongo.get_user_info i)).
  { intros i. unfold Mongo.get_user_info, Mongo.to_oid. effects. }
  assert (A4 : forall i, answers (Mongo.get_user_info i)).
  { intros i. unfold Mongo.get_user_info. effects. }
  assert (R5 : forall a b c d e f,
             read_only (Mongo.get_assessments_paginated a b c d e f)).
  { intros. unfold Mongo.get_assessments_paginated. effects. }
  repeat match goal with |- _ /\ _ => split end.
  all: try apply R1; try apply A1; try apply R2; try apply A2;
    try apply R3; try apply A3; try apply R4; try apply A4; try apply R5.
  all: unfold Mongo.get_all_assessments, Mongo.get_assessments_paginated,
         Mongo.get_assessments_filtered, Mongo.patient_dashboard,
         Mongo.doctor_dashboard, Mongo.doctor_patient_details, Mongo.profile,
         Mongo.doctor_assessments, Mongo.doctor_required,
         Mongo.login_required, Mongo.role_required.
  all: effects.
  all: try apply R1; try apply A1; try apply R2; try apply A2;
    try apply R3; try apply A3; try apply R4; try apply A4; try apply R5.
  all: effects.
Qed.

End Readers.

(** ** Profile updates on SQLite *)

Section SqliteProfile.
Context `{RT : Runtime}.

Lemma update_row_frame uid nu ne nh (us : list User) :
  map u_id (map (Sqlite.update_row uid nu ne nh) us) = map u_id us
  /\ map u_role (map (Sqlite.update_row uid nu ne nh) us) = map u_role us.
Proof.
  rewrite !map_map. split; apply map_ext; intros x;
    unfold Sqlite.update_row; now destruct (u_id x =? uid).
Qed.

Lemma update_row_absent uid nu ne nh (us : list User) :
  Sqlite.select_by_id uid us = None ->
  map (Sqlite.update_row uid nu ne nh) us = us.
Proof.
  unfold Sqlite.select_by_id. intros F.
  rewrite <- (map_id us) at 2. apply map_ext_in. intros x Hx.
  unfold Sqlite.update_row.
  destruct (u_id x =? uid) eqn:E; [|reflexivity].
  exfalso. now rewrite (find_none _ _ F x Hx) in E.
Qed.

Lemma update_row_NoDup uid nu ne nh (us : list User) :
  NoDup (map u_id us) -> NoDup (usernames us) ->
  (forall n x, nu = Some n -> In x us -> u_id x <> uid -> u_username x <> n) ->
  NoDup (usernames (map (Sqlite.update_row uid nu ne nh) us)).
Proof.
  unfold usernames.
  induction us as [|h t IH]; cbn [map]; [constructor|].
  intros Ni Nn Free.
  inversion Ni as [|i li Hi Ni']; subst.
  inversion Nn as [|k lk Hk Nn']; subst.
  assert (Ft : forall n x, nu = Some n -> In x t -> u_id x <> uid ->
                           u_username x <> n).
  { intros n x E Hx. apply (Free n x E). now right. }
  constructor; [|exact (IH Ni' Nn' Ft)].
  rewrite in_map_iff. intros (y & Hy & Hin).
  apply in_map_iff in Hin. destruct Hin as (x & <- & Hx).
  unfold Sqlite.update_row in Hy.
  destruct (u_id h =? uid) eqn:Eh, (u_id x =? uid) eqn:Ex.
  - apply Z.eqb_eq in Eh, Ex. apply Hi. rewrite Eh, <- Ex. now apply in_map.
  - apply Z.eqb_neq in Ex. cbn [u_username] in Hy.
    destruct nu as [n|].
    + exact (Ft n x eq_refl Hx Ex Hy).
    + apply Hk. rewrite <- Hy. now apply in_map.
  - apply Z.eqb_neq in Eh. cbn [u_username] in Hy.
    destruct nu as [n|].
    + apply (Free n h eq_refl (or_introl eq_refl) Eh). now symmetry.
    + apply Hk. rewrite <- Hy. now apply in_map.
  - apply Hk. rewrite <- Hy. now apply in_map.
Qed.

(** What one call of the SQLite [update_user_profile] does on a reachable
    store. *)
Lemma sqlite_update_cases uid nu ne np (db : Sqlite.Db) clk evs :
  let w := mkWorld (Online db) clk evs in
  let res := Sqlite.update_user_profile uid nu ne np w in
  let taken :=
    truthy nu
    && existsb (fun u => (u_username u =? text nu)%string
                         && negb (u_id u =? uid)) (Sqlite.users db) in
  let sn := if truthy nu then nu else None in
  let sh :=
    if truthy np then Some (generate_password_hash (text np)) else None in
  (taken = true /\ res = (Ok (false, "Username already taken"), w))
  \/ (taken = false /\ sn = None /\ ne = None /\ sh = None
      /\ res = (Ok (true, "No changes"), w))
  \/ (taken = false
      /\ res
         = (Ok (true, "Profile updated"),
            mkWorld
              (Online
                 (Sqlite.mkDb
                    (map (Sqlite.update_row uid sn ne sh) (Sqlite.users db))
                    (Sqlite.predictions db) (Sqlite.next_user_id db)))
              clk evs)).
Proof.
  cbv zeta. unfold Sqlite.update_user_profile. run_app.
  destruct (truthy nu
            && existsb (fun u => (u_username u =? text nu)%string
                                 && negb (u_id u =? uid)) (Sqlite.users db))
    eqn:Tk; [left; now split|].
  right.
  assert (U : forall sn sh,
            (sn = None \/ (sn = nu /\ truthy nu = true)) ->
            Sqlite.update_users uid sn ne sh (mkWorld (Online db) clk evs)
            = (Ok tt,
               mkWorld
                 (Online
                    (Sqlite.mkDb
                       (map (Sqlite.update_row uid sn ne sh)
                          (Sqlite.users db))
                       (Sqlite.predictions db) (Sqlite.next_user_id db)))
                 clk evs)).
  { intros sn sh Hsn. unfold Sqlite.update_users. run_app.
    destruct Hsn as [->|[-> Tn]]; [reflexivity|].
    rewrite Tn in Tk. cbn [andb] in Tk.
    destruct nu as [n|]; [|reflexivity].
    cbn [text] in Tk. rewrite Tk. now rewrite andb_false_r. }
  destruct (truthy nu) eqn:Tn.
  - right. split; [reflexivity|].
    destruct nu as [n|]; [|discriminate].
    rewrite (U (Some n)) by (right; now split). reflexivity.
  - destruct ne as [em|].
    + right. split; [reflexivity|]. rewrite (U None) by now left.
      reflexivity.
    + destruct (truthy np) eqn:Tp.
      * right. split; [reflexivity|]. rewrite (U None) by now left.
        reflexivity.
      * left. repeat split; reflexivity.
Qed.

(** X16. The SQLite profile update. On a reachable store
    [update_user_profile] always answers and never changes an id, a role or
    a prediction; with ids and usernames each pairwise different before it,
    usernames are pairwise different after it. Asked to change the
    password of an id no user has, it answers "Profile updated" and leaves
    the store as it was, and it takes a new username of any length that no
    other user holds. *)
Theorem sqlite_profile_update
    (db : Sqlite.Db) (clk : Z) (evs : list event) (uid : Z)
    (new_username new_email new_password : option string) :
  let w := mkWorld (Online db) clk evs in
  let res :=
    Sqlite.update_user_profile uid new_username new_email new_password w in
  let after := Sqlite.stored_users (world_after res) in
  (exists success m, result res = Ok (success, m))
  /\ map u_id after = map u_id (Sqlite.users db)
  /\ map u_role after = map u_role (Sqlite.users db)
  /\ (forall db', store (world_after res) = Online db' ->
      Sqlite.predictions db' = Sqlite.predictions db)
  /\ (NoDup (map u_id (Sqlite.users db)) ->
      NoDup (usernames (Sqlite.users db)) -> NoDup (usernames after))
  /\ (Sqlite.select_by_id uid (Sqlite.users db) = None ->
      truthy new_username = false -> truthy new_password = true ->
      result res = Ok (true, "Profile updated")
      /\ store (world_after res) = store w)
  /\ (forall n, new_username = Some n -> n <> "" ->
      Sqlite.select_by_username n (Sqlite.users db) = None ->
      result res = Ok (true, "Profile updated")).
Proof.
  cbv zeta.
  destruct (sqlite_update_cases uid new_username new_email new_password db
              clk evs) as [[Tk ->]|[(Tk & Sn & Se & Sh & ->)|[Tk ->]]];
    unfold Sqlite.stored_users, result, world_after;
    cbn [fst snd store Sqlite.users];
    (split; [now do 2 eexists|]).
  - split; [reflexivity|]. split; [reflexivity|].
    split; [now intros db' [= <-]|]. split; [auto|]. split.
    + intros _ Tn. rewrite Tn in Tk. discriminate.
    + intros n -> Hn F. exfalso. cbn [truthy text] in Tk.
      apply andb_true_iff in Tk. destruct Tk as [_ Ex].
      apply existsb_exists in Ex. destruct Ex as (x & Hx & Hb).
      apply andb_true_iff in Hb. destruct Hb as [Hb _].
      unfold Sqlite.select_by_username in F.
      pose proof (find_none _ _ F x Hx) as C. cbv beta in C.
      rewrite C in Hb. discriminate.
  - split; [reflexivity|]. split; [reflexivity|].
    split; [now intros db' [= <-]|]. split; [auto|]. split.
    + intros _ _ Tp. rewrite Tp in Sh. discriminate.
    + intros n -> Hn F. exfalso. cbn [truthy] in Sn.
      destruct (n =? "")%string eqn:E; [|discriminate].
      apply String.eqb_eq in E. contradiction.
  - destruct (update_row_frame uid
                (if truthy new_username then new_username else None)
                new_email
                (if truthy new_password
                 then Some (generate_password_hash (text new_password))
                 else None) (Sqlite.users db)) as [F1 F2].
    split; [exact F1|]. split; [exact F2|].
    split; [now intros db' [= <-]|]. split; [|split].
    + intros Ni Nn. apply update_row_NoDup; auto.
      intros n x E Hx Hi Hn.
      destruct (truthy new_username) eqn:Tn; [|discriminate].
      subst new_username. cbn [andb text] in Tk.
      assert (B : existsb (fun u => (u_username u =? n)%string
                                    && negb (u_id u =? uid))
                    (Sqlite.users db) = true).
      { apply existsb_exists. exists x. split; [exact Hx|].
        apply andb_true_iff. split; [now apply String.eqb_eq|].
        apply negb_true_iff. now apply Z.eqb_neq. }
      rewrite B in Tk. discriminate.
    + intros F _ _. split; [reflexivity|].
      rewrite update_row_absent by exact F. now destruct db.
    + intros; reflexivity.
Qed.

End SqliteProfile.

(** ** Risk categories: order and recommendation *)

Lemma SFleb_ltb_trans (x y z : spec_float) :
  SFleb x y = true -> SFltb y z = true -> SFltb x z = true.
Proof.
  unfold SFleb, SFltb, SFcompare.
  destruct x as [sx|sx| |sx mx ex], y as [sy|sy| |sy my ey],
    z as [sz|sz| |sz mz ez];
    try (intros; congruence);
    try (destruct sx; intros; congruence);
    try (destruct sy; intros; congruence);
    try (destruct sz; intros; congruence);
    try (destruct sx, sy; intros; congruence);
    try (destruct sx, sz; intros; congruence);
    try (destruct sy, sz; intros; congruence);
    try (destruct sx, sy, sz; intros; congruence).
  destruct sx, sy, sz; try (intros; congruence);
    change (Pos.compare_cont Eq mx my) with (mx ?= my)%positive;
    change (Pos.compare_cont Eq my mz) with (my ?= mz)%positive;
    change (Pos.compare_cont Eq mx mz) with (mx ?= mz)%positive;
    destruct (Z.compare_spec ex ey), (Z.compare_spec ey ez),
      (Z.compare_spec ex ez); try lia; cbn; try (intros; congruence);
    destruct (Pos.compare_spec mx my), (Pos.compare_spec my mz),
      (Pos.compare_spec mx mz); try lia; cbn; intros; congruence.
Qed.

Lemma leb_ltb_trans (x y z : float) :
  (x <=? y)%float = true -> (y <? z)%float = true -> (x <? z)%float = true.
Proof. rewrite leb_spec, !ltb_spec. apply SFleb_ltb_trans. Qed.

(** X18. The risk category rises with the probability: of two
    probabilities, the larger one is never given the lower category, LOW
    being below MEDIUM and MEDIUM below HIGH. *)
Theorem risk_category_rises_with_probability (p q : float) :
  (p <=? q)%float = true ->
  risk_rank (fst (get_risk_category p))
  <= risk_rank (fst (get_risk_category q)).
Proof.
  intros H. unfold get_risk_category.
  destruct (q <? 0.33)%float eqn:Q1.
  - rewrite (leb_ltb_trans p q _ H Q1). reflexivity.
  - destruct (q <? 0.67)%float eqn:Q2.
    + rewrite (leb_ltb_trans p q _ H Q2).
      destruct (p <? 0.33)%float; vm_compute; discriminate.
    + destruct (p <? 0.33)%float; [vm_compute; discriminate|].
      destruct (p <? 0.67)%float; vm_compute; discriminate.
Qed.

(** X19. Every float is given one of the three categories with its own
    colour, and the recommendation [patient_predict] shows for it is one of
    the three written for them, never the text kept for errors. A
    probability that is not a number is rated HIGH. *)
Theorem every_probability_has_a_recommendation (p : float) :
  In (get_risk_category p)
    [("LOW", "#27ae60"); ("MEDIUM", "#f39c12"); ("HIGH", "#e74c3c")]
  /\ get_recommendation (fst (get_risk_category p))
     <> "Unable to generate recommendation due to error."
  /\ get_recommendation (fst (get_risk_category p))
     <> get_recommendation "ERROR"
  /\ (Prim2SF p = S754_nan -> fst (get_risk_category p) = "HIGH").
Proof.
  unfold get_risk_category.
  assert (N : forall c, Prim2SF p = S754_nan -> (p <? c)%float = false).
  { intros c Hn. rewrite ltb_spec, Hn. reflexivity. }
  repeat split.
  - destruct (p <? 0.33)%float; [now left|].
    destruct (p <? 0.67)%float; [right; now left|right; right; now left].
  - destruct (p <? 0.33)%float; [discriminate|].
    destruct (p <? 0.67)%float; discriminate.
  - destruct (p <? 0.33)%float; [discriminate|].
    destruct (p <? 0.67)%float; discriminate.
  - intros Hn. now rewrite !(N _ Hn).
Qed.

(** ** Usernames stay unique *)

Section Uniqueness.
Context `{RT : Runtime}.

Lemma replace_first_usernames uid d (us : list User) :
  Mongo.set_username d = None ->
  usernames (Mongo.replace_first uid d us) = usernames us.
Proof.
  intros H. unfold usernames.
  induction us as [|h t IH]; cbn [Mongo.replace_first map]; [reflexivity|].
  destruct (u_id h =? uid); cbn [map]; [|now rewrite IH].
  unfold Mongo.apply_update. cbn [u_username]. now rewrite H.
Qed.

(** What a profile update does to the stored users. *)
Lemma mongo_update_users user_id nu ne np (w : World Mongo.Db) :
  let after :=
    Mongo.stored_users
      (world_after (Mongo.update_user_profile user_id nu ne np w)) in
  after = Mongo.stored_users w
  \/ exists uid u,
       Mongo.find_by_id uid (Mongo.stored_users w) = Some u
       /\ (forall x, In x (Mongo.remove_first uid (Mongo.stored_users w)) ->
           u_username x
           <> u_username (Mongo.apply_update (update_doc_of nu ne np) u)
           /\ u_email x
              <> u_email (Mongo.apply_update (update_doc_of nu ne np) u))
       /\ after
          = Mongo.replace_first uid (update_doc_of nu ne np)
              (Mongo.stored_users w).
Proof.
  cbv zeta.
  destruct (mongo_update_cases user_id nu ne np w)
    as [(m & _ & Hs)|[(_ & Hw)|(_ & db & uid & u & Hdb & _ & Fi & _ & _
                                 & Ex & Hw)]].
  - left. unfold Mongo.stored_users. now rewrite Hs.
  - left. now rewrite Hw.
  - right. exists uid, u. unfold Mongo.stored_users. rewrite Hw, Hdb.
    cbn [store Mongo.users]. split; [exact Fi|]. split; [|reflexivity].
    exact (existsb_collision_false _ _ Ex).
Qed.

Lemma mongo_save_users user_id features p category (w : World Mongo.Db) :
  Mongo.stored_users
    (world_after (Mongo.save_assessment user_id features p category w))
  = Mongo.stored_users w.
Proof.
  unfold Mongo.save_assessment, Mongo.to_oid, Mongo.assessments_insert_one,
    Mongo.stored_users.
  destruct w as [[db|reason] clk evs]; run_app; [|reflexivity].
  destruct (Mongo.oid_of user_id); reflexivity.
Qed.

Lemma mongo_perform_keeps (q : Mongo.write) (w : World Mongo.Db) :
  (Mongo.renames q = false ->
   forall u, In u (usernames (Mongo.stored_users w)) ->
             In u (usernames (Mongo.stored_users (Mongo.perform q w))))
  /\ (NoDup (usernames (Mongo.stored_users w)) ->
      NoDup (usernames (Mongo.stored_users (Mongo.perform q w))))
  /\ (NoDup (emails (Mongo.stored_users w)) ->
      NoDup (emails (Mongo.stored_users (Mongo.perform q w)))).
Proof.
  destruct q as [[u e p r]|user_id nu ne np|user_id features p category];
    cbn [Mongo.perform Mongo.renames rq_username rq_email rq_password
           rq_role].
  - destruct (mongo_register_users u e p r w)
      as [E|(Hu & He & new & Nu & Ne & E)]; cbv zeta in *; rewrite E.
    + auto.
    + unfold usernames, emails in *. rewrite !map_app. cbn [map].
      rewrite Nu, Ne. repeat split.
      * intros _ x Hx. apply in_or_app. now left.
      * intros N. now apply NoDup_snoc.
      * intros N. now apply NoDup_snoc.
  - destruct (mongo_update_users user_id nu ne np w)
      as [E|(uid & u & Fi & Free & E)]; cbv zeta in *; rewrite E.
    + auto.
    + repeat split.
      * intros Hn x Hx. rewrite replace_first_usernames; [exact Hx|].
        unfold update_doc_of. cbn [Mongo.set_username]. now rewrite Hn.
      * apply (replace_first_NoDup u_username _ _ _ u Fi).
        intros x Hx. apply (Free x Hx).
      * apply (replace_first_NoDup u_email _ _ _ u Fi).
        intros x Hx. apply (Free x Hx).
  - rewrite mongo_save_users. auto.
Qed.

Lemma mongo_perform_all_keeps (qs : list Mongo.write) (w : World Mongo.Db) :
  (Forall (fun q => Mongo.renames q = false) qs ->
   forall u, In u (usernames (Mongo.stored_users w)) ->
             In u (usernames (Mongo.stored_users (Mongo.perform_all qs w))))
  /\ (NoDup (usernames (Mongo.stored_users w)) ->
      NoDup (usernames (Mongo.stored_users (Mongo.perform_all qs w))))
  /\ (NoDup (emails (Mongo.stored_users w)) ->
      NoDup (emails (Mongo.stored_users (Mongo.perform_all qs w)))).
Proof.
  revert w. induction qs as [|q qs IH]; intros w;
    cbn [Mongo.perform_all fold_left]; [auto|].
  destruct (mongo_perform_keeps q w) as (K1 & K2 & K3).
  destruct (IH (Mongo.perform q w)) as (I1 & I2 & I3).
  unfold Mongo.perform_all in *.
  repeat split.
  - intros F u Hu. inversion F as [|x xs Hq Hqs]; subst.
    apply (I1 Hqs), (K1 Hq), Hu.
  - intros N. apply I2, K2, N.
  - intros N. apply I3, K3, N.
Qed.

(** The SQLite variants. *)
Lemma update_row_usernames uid ne nh (us : list User) :
  usernames (map (Sqlite.update_row uid None ne nh) us) = usernames us.
Proof.
  unfold usernames. rewrite map_map. apply map_ext. intros x.
  unfold Sqlite.update_row. now destruct (u_id x =? uid).
Qed.

Lemma sqlite_update_store uid nu ne np (w : World Sqlite.Db) :
  let res := Sqlite.update_user_profile uid nu ne np w in
  store (world_after res) = store w
  \/ exists db,
       store w = Online db
       /\ (truthy nu
           && existsb (fun u => (u_username u =? text nu)%string
                                && negb (u_id u =? uid)) (Sqlite.users db)
           = false)
       /\ store (world_after res)
          = Online
              (Sqlite.mkDb
                 (map (Sqlite.update_row uid
                         (if truthy nu then nu else None) ne
                         (if truthy np
                          then Some (generate_password_hash (text np))
                          else None))
                    (Sqlite.users db))
                 (Sqlite.predictions db) (Sqlite.next_user_id db)).
Proof.
  cbv zeta. destruct w as [[db|reason] clk evs]; [|left; reflexivity].
  destruct (sqlite_update_cases uid nu ne np db clk evs)
    as [[_ ->]|[(_ & _ & _ & _ & ->)|[Tk ->]]].
  - now left.
  - now left.
  - right. exists db. repeat split. exact Tk.
Qed.

Lemma sqlite_save_store uid features p category (w : World Sqlite.Db) :
  let after :=
    world_after (Sqlite.save_prediction uid features p category w) in
  Sqlite.stored_users after = Sqlite.stored_users w
  /\ (Sqlite.keyed w -> Sqlite.keyed after).
Proof.
  cbv zeta. unfold Sqlite.save_prediction, Sqlite.stored_users, Sqlite.keyed.
  destruct w as [[db|reason] clk evs]; run_app; [|auto].
  destruct (Sqlite.subscript_all features ASSESSMENT_COLUMNS);
    cbn [fst snd store];
    auto.
Qed.

Lemma sqlite_register_keyed (u e p r : string) (w : World Sqlite.Db) :
  Sqlite.keyed w ->
  Sqlite.keyed (world_after (Sqlite.register_user u e p r w)).
Proof.
  unfold Sqlite.register_user.
  destruct ((u =? "")%string || shorter_than u 3); [auto|].
  destruct ((p =? "")%string || shorter_than p 6); [auto|].
  destruct (negb ((r =? "patient")%string || (r =? "doctor")%string));
    [auto|].
  destruct w as [[db|reason] clk evs]; [|auto].
  unfold Sqlite.insert_user, Sqlite.keyed. run_app.
  destruct (Sqlite.select_by_username u (Sqlite.users db)) eqn:F;
    [auto|].
  run_app. rewrite F. run_app. cbn [Sqlite.users Sqlite.next_user_id].
  intros [N B]. rewrite map_app. cbn [map u_id]. split.
  - apply NoDup_snoc; [exact N|]. intros Hin.
    rewrite Forall_forall in B. specialize (B _ Hin). lia.
  - apply Forall_app. split.
    + eapply Forall_impl; [|exact B]. intros i Hi. cbv beta in *. lia.
    + constructor; [lia|constructor].
Qed.

Lemma sqlite_perform_keeps (q : Sqlite.write) (w : World Sqlite.Db) :
  (Sqlite.renames q = false ->
   forall u, In u (usernames (Sqlite.stored_users w)) ->
             In u (usernames (Sqlite.stored_users (Sqlite.perform q w))))
  /\ (Sqlite.keyed w -> Sqlite.keyed (Sqlite.perform q w))
  /\ (Sqlite.keyed w -> NoDup (usernames (Sqlite.stored_users w)) ->
      NoDup (usernames (Sqlite.stored_users (Sqlite.perform q w)))).
Proof.
  destruct q as [[u e p r]|uid nu ne np|uid features p category];
    cbn [Sqlite.perform Sqlite.renames rq_username rq_email rq_password
           rq_role].
  - split; [|split].
    + intros _ x Hx.
      destruct (sqlite_register_users u e p r w)
        as [E|(Hu & new & Nu & E)]; cbv zeta in *; rewrite E; [exact Hx|].
      unfold usernames in *. rewrite map_app. apply in_or_app. now left.
    + apply sqlite_register_keyed.
    + intros _ N.
      destruct (sqlite_register_users u e p r w)
        as [E|(Hu & new & Nu & E)]; cbv zeta in *; rewrite E; [exact N|].
      unfold usernames in *. rewrite map_app. cbn [map]. rewrite Nu.
      now apply NoDup_snoc.
  - destruct (sqlite_update_store uid nu ne np w)
      as [E|(db & Hw & Tk & E)]; cbv zeta in *;
      unfold Sqlite.stored_users, Sqlite.keyed; rewrite E.
    + auto.
    + rewrite Hw. cbn [Sqlite.users Sqlite.next_user_id].
      destruct (update_row_frame uid (if truthy nu then nu else None) ne
                  (if truthy np
                   then Some (generate_password_hash (text np)) else None)
                  (Sqlite.users db)) as [Fi _].
      split; [|split].
      * intros Hn x Hx. rewrite Hn. now rewrite update_row_usernames.
      * rewrite Fi. auto.
      * intros [Ni _] Nn. apply update_row_NoDup; auto.
        intros n x En Hx Hi Hname.
        destruct (truthy nu) eqn:Tn; [|discriminate].
        subst nu. cbn [andb text] in Tk.
        assert (B : existsb (fun u => (u_username u =? n)%string
                                      && negb (u_id u =? uid))
                      (Sqlite.users db) = true).
        { apply existsb_exists. exists x. split; [exact Hx|].
          apply andb_true_iff. split; [now apply String.eqb_eq|].
          apply negb_true_iff. now apply Z.eqb_neq. }
        rewrite B in Tk. discriminate.
  - destruct (sqlite_save_store uid features p category w) as [E K].
    cbv zeta in *. rewrite E. auto.
Qed.

Lemma sqlite_perform_all_keeps (qs : list Sqlite.write)
    (w : World Sqlite.Db) :
  (Forall (fun q => Sqlite.renames q = false) qs ->
   forall u, In u (usernames (Sqlite.stored_users w)) ->
             In u (usernames
                     (Sqlite.stored_users (Sqlite.perform_all qs w))))
  /\ (Sqlite.keyed w -> NoDup (usernames (Sqlite.stored_users w)) ->
      NoDup (usernames (Sqlite.stored_users (Sqlite.perform_all qs w)))).
Proof.
  revert w. induction qs as [|q qs IH]; intros w;
    cbn [Sqlite.perform_all fold_left]; [auto|].
  destruct (sqlite_perform_keeps q w) as (K1 & K2 & K3).
  destruct (IH (Sqlite.perform q w)) as (I1 & I2).
  unfold Sqlite.perform_all in *.
  split.
  - intros F u Hu. inversion F as [|x xs Hq Hqs]; subst.
    apply (I1 Hqs), (K1 Hq), Hu.
  - intros K N. apply I2; auto.
Qed.

(** C6, as the code has it. A registration is refused when the username
    has fewer than 3 characters, the password fewer than 6, the role is
    neither patient nor doctor, or the username is already stored; the
    MongoDB variant also refuses an e-mail address that is already stored
    (the SQLite variants put no constraint on it). Once a registration of
    a username was accepted, a later registration of that username is
    refused, with the message that the username exists when its password
    and role are valid, whatever registrations, saved assessments and
    profile updates that ask for no new username were made in between.
    Under every run of registrations, profile updates and saved
    assessments the stored usernames stay pairwise different. *)
Theorem registration_is_validated_and_unique
    (wm : World Mongo.Db) (ws : World Sqlite.Db) (u e p r : string) :
  let rm := Mongo.register_user u e p r wm in
  let rs := Sqlite.register_user u e p r ws in
  (shorter_than u 3 = true \/ shorter_than p 6 = true
   \/ (r <> "patient" /\ r <> "doctor") ->
   (rejected rm /\ world_after rm = wm)
   /\ (rejected rs /\ world_after rs = ws))
  /\ (In u (usernames (Mongo.stored_users wm))
      \/ In e (emails (Mongo.stored_users wm)) ->
      rejected rm /\ store (world_after rm) = store wm)
  /\ (In u (usernames (Sqlite.stored_users ws)) ->
      rejected rs /\ store (world_after rs) = store ws)
  /\ (accepted rm ->
      forall later e' p' r',
        Forall (fun q => Mongo.renames q = false) later ->
        let again :=
          Mongo.register_user u e' p' r'
            (Mongo.perform_all later (world_after rm)) in
        rejected again
        /\ (shorter_than p' 6 = false -> r' = "patient" \/ r' = "doctor" ->
            result again = Ok (false, "Username already exists")))
  /\ (accepted rs ->
      forall later e' p' r',
        Forall (fun q => Sqlite.renames q = false) later ->
        let again :=
          Sqlite.register_user u e' p' r'
            (Sqlite.perform_all later (world_after rs)) in
        rejected again
        /\ (shorter_than p' 6 = false -> r' = "patient" \/ r' = "doctor" ->
            result again = Ok (false, "Username already exists")))
  /\ (forall writes,
        (NoDup (usernames (Mongo.stored_users wm)) ->
         NoDup (usernames
                  (Mongo.stored_users (Mongo.perform_all writes wm))))
        /\ (NoDup (emails (Mongo.stored_users wm)) ->
            NoDup (emails
                     (Mongo.stored_users (Mongo.perform_all writes wm)))))
  /\ (forall writes,
        Sqlite.keyed ws ->
        NoDup (usernames (Sqlite.stored_users ws)) ->
        NoDup (usernames
                 (Sqlite.stored_users (Sqlite.perform_all writes ws)))).
Proof.
  cbv zeta. repeat apply conj.
  - intros H. split.
    + apply mongo_register_invalid, H.
    + apply sqlite_register_invalid, H.
  - apply mongo_register_taken.
  - apply sqlite_register_taken.
  - intros Hacc later e' p' r' F.
    destruct (mongo_accepted_stores _ _ _ _ _ Hacc) as [Hu Hin].
    apply (proj1 (mongo_perform_all_keeps later _) F) in Hin.
    split.
    + apply mongo_register_taken. now left.
    + intros Hp Hr. apply mongo_register_taken_message; assumption.
  - intros Hacc later e' p' r' F.
    destruct (sqlite_accepted_stores _ _ _ _ _ Hacc) as [Hu Hin].
    apply (proj1 (sqlite_perform_all_keeps later _) F) in Hin.
    split.
    + apply sqlite_register_taken. exact Hin.
    + intros Hp Hr. apply sqlite_register_taken_message; assumption.
  - intros writes. split.
    + apply (mongo_perform_all_keeps writes wm).
    + apply (mongo_perform_all_keeps writes wm).
  - intros writes. apply (sqlite_perform_all_keeps writes ws).
Qed.

End Uniqueness.

(** ** The properties at the sample clinic *)

Lemma complete_features_complete (name : string) :
  In name ASSESSMENT_COLUMNS -> dict_get complete_features name <> None.
Proof.
  intros H. cbn [ASSESSMENT_COLUMNS In] in H.
  repeat (destruct H as [<-|H]; [vm_compute; discriminate|]).
  contradiction.
Qed.

Lemma clinic_usernames_differ : NoDup (usernames (Mongo.users clinic)).
Proof.
  repeat constructor; cbn; intuition discriminate.
Qed.

Lemma saved_assessment_joins_history_witness :
  result
    (Mongo.save_assessment (RT := sample_runtime) (IdStr "1")
       complete_features 0.9%float "HIGH" clinic_world)
  = Ok true.
Proof.
  refine (proj1 (saved_assessment_joins_history (RT := sample_runtime)
                   (EN := scan_order_engine) clinic 300 [] (IdStr "1") 1
                   complete_features 0.9%float "HIGH" _)).
  vm_compute. reflexivity.
Defined.

Lemma saved_prediction_joins_history_witness :
  result
    (Sqlite.save_prediction 1 complete_features 0.9%float "HIGH"
       (mkWorld (Online sqlite_clinic) 300 []))
  = Ok true.
Proof.
  exact (proj1 (saved_prediction_joins_history (EN := scan_order_engine)
                  sqlite_clinic 300 [] 1 complete_features 0.9%float "HIGH"
                  complete_features_complete)).
Defined.

Lemma missing_feature_saved_as_none_or_refused_witness :
  result
    (Sqlite.save_prediction 1 [] 0.9%float "HIGH"
       (mkWorld (Online sqlite_clinic) 300 []))
  = Ok false.
Proof.
  refine (proj1 (proj2 (missing_feature_saved_as_none_or_refused
                          (RT := sample_runtime) clinic
                          (mkWorld (Online sqlite_clinic) 300 []) 300 []
                          (IdStr "1") 1 1 [] 0.9%float "HIGH" "age" _ _) _)).
  - cbn. now left.
  - vm_compute. reflexivity.
  - reflexivity.
Defined.

Lemma patient_profile_is_for_patients_witness :
  result
    (Mongo.doctor_patient_details (RT := sample_runtime)
       (EN := scan_order_engine) "99" (Some rao_session) clinic_world)
  = Ok (Mongo.Template "doctor_dashboard.html"
          [("username", Mongo.VStr "rao");
           ("error", Mongo.VStr "Patient not found")]).
Proof.
  refine (proj2 (proj1 (patient_profile_is_for_patients
                          (RT := sample_runtime) (EN := scan_order_engine)
                          clinic 300 [] "99" rao_session _) _)).
  - reflexivity.
  - right. exists 99. split; [vm_compute; reflexivity|].
    intros u [<-|[<-|[]]]; vm_compute; discriminate.
Defined.

Lemma changed_credentials_then_login_witness :
  result
    (Mongo.login_user (RT := sample_runtime) "alice" "newsecret"
       (world_after
          (Mongo.update_user_profile (RT := sample_runtime) (IdObj 1) None
             None (Some "newsecret") clinic_world)))
  = Ok (true, Some (Mongo.mkUserInfo 1 "patient" "alice")).
Proof.
  refine (proj1 (changed_credentials_then_login (RT := sample_runtime)
                   clinic 300 [] 1 alice None None (Some "newsecret")
                   "newsecret" _ _ _)).
  - exact clinic_usernames_differ.
  - reflexivity.
  - vm_compute. reflexivity.
Defined.

Lemma doctor_listing_page_count_witness :
  result
    (Mongo.doctor_assessments (RT := sample_runtime)
       (EN := scan_order_engine)
       (Mongo.mkListingArgs None (Some "0") None None None None)
       (Some rao_session) clinic_world)
  = Raised (Exception "integer division or modulo by zero").
Proof.
  refine (proj1 (proj2 (doctor_listing_page_count (RT := sample_runtime)
                          (EN := scan_order_engine)
                          (Mongo.mkListingArgs None (Some "0") None None None
                             None)
                          rao_session clinic_world 1 0 _ _ _)) _);
    reflexivity.
Defined.

Lemma risk_category_rises_with_probability_witness :
  risk_rank (fst (get_risk_category 0.2))
  <= risk_rank (fst (get_risk_category 0.5)).
Proof.
  apply (risk_category_rises_with_probability 0.2 0.5).
  vm_compute. reflexivity.
Defined.

(** C6 fails as stated. The SQLite variants accept a second user with an
    e-mail address that is already stored. And a username that was
    registered registers again once a profile update has renamed its
    user. *)
Lemma registration_accepts_what_was_to_be_refused :
  In "a@x.com" (emails (Sqlite.users sqlite_clinic))
  /\ result
       (Sqlite.register_user (RT := sample_runtime) "carol" "a@x.com"
          "secret3" "patient" (mkWorld (Online sqlite_clinic) 300 []))
     = Ok (true, "Registration successful")
  /\ emails
       (Sqlite.stored_users
          (world_after
             (Sqlite.register_user (RT := sample_runtime) "carol" "a@x.com"
                "secret3" "patient" (mkWorld (Online sqlite_clinic) 300 []))))
     = ["a@x.com"; "b@x.com"; "a@x.com"]
  /\ result
       (Mongo.register_user (RT := sample_runtime) "carol" "c@x.com"
          "secret3" "patient" clinic_world)
     = Ok (true, "Registration successful")
  /\ result
       (Mongo.register_user (RT := sample_runtime) "carol" "c2@x.com"
          "secret4" "patient"
          (Mongo.perform_all (RT := sample_runtime)
             [Mongo.UpdateProfile (IdObj 13) (Some "caroline") None None]
             (world_after
                (Mongo.register_user (RT := sample_runtime) "carol" "c@x.com"
                   "secret3" "patient" clinic_world))))
     = Ok (true, "Registration successful")
  /\ usernames
       (Mongo.stored_users
          (world_after
             (Mongo.register_user (RT := sample_runtime) "carol" "c2@x.com"
                "secret4" "patient"
                (Mongo.perform_all (RT := sample_runtime)
                   [Mongo.UpdateProfile (IdObj 13) (Some "caroline") None
                      None]
                   (world_after
                      (Mongo.register_user (RT := sample_runtime) "carol"
                         "c@x.com" "secret3" "patient" clinic_world))))))
     = ["alice"; "bob"; "caroline"; "carol"].
Proof. repeat split; vm_compute; auto. Qed.

Lemma registration_is_validated_and_unique_witness :
  rejected
    (Mongo.register_user (RT := sample_runtime) "carol" "a@x.com" "secret3"
       "patient" clinic_world)
  /\ store
       (world_after
          (Mongo.register_user (RT := sample_runtime) "carol" "a@x.com"
             "secret3" "patient" clinic_world))
     = store clinic_world.
Proof.
  refine (proj1 (proj2 (registration_is_validated_and_unique
                          (RT := sample_runtime) clinic_world
                          (mkWorld (Online sqlite_clinic) 300 [])
                          "carol" "a@x.com" "secret3" "patient")) _).
  right. vm_compute. auto.
Defined.
